(** * IronWallet: the screens' arithmetic and data-store traffic

    A shallow embedding of the handlers of the IronWallet screens
    (onboarding, treat wallet, locked savings, transactions, reports,
    settings) together with the part of the relational schema they write to,
    followed by the properties of the percentage bookkeeping, of the amounts
    in cents and of the gating of spends and unlocks.

    - [JS], [JSString]: numbers and the conversions between text and numbers
      ([parseInt], [parseFloat], [Math.round], [toFixed]).
    - [Store]: the tables, their column types and constraints, and the
      requests the [supabase] client sends, as transformers of the store.
    - [Onboarding], [Treat], [Locked], [Transactions], [Reports],
      [Settings]: one module per screen; a handler takes the screen state it
      was rendered with and answers with the next one.
    - [Spec], [Fixture]: notions used in the statements, and concrete
      stores and sessions.
    - [OnboardingForm], [LockedForm], [Dashboard]: the "Next" button and the
      category amounts of the onboarding screen, the "Lock It" button with
      the sessions that go through the buttons, and the dashboard that reads
      what the setup wrote; [Terms] holds the notions of their statements.
    - The modules whose names end in [Facts] hold the lemmas and theorems.

    JavaScript numbers are IEEE-754 binary64 values.  They are modelled by
    their exact rational value, and every arithmetic operation rounds its
    exact result to the nearest double (ties to even).  The sign of zero is
    not represented: no expression of the modelled code divides by zero or
    otherwise observes it. *)

From Stdlib Require Import ZArith QArith Qround Qpower Qreduction Qabs.
From Stdlib Require Import Lia Lqa List Bool String Ascii.
From Stdlib Require Import Sorting.Sorted Sorting.Permutation.
From Stdlib Require Import SpecFloat.
Import ListNotations.

Local Open Scope Z_scope.

(** ** JavaScript numbers *)

Module JS.

Inductive number : Type :=
| NaN
| Infinity (negative : bool)
| Num (q : Q).

Definition two : Q := 2 # 1.

(** [ilog2 a] is the binary exponent of a positive rational:
    [2^(ilog2 a) <= a < 2^(ilog2 a + 1)]. *)
Definition ilog2 (a : Q) : Z :=
  let k := Z.log2 (Qnum a) - Z.log2 (Zpos (Qden a)) in
  if Qle_bool (two ^ k) a then k else k - 1.

(** Nearest integer, ties to the even one. *)
Definition nearest_even (x : Q) : Z :=
  let f := Qfloor x in
  match (x - inject_Z f ?= 1 # 2)%Q with
  | Lt => f
  | Gt => f + 1
  | Eq => if Z.even f then f else f + 1
  end.

(** Exponent of the unit in the last place of the double nearest to [a]:
    53 significant bits, never below the subnormal exponent -1074. *)
Definition ulp_exp (a : Q) : Z := Z.max (ilog2 a - 52) (-1074).

(** Rounding of a positive rational to binary64. *)
Definition round_pos (a : Q) : number :=
  let e := ulp_exp a in
  let v := (inject_Z (nearest_even (a / two ^ e)) * two ^ e)%Q in
  if Qle_bool (two ^ 1024) v then Infinity false else Num (Qred v).

Definition neg (x : number) : number :=
  match x with
  | NaN => NaN
  | Infinity s => Infinity (negb s)
  | Num q => Num (Qred (- q))
  end.

(** The Number value for a mathematical value. *)
Definition to_double (x : Q) : number :=
  match (x ?= 0)%Q with
  | Eq => Num 0
  | Gt => round_pos x
  | Lt => neg (round_pos (- x))
  end.

Definition is_neg (q : Q) : bool := negb (Qle_bool 0 q).
Definition is_zero (q : Q) : bool := Qeq_bool q 0.

Definition mul (x y : number) : number :=
  match x, y with
  | NaN, _ | _, NaN => NaN
  | Infinity s, Infinity t => Infinity (xorb s t)
  | Infinity s, Num q | Num q, Infinity s =>
      if is_zero q then NaN else Infinity (xorb s (is_neg q))
  | Num p, Num q => to_double (p * q)
  end.

(** Division; a zero divisor is taken to be +0. *)
Definition div (x y : number) : number :=
  match x, y with
  | NaN, _ | _, NaN => NaN
  | Infinity _, Infinity _ => NaN
  | Infinity s, Num q => Infinity (xorb s (is_neg q))
  | Num _, Infinity _ => Num 0
  | Num p, Num q =>
      if is_zero q then (if is_zero p then NaN else Infinity (is_neg p))
      else to_double (p / q)
  end.

Definition add (x y : number) : number :=
  match x, y with
  | NaN, _ | _, NaN => NaN
  | Infinity s, Infinity t => if Bool.eqb s t then Infinity s else NaN
  | Infinity s, Num _ | Num _, Infinity s => Infinity s
  | Num p, Num q => to_double (p + q)
  end.

Definition sub (x y : number) : number := add x (neg y).

(** [x > y], [x >= y], [x <= y]: false as soon as an operand is NaN. *)
Definition gt (x y : number) : bool :=
  match x, y with
  | NaN, _ | _, NaN => false
  | Infinity s, Infinity t => negb s && t
  | Infinity s, Num _ => negb s
  | Num _, Infinity t => t
  | Num p, Num q => negb (Qle_bool p q)
  end.

Definition ge (x y : number) : bool :=
  match x, y with
  | NaN, _ | _, NaN => false
  | Infinity s, Infinity t => negb s || t
  | Infinity s, Num _ => negb s
  | Num _, Infinity t => t
  | Num p, Num q => Qle_bool q p
  end.

Definition le (x y : number) : bool := ge y x.

(** Strict equality [===] on numbers. *)
Definition seq (x y : number) : bool :=
  match x, y with
  | Infinity s, Infinity t => Bool.eqb s t
  | Num p, Num q => Qeq_bool p q
  | _, _ => false
  end.

(** ToBoolean on a number: NaN and zero are falsy. *)
Definition truthy (x : number) : bool :=
  match x with
  | NaN => false
  | Infinity _ => true
  | Num q => negb (is_zero q)
  end.

(** [Math.round]: the nearest integer, ties towards +Infinity. *)
Definition Math_round (x : number) : number :=
  match x with
  | Num q => Num (inject_Z (Qfloor (q + (1 # 2))))
  | _ => x
  end.

Definition Math_max (x y : number) : number :=
  match x, y with
  | NaN, _ | _, NaN => NaN
  | _, _ => if ge x y then x else y
  end.

Definition Math_min (x y : number) : number :=
  match x, y with
  | NaN, _ | _, NaN => NaN
  | _, _ => if le x y then x else y
  end.

Definition of_Z (z : Z) : number := Num (inject_Z z).

(** Unit roundoff of binary64, 2^-53. *)
Definition eps : Q := 1 # 9007199254740992.

End JS.

(** ** JavaScript strings and the number conversions the screens use *)

Module JSString.
Import JS.

(** A string is its sequence of UTF-16 code units. *)
Definition jsstring : Type := list N.

(** Spelling of an ASCII literal. *)
Definition str (s : string) : jsstring := map N_of_ascii (list_ascii_of_string s).

(** ToBoolean on a string: only the empty string is falsy. *)
Definition nonempty (s : jsstring) : bool :=
  match s with [] => false | _ => true end.

(** WhiteSpace and LineTerminator code units. *)
Definition is_space (c : N) : bool :=
  existsb (N.eqb c)
    [9; 10; 11; 12; 13; 32; 160; 5760; 8192; 8193; 8194; 8195; 8196; 8197;
     8198; 8199; 8200; 8201; 8202; 8232; 8233; 8239; 8287; 12288; 65279]%N.

Fixpoint trim_start (s : jsstring) : jsstring :=
  match s with
  | c :: r => if is_space c then trim_start r else s
  | [] => []
  end.

(** Value of a code unit as a digit of the given radix (10 or 16). *)
Definition digit (radix : Z) (c : N) : option Z :=
  let z := Z.of_N c in
  if (48 <=? z) && (z <=? 57) then Some (z - 48)
  else if (radix =? 16) && (97 <=? z) && (z <=? 102) then Some (z - 87)
  else if (radix =? 16) && (65 <=? z) && (z <=? 70) then Some (z - 55)
  else None.

(** The longest prefix of digits, as digit values, and what follows it. *)
Fixpoint span_digits (radix : Z) (s : jsstring) : list Z * jsstring :=
  match s with
  | c :: r =>
      match digit radix c with
      | Some d => let (ds, rest) := span_digits radix r in (d :: ds, rest)
      | None => ([], s)
      end
  | [] => ([], [])
  end.

Definition digits_value (radix : Z) (ds : list Z) : Z :=
  fold_left (fun acc d => acc * radix + d) ds 0.

(** Leading sign of a numeric literal. *)
Definition split_sign (s : jsstring) : bool * jsstring :=
  match s with
  | 45%N :: r => (true, r)
  | 43%N :: r => (false, r)
  | _ => (false, s)
  end.

(** [parseInt(string)] without a radix argument.  The integer denoted by
    the digits is taken exactly before it is rounded to a double; an engine
    may approximate it beyond the 20th significant digit, far above any
    value the callers tell apart. *)
Definition parseInt (s : jsstring) : number :=
  let (negative, s1) := split_sign (trim_start s) in
  let (radix, s2) :=
    match s1 with
    | 48%N :: 120%N :: r | 48%N :: 88%N :: r => (16, r)
    | _ => (10, s1)
    end in
  let (ds, _) := span_digits radix s2 in
  match ds with
  | [] => NaN
  | _ =>
      let v := digits_value radix ds in
      to_double (inject_Z (if negative then - v else v))
  end.

(** Exponent part of a decimal literal: [e] or [E], an optional sign and at
    least one digit; otherwise the literal ends before it. *)
Definition exponent_part (s : jsstring) : Z :=
  match s with
  | (101 | 69)%N :: r =>
      let (negative, r') := split_sign r in
      let (ds, _) := span_digits 10 r' in
      match ds with
      | [] => 0
      | _ => if negative then - digits_value 10 ds else digits_value 10 ds
      end
  | _ => 0
  end.

(** Mathematical value of the longest prefix that is an unsigned decimal
    literal ([digits], [digits.], [digits.digits], [.digits], each with an
    optional exponent), if there is one. *)
Definition decimal_MV (s : jsstring) : option Q :=
  let (ip, r1) := span_digits 10 s in
  let '(fp, r2) :=
    match r1 with
    | 46%N :: r => span_digits 10 r
    | _ => ([], r1)
    end in
  match ip, fp with
  | [], [] => None
  | _, _ =>
      let e := exponent_part r2 - Z.of_nat (List.length fp) in
      Some (inject_Z (digits_value 10 (ip ++ fp)) * (10 # 1) ^ e)%Q
  end.

Definition Infinity_word : jsstring := str "Infinity".

Fixpoint starts_with (p s : jsstring) : bool :=
  match p, s with
  | [], _ => true
  | a :: p', b :: s' => N.eqb a b && starts_with p' s'
  | _ :: _, [] => false
  end.

(** The longest prefix of the trimmed string that is a decimal literal:
    none, an infinity, or a signed mathematical value. *)
Inductive literal : Type :=
| lit_none
| lit_Infinity (negative : bool)
| lit_decimal (v : Q).

Definition StrDecimalLiteral (s : jsstring) : literal :=
  let (negative, s1) := split_sign (trim_start s) in
  if starts_with Infinity_word s1 then lit_Infinity negative
  else
    match decimal_MV s1 with
    | None => lit_none
    | Some v => lit_decimal (if negative then - v else v)%Q
    end.

(** [parseFloat(string)] *)
Definition parseFloat (s : jsstring) : number :=
  match StrDecimalLiteral s with
  | lit_none => NaN
  | lit_Infinity negative => Infinity negative
  | lit_decimal v => to_double v
  end.

(** Decimal digits of a non-negative integer, most significant first. *)
Fixpoint digits_fuel (fuel : nat) (n : Z) (acc : jsstring) : jsstring :=
  match fuel with
  | O => acc
  | S fuel' =>
      let acc' := Z.to_N (48 + n mod 10) :: acc in
      if n <? 10 then acc' else digits_fuel fuel' (n / 10) acc'
  end.

Definition digits_of (n : Z) : jsstring :=
  digits_fuel (S (Z.to_nat (Z.log2 n))) n [].

(** The digits of [n] hundredths in fixed notation: at least one digit,
    the point, two digits. *)
Definition fixed2_digits (n : Z) : jsstring :=
  digits_of (n / 100) ++ [46%N; Z.to_N (48 + (n mod 100) / 10); Z.to_N (48 + n mod 10)].

(** [x.toFixed(2)].  Values of magnitude 10^21 and more are printed by the
    source in exponent notation, which is not rendered here: [None]. *)
Definition toFixed2 (x : number) : option jsstring :=
  match x with
  | NaN => Some (str "NaN")
  | Infinity s => Some (if s then str "-Infinity" else str "Infinity")
  | Num q =>
      let negative := is_neg q in
      let a := (if negative then - q else q)%Q in
      if Qle_bool ((10 # 1) ^ 21) a then None
      else
        let n := Qfloor (a * 100 + (1 # 2)) in
        Some ((if negative then [45%N] else []) ++ fixed2_digits n)
  end.

(** [Math.round(parseFloat(value) * 100)], the conversion of an entered
    amount to cents in the onboarding, settings, locked-savings and
    treat-wallet handlers. *)
Definition inCents (value : jsstring) : number :=
  Math_round (mul (parseFloat value) (of_Z 100)).

(** [(cents / 100).toFixed(2)], the body of every [formatCurrency] after the
    currency sign. *)
Definition fromCents (cents : number) : option jsstring :=
  toFixed2 (div cents (of_Z 100)).

End JSString.

(** ** The data store

    The tables of [supabase/migrations/..._create_ironwallet_schema.sql] that
    the screens read and write, with the column types and constraints the
    handlers can run into: [integer] columns hold 32-bit integers, [text]
    columns hold well-formed text without U+0000, [timestamptz] columns read
    the dates of the years 0001 to 9999 as the client writes them, a request
    body carries NaN and the infinities as [null], and a statement that
    violates a constraint or carries a value its column does not take is
    rejected as a whole. *)

Module Store.
Import JS JSString.

Definition uuid : Type := N.
Definition timestamptz : Type := Z.

Record User : Type := { id : uuid }.

Record profiles_row : Type := {
  p_user_id : uuid;
  p_monthly_income : option Z;
  p_onboarding_completed : bool;
  p_impulse_blocker_enabled : bool;
  p_show_total_balance : bool
}.

Record budget_categories_row : Type := {
  bc_id : uuid;
  bc_user_id : uuid;
  bc_category_name : string;
  bc_category_type : string;
  bc_allocation_percentage : option Z;
  bc_current_balance : option Z;
  bc_color_code : string
}.

Record income_splits_row : Type := {
  is_id : uuid;
  is_user_id : uuid;
  is_category_id : uuid;
  is_split_percentage : Z
}.

Record transactions_row : Type := {
  t_id : uuid;
  t_user_id : uuid;
  t_transaction_type : string;
  t_amount : Z;
  t_merchant : jsstring;
  t_description : jsstring;
  t_transaction_date : timestamptz;
  t_is_impulse : bool
}.

Record locked_savings_row : Type := {
  ls_id : uuid;
  ls_user_id : uuid;
  ls_amount : Z;
  ls_lock_reason : jsstring;
  ls_locked_at : timestamptz;
  ls_unlock_date : timestamptz;
  ls_status : string
}.

Record treat_wallet_row : Type := {
  tw_user_id : uuid;
  tw_current_balance : option Z;
  tw_monthly_budget : option Z;
  tw_total_spent_this_month : option Z
}.

Record World : Type := {
  now : timestamptz;
  next_uuid : uuid;
  profiles : list profiles_row;
  budget_categories : list budget_categories_row;
  income_splits : list income_splits_row;
  transactions : list transactions_row;
  locked_savings : list locked_savings_row;
  treat_wallet : list treat_wallet_row
}.

(** *** Column types and CHECK constraints *)

Definition int4 (z : Z) : bool := (-2147483648 <=? z) && (z <=? 2147483647).

(** What an [integer] column makes of a number sent in a request body:
    [Some None] is SQL NULL (NaN and the infinities are serialized as
    [null]), [None] a rejected value (a fraction, or an integer outside the
    32-bit range). *)
Definition to_integer (v : number) : option (option Z) :=
  match v with
  | NaN | Infinity _ => Some None
  | Num q =>
      let z := Qfloor q in
      if Qeq_bool (inject_Z z) q && int4 z then Some (Some z) else None
  end.

(** A nullable integer read back by the client: [null] in arithmetic and
    comparisons is 0. *)
Definition of_integer (c : option Z) : number :=
  match c with
  | Some z => of_Z z
  | None => of_Z 0
  end.

(** What a [text] column takes of a string sent in a request body.  The
    body is JSON: U+0000 cannot be stored in [text], and a surrogate code unit
    without its partner, which [JSON.stringify] writes as an escape, is no
    character.  Everything else is stored as it is. *)
Definition is_high_surrogate (c : N) : bool := (55296 <=? c)%N && (c <=? 56319)%N.
Definition is_low_surrogate (c : N) : bool := (56320 <=? c)%N && (c <=? 57343)%N.

Fixpoint well_formed (s : jsstring) : bool :=
  match s with
  | [] => true
  | c :: r =>
      if is_high_surrogate c then
        match r with
        | d :: r' => is_low_surrogate d && well_formed r'
        | [] => false
        end
      else negb (is_low_surrogate c) && well_formed r
  end.

Definition is_text (s : jsstring) : bool :=
  forallb (fun c => negb (N.eqb c 0)) s && well_formed s.

(** What a [timestamptz] column takes of a time value sent as the text of
    [toISOString]: the years 0001 to 9999, from 0001-01-01T00:00:00.000Z to
    9999-12-31T23:59:59.999Z.  The column has no year 0000, and the sign and
    the six digits [toISOString] writes for a year outside 0000 to 9999 are
    no part of its syntax. *)
Definition is_timestamptz (t : timestamptz) : bool :=
  (-62135596800000 <=? t) && (t <=? 253402300799999).

Definition category_types : list string :=
  ["bills"; "goals"; "daily"; "freedom"; "emergency"]%string.

Definition transaction_types : list string :=
  ["income"; "expense"; "transfer"; "treat"]%string.

Definition saving_statuses : list string :=
  ["active"; "unlocked"; "cancelled"]%string.

Definition mem (s : string) (l : list string) : bool := existsb (String.eqb s) l.

(** [CHECK (c >= 0 AND c <= 100)]: satisfied by NULL. *)
Definition check_percentage (c : option Z) : bool :=
  match c with
  | Some z => (0 <=? z) && (z <=? 100)
  | None => true
  end.

(** *** Requests as state transformers *)

Definition Request (A : Type) : Type := World -> A * World.

Definition ret {A : Type} (a : A) : Request A := fun w => (a, w).

Definition bind {A B : Type} (m : Request A) (k : A -> Request B) : Request B :=
  fun w => let (a, w') := m w in k a w'.

Definition exec {A : Type} (m : Request A) (w : World) : World := snd (m w).
Definition eval {A : Type} (m : Request A) (w : World) : A := fst (m w).

(** The store and the answer after a request. *)
Definition run {A : Type} (m : Request A) (w : World) : World * A :=
  let (a, w') := m w in (w', a).

Declare Scope request_scope.
Delimit Scope request_scope with request.
Notation "x <- 'await' m ;; k" := (bind m (fun x => k))
  (at level 61, m at next level, right associativity) : request_scope.
Notation "'await' m ;; k" := (bind m (fun _ => k))
  (at level 61, m at next level, right associativity) : request_scope.

Local Open Scope request_scope.

(** [for (const x of xs) { await body(x) }] *)
Fixpoint for_of {A : Type} (xs : list A) (body : A -> Request unit) : Request unit :=
  match xs with
  | [] => ret tt
  | x :: xs' => await body x ;; for_of xs' body
  end.

(** The result of [.maybeSingle()]: the row when exactly one matches. *)
Definition maybeSingle {A : Type} (rows : list A) : option A :=
  match rows with
  | [r] => Some r
  | _ => None
  end.

(** The answer to a write: [true] when the statement was rejected. *)
Definition error : Type := bool.

(** *** profiles *)

Definition select_profile (uid : uuid) : Request (option profiles_row) :=
  fun w => (maybeSingle (filter (fun r => N.eqb (p_user_id r) uid) (profiles w)), w).

Definition set_profiles (w : World) (rows : list profiles_row) : World :=
  {| now := now w; next_uuid := next_uuid w; profiles := rows;
     budget_categories := budget_categories w; income_splits := income_splits w;
     transactions := transactions w; locked_savings := locked_savings w;
     treat_wallet := treat_wallet w |}.

(** [update({ monthly_income, onboarding_completed: true }).eq('user_id', uid)] *)
Definition update_profile_onboarding (uid : uuid) (monthly_income : number)
  : Request error :=
  fun w =>
    match to_integer monthly_income with
    | None => (true, w)
    | Some income =>
        (false,
         set_profiles w
           (map (fun r =>
                   if N.eqb (p_user_id r) uid then
                     {| p_user_id := p_user_id r;
                        p_monthly_income := income;
                        p_onboarding_completed := true;
                        p_impulse_blocker_enabled := p_impulse_blocker_enabled r;
                        p_show_total_balance := p_show_total_balance r |}
                   else r)
                (profiles w)))
    end.

(** [update({ monthly_income, impulse_blocker_enabled, show_total_balance })
     .eq('user_id', uid)] *)
Definition update_profile_settings (uid : uuid) (monthly_income : number)
    (impulse_blocker_enabled show_total_balance : bool) : Request error :=
  fun w =>
    match to_integer monthly_income with
    | None => (true, w)
    | Some income =>
        (false,
         set_profiles w
           (map (fun r =>
                   if N.eqb (p_user_id r) uid then
                     {| p_user_id := p_user_id r;
                        p_monthly_income := income;
                        p_onboarding_completed := p_onboarding_completed r;
                        p_impulse_blocker_enabled := impulse_blocker_enabled;
                        p_show_total_balance := show_total_balance |}
                   else r)
                (profiles w)))
    end.

(** *** budget_categories and income_splits *)

(** [select('id').eq('user_id', uid).eq('category_type', ty).maybeSingle()] *)
Definition select_category_id (uid : uuid) (ty : string) : Request (option uuid) :=
  fun w =>
    (option_map bc_id
       (maybeSingle
          (filter (fun r => N.eqb (bc_user_id r) uid && String.eqb (bc_category_type r) ty)
                  (budget_categories w))),
     w).

Record budget_category_insert : Type := {
  bci_user_id : uuid;
  bci_category_name : string;
  bci_category_type : string;
  bci_allocation_percentage : number;
  bci_current_balance : number;
  bci_color_code : string
}.

Definition insert_budget_category (p : budget_category_insert) : Request error :=
  fun w =>
    match to_integer (bci_allocation_percentage p), to_integer (bci_current_balance p) with
    | Some pct, Some bal =>
        if mem (bci_category_type p) category_types
           && check_percentage pct
           && negb (existsb (fun r => N.eqb (bc_user_id r) (bci_user_id p)
                                      && String.eqb (bc_category_type r) (bci_category_type p))
                            (budget_categories w))
        then
          (false,
           {| now := now w; next_uuid := N.succ (next_uuid w); profiles := profiles w;
              budget_categories :=
                budget_categories w ++
                [{| bc_id := next_uuid w;
                    bc_user_id := bci_user_id p;
                    bc_category_name := bci_category_name p;
                    bc_category_type := bci_category_type p;
                    bc_allocation_percentage := pct;
                    bc_current_balance := bal;
                    bc_color_code := bci_color_code p |}];
              income_splits := income_splits w;
              transactions := transactions w; locked_savings := locked_savings w;
              treat_wallet := treat_wallet w |})
        else (true, w)
    | _, _ => (true, w)
    end.

(** A property set to [undefined] is left out of the request body; the
    column then takes its default, NULL for [category_id]. *)
Record income_split_insert : Type := {
  isi_user_id : uuid;
  isi_category_id : option uuid;
  isi_split_percentage : number
}.

(** [category_id uuid REFERENCES budget_categories(id) ... NOT NULL],
    [split_percentage integer NOT NULL CHECK (...)], [UNIQUE(user_id, category_id)]. *)
Definition insert_income_split (p : income_split_insert) : Request error :=
  fun w =>
    match isi_category_id p, to_integer (isi_split_percentage p) with
    | Some cid, Some (Some pct) =>
        if existsb (fun r => N.eqb (bc_id r) cid) (budget_categories w)
           && check_percentage (Some pct)
           && negb (existsb (fun r => N.eqb (is_user_id r) (isi_user_id p)
                                      && N.eqb (is_category_id r) cid)
                            (income_splits w))
        then
          (false,
           {| now := now w; next_uuid := N.succ (next_uuid w); profiles := profiles w;
              budget_categories := budget_categories w;
              income_splits :=
                income_splits w ++
                [{| is_id := next_uuid w; is_user_id := isi_user_id p;
                    is_category_id := cid; is_split_percentage := pct |}];
              transactions := transactions w; locked_savings := locked_savings w;
              treat_wallet := treat_wallet w |})
        else (true, w)
    | _, _ => (true, w)
    end.

(** *** transactions *)

Record transaction_insert : Type := {
  ti_user_id : uuid;
  ti_transaction_type : string;
  ti_amount : number;
  ti_merchant : jsstring;
  ti_description : jsstring
}.

Definition set_transactions (w : World) (rows : list transactions_row) : World :=
  {| now := now w; next_uuid := N.succ (next_uuid w); profiles := profiles w;
     budget_categories := budget_categories w; income_splits := income_splits w;
     transactions := rows; locked_savings := locked_savings w;
     treat_wallet := treat_wallet w |}.

(** [amount integer NOT NULL], [transaction_type ... CHECK (... IN (...))],
    [merchant text], [description text],
    [transaction_date timestamptz DEFAULT now()], [is_impulse DEFAULT false]. *)
Definition insert_transaction (p : transaction_insert) : Request error :=
  fun w =>
    match to_integer (ti_amount p) with
    | Some (Some a) =>
        if mem (ti_transaction_type p) transaction_types
           && is_text (ti_merchant p) && is_text (ti_description p) then
          (false,
           set_transactions w
             (transactions w ++
              [{| t_id := next_uuid w;
                  t_user_id := ti_user_id p;
                  t_transaction_type := ti_transaction_type p;
                  t_amount := a;
                  t_merchant := ti_merchant p;
                  t_description := ti_description p;
                  t_transaction_date := now w;
                  t_is_impulse := false |}]))
        else (true, w)
    | _ => (true, w)
    end.

(** Stable insertion sort; [le x y] says [x] may come before [y]. *)
Fixpoint insert_by {A : Type} (le : A -> A -> bool) (x : A) (l : list A) : list A :=
  match l with
  | [] => [x]
  | y :: l' => if le x y then x :: l else y :: insert_by le x l'
  end.

Definition sort_by {A : Type} (le : A -> A -> bool) (l : list A) : list A :=
  fold_right (insert_by le) [] l.

(** A query on [transactions] as the client builds it: the filters, the
    ordering and the limit are collected, in whatever order they are
    chained, and the store applies them as WHERE, ORDER BY and LIMIT. *)
Record transactions_query : Type := {
  tq_where : transactions_row -> bool;
  tq_order_date_desc : bool;
  tq_limit : option nat
}.

Definition from_transactions : transactions_query :=
  {| tq_where := fun _ => true; tq_order_date_desc := false; tq_limit := None |}.

Definition filtered (f : transactions_row -> bool) (q : transactions_query)
  : transactions_query :=
  {| tq_where := fun r => tq_where q r && f r;
     tq_order_date_desc := tq_order_date_desc q;
     tq_limit := tq_limit q |}.

Definition eq_user_id (uid : uuid) : transactions_query -> transactions_query :=
  filtered (fun r => N.eqb (t_user_id r) uid).

Definition eq_transaction_type (ty : string) : transactions_query -> transactions_query :=
  filtered (fun r => String.eqb (t_transaction_type r) ty).

Definition order_transaction_date_desc (q : transactions_query) : transactions_query :=
  {| tq_where := tq_where q; tq_order_date_desc := true; tq_limit := tq_limit q |}.

Definition limit (n : nat) (q : transactions_query) : transactions_query :=
  {| tq_where := tq_where q; tq_order_date_desc := tq_order_date_desc q;
     tq_limit := Some n |}.

Definition date_desc (x y : transactions_row) : bool :=
  t_transaction_date y <=? t_transaction_date x.

Definition run_query (q : transactions_query) : Request (list transactions_row) :=
  fun w =>
    let rows := filter (tq_where q) (transactions w) in
    let rows := if tq_order_date_desc q then sort_by date_desc rows else rows in
    (match tq_limit q with Some n => firstn n rows | None => rows end, w).

(** *** treat_wallet *)

Definition select_wallet (uid : uuid) : Request (option treat_wallet_row) :=
  fun w => (maybeSingle (filter (fun r => N.eqb (tw_user_id r) uid) (treat_wallet w)), w).

(** [update({ current_balance, total_spent_this_month }).eq('user_id', uid)] *)
Definition update_wallet (uid : uuid) (current_balance total_spent_this_month : number)
  : Request error :=
  fun w =>
    match to_integer current_balance, to_integer total_spent_this_month with
    | Some balance, Some spent =>
        (false,
         {| now := now w; next_uuid := next_uuid w; profiles := profiles w;
            budget_categories := budget_categories w; income_splits := income_splits w;
            transactions := transactions w; locked_savings := locked_savings w;
            treat_wallet :=
              map (fun r =>
                     if N.eqb (tw_user_id r) uid then
                       {| tw_user_id := tw_user_id r;
                          tw_current_balance := balance;
                          tw_monthly_budget := tw_monthly_budget r;
                          tw_total_spent_this_month := spent |}
                     else r)
                  (treat_wallet w) |})
    | _, _ => (true, w)
    end.

(** *** locked_savings *)

Record locked_saving_insert : Type := {
  lsi_user_id : uuid;
  lsi_amount : number;
  lsi_lock_reason : jsstring;
  lsi_unlock_date : timestamptz;
  lsi_status : string
}.

Definition set_locked_savings (w : World) (fresh : bool) (rows : list locked_savings_row)
  : World :=
  {| now := now w; next_uuid := if fresh then N.succ (next_uuid w) else next_uuid w;
     profiles := profiles w;
     budget_categories := budget_categories w; income_splits := income_splits w;
     transactions := transactions w; locked_savings := rows;
     treat_wallet := treat_wallet w |}.

(** [amount integer NOT NULL], [lock_reason text NOT NULL],
    [locked_at timestamptz DEFAULT now()], [unlock_date timestamptz NOT NULL],
    [status ... CHECK (... IN (...))]. *)
Definition insert_locked_saving (p : locked_saving_insert) : Request error :=
  fun w =>
    match to_integer (lsi_amount p) with
    | Some (Some a) =>
        if mem (lsi_status p) saving_statuses
           && is_text (lsi_lock_reason p) && is_timestamptz (lsi_unlock_date p) then
          (false,
           set_locked_savings w true
             (locked_savings w ++
              [{| ls_id := next_uuid w;
                  ls_user_id := lsi_user_id p;
                  ls_amount := a;
                  ls_lock_reason := lsi_lock_reason p;
                  ls_locked_at := now w;
                  ls_unlock_date := lsi_unlock_date p;
                  ls_status := lsi_status p |}]))
        else (true, w)
    | _ => (true, w)
    end.

(** [update({ status }).eq('id', sid)]; row-level security confines the
    statement to the rows of the signed-in user. *)
Definition update_saving_status (auth : option User) (sid : uuid) (status : string)
  : Request error :=
  fun w =>
    if mem status saving_statuses then
      (false,
       set_locked_savings w false
         (map (fun r =>
                 if N.eqb (ls_id r) sid
                    && match auth with Some u => N.eqb (ls_user_id r) (id u) | None => false end
                 then
                   {| ls_id := ls_id r; ls_user_id := ls_user_id r;
                      ls_amount := ls_amount r; ls_lock_reason := ls_lock_reason r;
                      ls_locked_at := ls_locked_at r; ls_unlock_date := ls_unlock_date r;
                      ls_status := status |}
                 else r)
              (locked_savings w)))
    else (true, w).

Definition unlock_date_asc (x y : locked_savings_row) : bool :=
  ls_unlock_date x <=? ls_unlock_date y.

(** [select('*').eq('user_id', uid).in('status', statuses)
     .order('unlock_date', { ascending: true })] *)
Definition select_savings (uid : uuid) (statuses : list string)
  : Request (list locked_savings_row) :=
  fun w =>
    (sort_by unlock_date_asc
       (filter (fun r => N.eqb (ls_user_id r) uid && mem (ls_status r) statuses)
               (locked_savings w)),
     w).

(** Time passing. *)
Definition advance (dt : Z) (w : World) : World :=
  {| now := now w + dt; next_uuid := next_uuid w; profiles := profiles w;
     budget_categories := budget_categories w; income_splits := income_splits w;
     transactions := transactions w; locked_savings := locked_savings w;
     treat_wallet := treat_wallet w |}.

End Store.

(** ** Onboarding screen ([OnboardingScreen]) *)

Module Onboarding.
Import JS JSString Store.
Local Open Scope request_scope.
Local Open Scope string_scope.

Record Category : Type := {
  type : string;
  name : string;
  percentage : number;
  color : string
}.

(** The category objects live in the module's memory; arrays hold
    references to them.  [DEFAULT_CATEGORIES], the [categories] state and the
    copy [[...categories]] all refer to the same five objects. *)
Definition ref : Type := nat.
Definition heap : Type := list Category.

(** The objects created by the [DEFAULT_CATEGORIES] literal. *)
Definition initial_heap : heap :=
  [ {| type := "bills"; name := "Bills"; percentage := of_Z 30; color := "#FF6B6B" |};
    {| type := "goals"; name := "Goals"; percentage := of_Z 20; color := "#4ECDC4" |};
    {| type := "daily"; name := "Daily"; percentage := of_Z 25; color := "#FFD700" |};
    {| type := "freedom"; name := "Freedom"; percentage := of_Z 20; color := "#95E1D3" |};
    {| type := "emergency"; name := "Emergency"; percentage := of_Z 5; color := "#F38181" |} ].

Definition DEFAULT_CATEGORIES : list ref := [0; 1; 2; 3; 4]%nat.

Record Screen : Type := {
  step : Z;
  monthlyIncome : jsstring;
  categories : list ref;
  loading : bool
}.

(** The initial values given to [useState]. *)
Definition mount : Screen :=
  {| step := 1; monthlyIncome := []; categories := DEFAULT_CATEGORIES; loading := false |}.

(** The objects an array refers to. *)
Definition objects (h : heap) (arr : list ref) : list Category :=
  flat_map (fun r => match nth_error h r with Some c => [c] | None => [] end) arr.

Fixpoint set_percentage (h : heap) (r : ref) (p : number) : heap :=
  match h, r with
  | [], _ => []
  | c :: h', O =>
      {| type := type c; name := name c; percentage := p; color := color c |} :: h'
  | c :: h', S r' => c :: set_percentage h' r' p
  end.

(** [handlePercentageChange(index, value)].  Writing through an index
    outside the array throws, and the state is then not set: [None]. *)
Definition handlePercentageChange (h : heap) (s : Screen) (index : nat) (value : jsstring)
  : option (heap * Screen) :=
  let newCategories := categories s in
  let percentage := if truthy (parseInt value) then parseInt value else of_Z 0 in
  match nth_error newCategories index with
  | None => None
  | Some r =>
      Some (set_percentage h r (Math_min (of_Z 100) (Math_max (of_Z 0) percentage)),
            {| step := step s; monthlyIncome := monthlyIncome s;
               categories := newCategories; loading := loading s |})
  end.

(** [categories.reduce((sum, cat) => sum + cat.percentage, 0)] *)
Definition totalPercentage (h : heap) (s : Screen) : number :=
  fold_left (fun sum cat => add sum (percentage cat)) (objects h (categories s)) (of_Z 0).

(** [handleComplete].  The answers to the writes are not looked at;
    [loading] is true while the requests run and false at the end. *)
Definition handleComplete (user : option User) (h : heap) (s : Screen) : Request Screen :=
  match user with
  | None => ret s
  | Some user =>
      let incomeInCents := inCents (monthlyIncome s) in
      await update_profile_onboarding (id user) incomeInCents ;;
      await for_of (objects h (categories s)) (fun category =>
        existingCategory <- await select_category_id (id user) (type category) ;;
        match existingCategory with
        | Some _ => ret tt
        | None =>
            await insert_budget_category
              {| bci_user_id := id user;
                 bci_category_name := name category;
                 bci_category_type := type category;
                 bci_allocation_percentage := percentage category;
                 bci_current_balance := of_Z 0;
                 bci_color_code := color category |} ;;
            await insert_income_split
              {| isi_user_id := id user;
                 (* existingCategory?.id, in the branch where nothing was found *)
                 isi_category_id := existingCategory;
                 isi_split_percentage := percentage category |} ;;
            ret tt
        end) ;;
      ret {| step := step s; monthlyIncome := monthlyIncome s;
             categories := categories s; loading := false |}
  end.

(** The [Button] component passes [disabled || loading] to its touchable. *)
Definition Button_disabled (disabled loading : bool) : bool := disabled || loading.

(** The [disabled] prop of "Complete Setup": [totalPercentage !== 100]. *)
Definition completeSetup_disabled (h : heap) (s : Screen) : bool :=
  negb (seq (totalPercentage h s) (of_Z 100)).

(** A press on "Complete Setup". *)
Definition press_Complete_Setup (user : option User) (h : heap) (s : Screen)
  : Request Screen :=
  if Button_disabled (completeSetup_disabled h s) (loading s) then ret s
  else handleComplete user h s.

(** What the user can do on the screen before submitting. *)
Inductive reachable : heap -> Screen -> Prop :=
| reach_mount : reachable initial_heap mount
| reach_remount h s : reachable h s -> reachable h mount
| reach_income h s v :
    reachable h s ->
    reachable h {| step := step s; monthlyIncome := v;
                   categories := categories s; loading := loading s |}
| reach_next h s :
    reachable h s ->
    reachable h {| step := 2; monthlyIncome := monthlyIncome s;
                   categories := categories s; loading := loading s |}
| reach_percentage h s index value h' s' :
    reachable h s ->
    handlePercentageChange h s index value = Some (h', s') ->
    reachable h' s'.

End Onboarding.

(** ** Treat wallet screen ([TreatWalletScreen]) *)

Module Treat.
Import JS JSString Store.
Local Open Scope request_scope.
Local Open Scope string_scope.

Record Screen : Type := {
  wallet : option treat_wallet_row;
  transactions : list transactions_row;
  modalVisible : bool;
  amount : jsstring;
  recipient : jsstring;
  description : jsstring;
  loading : bool
}.

Definition set_wallet (s : Screen) (wl : treat_wallet_row) : Screen :=
  {| wallet := Some wl; transactions := transactions s; modalVisible := modalVisible s;
     amount := amount s; recipient := recipient s; description := description s;
     loading := loading s |}.

Definition set_transactions (s : Screen) (l : list transactions_row) : Screen :=
  {| wallet := wallet s; transactions := l; modalVisible := modalVisible s;
     amount := amount s; recipient := recipient s; description := description s;
     loading := loading s |}.

Definition set_loading (s : Screen) (b : bool) : Screen :=
  {| wallet := wallet s; transactions := transactions s; modalVisible := modalVisible s;
     amount := amount s; recipient := recipient s; description := description s;
     loading := b |}.

(** [setModalVisible(false); setAmount(''); setRecipient(''); setDescription('')] *)
Definition close_form (s : Screen) : Screen :=
  {| wallet := wallet s; transactions := transactions s; modalVisible := false;
     amount := []; recipient := []; description := [];
     loading := loading s |}.

(** [fetchData] *)
Definition fetchData (user : option User) (s : Screen) : Request Screen :=
  match user with
  | None => ret s
  | Some user =>
      walletData <- await select_wallet (id user) ;;
      let s := match walletData with Some wl => set_wallet s wl | None => s end in
      transactionsData <- await
        run_query (limit 20 (order_transaction_date_desc
                     (eq_transaction_type "treat" (eq_user_id (id user) from_transactions)))) ;;
      ret (set_transactions s transactionsData)
  end.

(** [handleSpend] *)
Definition handleSpend (user : option User) (s : Screen) : Request Screen :=
  match user, wallet s with
  | Some user, Some wallet =>
      if nonempty (amount s) && nonempty (recipient s) then
        let amountInCents := inCents (amount s) in
        if gt amountInCents (of_integer (tw_current_balance wallet)) then ret s
        else
          await insert_transaction
            {| ti_user_id := id user;
               ti_transaction_type := "treat";
               ti_amount := amountInCents;
               ti_merchant := recipient s;
               (* description || '' *)
               ti_description := description s |} ;;
          await update_wallet (id user)
            (sub (of_integer (tw_current_balance wallet)) amountInCents)
            (add (of_integer (tw_total_spent_this_month wallet)) amountInCents) ;;
          s' <- await fetchData (Some user) (close_form s) ;;
          ret (set_loading s' false)
      else ret s
  | _, _ => ret s
  end.

(** [remainingBudget]: computed on every render, used nowhere. *)
Definition remainingBudget (s : Screen) : number :=
  match wallet s with
  | Some wallet =>
      sub (of_integer (tw_monthly_budget wallet))
          (of_integer (tw_total_spent_this_month wallet))
  | None => of_Z 0
  end.

(** [isBalanceEmpty] *)
Definition isBalanceEmpty (s : Screen) : bool :=
  match wallet s with
  | Some wallet => le (of_integer (tw_current_balance wallet)) (of_Z 0)
  | None => false
  end.

(** Typing into the form of the modal. *)
Definition edit_form (amount recipient description : jsstring) (s : Screen) : Screen :=
  {| wallet := wallet s; transactions := transactions s; modalVisible := true;
     amount := amount; recipient := recipient; description := description;
     loading := loading s |}.

(** The initial values given to [useState]. *)
Definition mounted : Screen :=
  {| wallet := None; transactions := []; modalVisible := false;
     amount := []; recipient := []; description := []; loading := false |}.

(** What can happen in a session on this screen: the data is fetched (on
    mount and on pull-to-refresh), the form is edited, a spend is submitted. *)
Inductive step (user : option User) : World * Screen -> World * Screen -> Prop :=
| step_fetch w s : step user (w, s) (run (fetchData user s) w)
| step_edit w s a r d : step user (w, s) (w, edit_form a r d s)
| step_spend w s : step user (w, s) (run (handleSpend user s) w).

Inductive steps (user : option User) : World * Screen -> World * Screen -> Prop :=
| steps_refl st : steps user st st
| steps_step st st' st'' : steps user st st' -> step user st' st'' -> steps user st st''.

(** The [disabled] prop of the "Give" button. *)
Definition give_disabled (s : Screen) : bool :=
  negb (nonempty (amount s)) || negb (nonempty (recipient s)) ||
  match wallet s with
  | Some wallet => gt (inCents (amount s)) (of_integer (tw_current_balance wallet))
  | None => false
  end.

End Treat.

(** ** Locked savings screen ([LockedSavingsScreen]) *)

Module Locked.
Import JS JSString Store.
Local Open Scope request_scope.
Local Open Scope string_scope.

Record Screen : Type := {
  savings : list locked_savings_row;
  modalVisible : bool;
  amount : jsstring;
  reason : jsstring;
  unlockDate : jsstring;
  loading : bool;
  (** the time of the last render, [new Date()] in [isUnlockable] *)
  rendered : timestamptz
}.

Definition set_savings (s : Screen) (l : list locked_savings_row) : Screen :=
  {| savings := l; modalVisible := modalVisible s; amount := amount s;
     reason := reason s; unlockDate := unlockDate s; loading := loading s;
     rendered := rendered s |}.

Definition set_loading (s : Screen) (b : bool) : Screen :=
  {| savings := savings s; modalVisible := modalVisible s; amount := amount s;
     reason := reason s; unlockDate := unlockDate s; loading := b;
     rendered := rendered s |}.

Definition close_form (s : Screen) : Screen :=
  {| savings := savings s; modalVisible := false; amount := [];
     reason := []; unlockDate := []; loading := loading s;
     rendered := rendered s |}.

Definition render (t : timestamptz) (s : Screen) : Screen :=
  {| savings := savings s; modalVisible := modalVisible s; amount := amount s;
     reason := reason s; unlockDate := unlockDate s; loading := loading s;
     rendered := t |}.

(** [fetchSavings] *)
Definition fetchSavings (user : option User) (s : Screen) : Request Screen :=
  match user with
  | None => ret s
  | Some user =>
      data <- await select_savings (id user) ["active"; "unlocked"] ;;
      ret (set_savings s data)
  end.

Section Dates.

(** [new Date(string)]: the time value, or [None] for an Invalid Date. *)
Variable Date_parse : jsstring -> option timestamptz.

(** [handleLockSavings].  [toISOString] throws on an Invalid Date; the
    handler then stops after [setLoading(true)]. *)
Definition handleLockSavings (user : option User) (s : Screen) : Request Screen :=
  match user with
  | Some user =>
      if nonempty (amount s) && nonempty (reason s) && nonempty (unlockDate s) then
        let amountInCents := inCents (amount s) in
        match Date_parse (unlockDate s) with
        | None => ret (set_loading s true)
        | Some unlockDateTime =>
            error <- await insert_locked_saving
              {| lsi_user_id := id user;
                 lsi_amount := amountInCents;
                 lsi_lock_reason := reason s;
                 lsi_unlock_date := unlockDateTime;
                 lsi_status := "active" |} ;;
            if negb error then
              s' <- await fetchSavings (Some user) (close_form s) ;;
              ret (set_loading s' false)
            else ret (set_loading s false)
        end
      else ret s
  | None => ret s
  end.

End Dates.

(** [handleUnlock(id)] *)
Definition handleUnlock (user : option User) (sid : uuid) (s : Screen) : Request Screen :=
  await update_saving_status user sid "unlocked" ;;
  fetchSavings user s.

(** [isUnlockable(unlockDateString)], evaluated while rendering. *)
Definition isUnlockable (s : Screen) (unlock_date : timestamptz) : bool :=
  (unlock_date <=? rendered s)%Z.

(** [activeSavings] *)
Definition activeSavings (s : Screen) : list locked_savings_row :=
  filter (fun r => String.eqb (ls_status r) "active") (savings s).

(** [totalLocked] *)
Definition totalLocked (s : Screen) : number :=
  fold_left (fun sum r => add sum (of_Z (ls_amount r))) (activeSavings s) (of_Z 0).

(** The cards that carry an "Unlock Now" button. *)
Definition unlock_offered (s : Screen) (saving : locked_savings_row) : Prop :=
  In saving (activeSavings s) /\ isUnlockable s (ls_unlock_date saving) = true.

(** Typing into the form of the modal. *)
Definition edit_form (amount reason unlockDate : jsstring) (s : Screen) : Screen :=
  {| savings := savings s; modalVisible := true; amount := amount;
     reason := reason; unlockDate := unlockDate; loading := loading s;
     rendered := rendered s |}.

(** What can happen to the store and the screen of a signed-in session:
    time passes, the screen is rendered again, the form is edited, a saving
    is locked, the list is refreshed, and a saving whose card carries the
    button is unlocked. *)
Inductive step (Date_parse : jsstring -> option timestamptz) (user : option User)
  : World * Screen -> World * Screen -> Prop :=
| step_wait w s dt : (0 <= dt)%Z -> step Date_parse user (w, s) (advance dt w, s)
| step_render w s : step Date_parse user (w, s) (w, render (now w) s)
| step_edit w s a r d : step Date_parse user (w, s) (w, edit_form a r d s)
| step_lock w s : step Date_parse user (w, s) (run (handleLockSavings Date_parse user s) w)
| step_refresh w s : step Date_parse user (w, s) (run (fetchSavings user s) w)
| step_unlock w s saving :
    unlock_offered s saving ->
    step Date_parse user (w, s) (run (handleUnlock user (ls_id saving) s) w).

Inductive steps (Date_parse : jsstring -> option timestamptz) (user : option User)
  : World * Screen -> World * Screen -> Prop :=
| steps_refl st : steps Date_parse user st st
| steps_step st st' st'' :
    steps Date_parse user st st' -> step Date_parse user st' st'' ->
    steps Date_parse user st st''.

End Locked.

(** ** Transactions screen ([TransactionsScreen]) *)

Module Transactions.
Import JS JSString Store.
Local Open Scope request_scope.
Local Open Scope string_scope.

(** ['all' | 'income' | 'expense'] *)
Inductive Filter : Type := all | income | expense.

Definition Filter_string (f : Filter) : string :=
  match f with
  | all => "all"
  | income => "income"
  | expense => "expense"
  end.

Record Screen : Type := {
  transactions : list transactions_row;
  filter : Filter
}.

(** [fetchTransactions] *)
Definition fetchTransactions (user : option User) (s : Screen) : Request Screen :=
  match user with
  | None => ret s
  | Some user =>
      let query :=
        limit 50 (order_transaction_date_desc (eq_user_id (id user) from_transactions)) in
      let query :=
        match filter s with
        | all => query
        | f => eq_transaction_type (Filter_string f) query
        end in
      data <- await run_query query ;;
      ret {| transactions := data; filter := filter s |}
  end.

(** [setFilter(f)] followed by the effect that refetches. *)
Definition setFilter (user : option User) (f : Filter) (s : Screen) : Request Screen :=
  fetchTransactions user {| transactions := transactions s; filter := f |}.

(** [totalIncome] *)
Definition totalIncome (s : Screen) : number :=
  fold_left (fun sum t => add sum (of_Z (t_amount t)))
    (List.filter (fun t => String.eqb (t_transaction_type t) "income") (transactions s))
    (of_Z 0).

(** [totalExpenses] *)
Definition totalExpenses (s : Screen) : number :=
  fold_left (fun sum t => add sum (of_Z (t_amount t)))
    (List.filter (fun t => String.eqb (t_transaction_type t) "expense") (transactions s))
    (of_Z 0).

End Transactions.

(** ** Reports screen ([ReportsScreen]) *)

Module Reports.
Import JS JSString Store.
Local Open Scope string_scope.

Record MonthlyReport : Type := {
  report_id : string;
  report_month : Z;
  report_year : Z;
  total_income : number;
  total_expenses : number;
  savings_rate : number;
  impulse_spending : number;
  top_spending_category : string;
  brutal_summary : string;
  goals_met : bool
}.

Definition BRUTAL_SUMMARIES : list string :=
  [ "You said you'd save. You didn't.";
    "Another month, another excuse.";
    "Your wallet is crying. Again.";
    "Maybe next month will be different? (Spoiler: It won't.)";
    "That impulse spending though... Impressive. Impressively bad.";
    "You know better. But here we are.";
    "Financial discipline? Never heard of her.";
    "Coffee addiction: 1, Your savings: 0." ].

Definition sum_amounts (l : list transactions_row) : number :=
  fold_left (fun sum t => add sum (of_Z (t_amount t))) l (of_Z 0).

(** [savingsRate]:
    [totalIncome > 0 ? Math.round(((totalIncome - totalExpenses) / totalIncome) * 100) : 0] *)
Definition savingsRate (totalIncome totalExpenses : number) : number :=
  if gt totalIncome (of_Z 0) then
    Math_round (mul (div (sub totalIncome totalExpenses) totalIncome) (of_Z 100))
  else of_Z 0.

(** [generateCurrentMonthReport], from the answer to its query on: the
    month and year read from the clock and the index drawn with
    [Math.random] are arguments.  [None] when the handler returns early. *)
Definition generateCurrentMonthReport (user : option User) (currentMonth currentYear : Z)
    (random : nat) (transactions : option (list transactions_row)) : option MonthlyReport :=
  match user, transactions with
  | Some _, Some transactions =>
      let totalIncome :=
        sum_amounts (filter (fun t => String.eqb (t_transaction_type t) "income") transactions) in
      let totalExpenses :=
        sum_amounts (filter (fun t => String.eqb (t_transaction_type t) "expense") transactions) in
      let impulseSpending := sum_amounts (filter t_is_impulse transactions) in
      let savingsRate := savingsRate totalIncome totalExpenses in
      let randomSummary := nth random BRUTAL_SUMMARIES "" in
      Some {| report_id := "";
              report_month := currentMonth;
              report_year := currentYear;
              total_income := totalIncome;
              total_expenses := totalExpenses;
              savings_rate := savingsRate;
              impulse_spending := impulseSpending;
              top_spending_category := "Daily";
              brutal_summary := randomSummary;
              goals_met := ge savingsRate (of_Z 20) |}
  | _, _ => None
  end.

End Reports.

(** ** Settings screen ([SettingsScreen]) *)

Module Settings.
Import JS JSString Store.
Local Open Scope request_scope.

Record Screen : Type := {
  profile : option profiles_row;
  monthlyIncome : jsstring;
  impulseBlocker : bool;
  showBalance : bool;
  loading : bool
}.

(** [fetchProfile].  An [integer] column is far below 10^21, so [toFixed]
    always answers in fixed notation; the text is otherwise left as it is. *)
Definition fetchProfile (user : option User) (s : Screen) : Request Screen :=
  match user with
  | None => ret s
  | Some user =>
      data <- await select_profile (id user) ;;
      match data with
      | Some data =>
          ret {| profile := Some data;
                 monthlyIncome :=
                   match fromCents (of_integer (p_monthly_income data)) with
                   | Some text => text
                   | None => monthlyIncome s
                   end;
                 impulseBlocker := p_impulse_blocker_enabled data;
                 showBalance := p_show_total_balance data;
                 loading := loading s |}
      | None => ret s
      end
  end.

(** [handleSave] *)
Definition handleSave (user : option User) (s : Screen) : Request Screen :=
  match user with
  | None => ret s
  | Some user =>
      let incomeInCents := inCents (monthlyIncome s) in
      await update_profile_settings (id user) incomeInCents (impulseBlocker s) (showBalance s) ;;
      s' <- await fetchProfile (Some user) s ;;
      ret {| profile := profile s'; monthlyIncome := monthlyIncome s';
             impulseBlocker := impulseBlocker s'; showBalance := showBalance s';
             loading := false |}
  end.

(** [formatCurrency(cents)] *)
Definition formatCurrency (cents : number) : option jsstring :=
  option_map (fun text => 36%N :: text) (fromCents cents).

End Settings.

(** ** Notions used in the statements *)

Module Spec.
Import JS JSString Store.
Local Open Scope string_scope.

Definition sumZ (l : list Z) : Z := fold_right Z.add 0 l.

(** [n / d] rounded to the nearest integer, halves upwards, for [d > 0]. *)
Definition round_half_up (n d : Z) : Z := (2 * n + d) / (2 * d).

(** [n / d] lies exactly halfway between two integers. *)
Definition halfway (n d : Z) : Prop := (2 * n + d) mod (2 * d) = 0.

(** The code unit of a decimal digit. *)
Definition enc (v : Z) : N := Z.to_N (48 + v).

Definition is_digit (v : Z) : Prop := 0 <= v <= 9.

(** The rows of one transaction type. *)
Definition of_type (ty : string) (l : list transactions_row) : list transactions_row :=
  filter (fun t => String.eqb (t_transaction_type t) ty) l.

(** *** Onboarding *)

(** [Math.min(100, Math.max(0, p || 0))] *)
Definition clamp (p : number) : number :=
  Math_min (of_Z 100) (Math_max (of_Z 0) (if truthy p then p else of_Z 0)).

(** A percentage as the handler leaves it. *)
Definition percentage_ok (c : Onboarding.Category) : Prop :=
  exists z, (0 <= z <= 100)%Z /\ Onboarding.percentage c = of_Z z.

Definition heap_ok (h : Onboarding.heap) : Prop :=
  List.length h = 5%nat /\ Forall percentage_ok h.

(** *** Treat wallet *)

(** The balance as the client's arithmetic sees it. *)
Definition balance_of (wl : treat_wallet_row) : Z :=
  match tw_current_balance wl with Some b => b | None => 0 end.

Definition spent_of (wl : treat_wallet_row) : Z :=
  match tw_total_spent_this_month wl with Some t => t | None => 0 end.

(** The transaction a spend of [a] cents adds. *)
Definition treat_row (user : User) (s : Treat.Screen) (a : Z) (w : World)
  : transactions_row :=
  {| t_id := next_uuid w; t_user_id := id user; t_transaction_type := "treat";
     t_amount := a; t_merchant := Treat.recipient s;
     t_description := Treat.description s;
     t_transaction_date := now w; t_is_impulse := false |}.

(** The screen shows the wallet that is stored. *)
Definition shows_stored (user : User) (st : World * Treat.Screen) : Prop :=
  forall wl, Treat.wallet (snd st) = Some wl ->
             select_wallet (id user) (fst st) = (Some wl, fst st).

(** *** Transactions *)

(** The query [fetchTransactions] ends up sending. *)
Definition fetch_query (user : User) (f : Transactions.Filter) : transactions_query :=
  let query := limit 50 (order_transaction_date_desc (eq_user_id (id user) from_transactions)) in
  match f with
  | Transactions.all => query
  | f => eq_transaction_type (Transactions.Filter_string f) query
  end.

(** *** Locked savings *)

(** No stored saving is unlocked ahead of its date. *)
Definition no_early_unlock (w : World) : Prop :=
  forall r, In r (locked_savings w) -> ls_status r = "unlocked" ->
            (ls_unlock_date r <= now w)%Z.

(** The store and the screen fit together: the screen was rendered in the
    past, the savings it shows carry the unlock dates of the stored rows with
    the same identifiers, and identifiers are not reused. *)
Record consistent (st : World * Locked.Screen) : Prop := {
  c_rendered : (Locked.rendered (snd st) <= now (fst st))%Z;
  c_unlocked : no_early_unlock (fst st);
  c_shown : forall x r,
      In x (Locked.savings (snd st)) -> In r (locked_savings (fst st)) ->
      ls_id r = ls_id x -> ls_unlock_date r = ls_unlock_date x;
  c_shown_old : forall x,
      In x (Locked.savings (snd st)) -> (ls_id x < next_uuid (fst st))%N;
  c_ids : forall r r',
      In r (locked_savings (fst st)) -> In r' (locked_savings (fst st)) ->
      ls_id r = ls_id r' -> ls_unlock_date r = ls_unlock_date r';
  c_old : forall r, In r (locked_savings (fst st)) -> (ls_id r < next_uuid (fst st))%N
}.

(** What [update({ status: 'unlocked' }).eq('id', sid)] makes of a row. *)
Definition unlock_row (user : option User) (sid : uuid) (r : locked_savings_row)
  : locked_savings_row :=
  if N.eqb (ls_id r) sid
     && match user with Some u => N.eqb (ls_user_id r) (id u) | None => false end
  then {| ls_id := ls_id r; ls_user_id := ls_user_id r; ls_amount := ls_amount r;
          ls_lock_reason := ls_lock_reason r; ls_locked_at := ls_locked_at r;
          ls_unlock_date := ls_unlock_date r; ls_status := "unlocked" |}
  else r.

(** The row a valid "Lock It" adds. *)
Definition locked_row (u : User) (s : Locked.Screen) (a : Z) (d : timestamptz) (w : World)
  : locked_savings_row :=
  {| ls_id := next_uuid w; ls_user_id := id u; ls_amount := a;
     ls_lock_reason := Locked.reason s; ls_locked_at := now w;
     ls_unlock_date := d; ls_status := "active" |}.

End Spec.

(** ** Concrete stores, screens and sessions for the examples *)

Module Fixture.
Import JS JSString Store.
Local Open Scope string_scope.

Definition alice : User := {| id := 7%N |}.

Definition alice_profile : profiles_row :=
  {| p_user_id := 7%N; p_monthly_income := Some 500000;
     p_onboarding_completed := false; p_impulse_blocker_enabled := false;
     p_show_total_balance := true |}.

(** A store that holds nothing but the profile of a new user. *)
Definition fresh : World :=
  {| now := 1763000000000; next_uuid := 100%N;
     profiles := [alice_profile];
     budget_categories := []; income_splits := []; transactions := [];
     locked_savings := []; treat_wallet := [] |}.

Definition with_wallet (wl : treat_wallet_row) : World :=
  {| now := now fresh; next_uuid := next_uuid fresh; profiles := profiles fresh;
     budget_categories := []; income_splits := []; transactions := [];
     locked_savings := []; treat_wallet := [wl] |}.

Definition with_transactions (l : list transactions_row) : World :=
  {| now := now fresh; next_uuid := next_uuid fresh; profiles := profiles fresh;
     budget_categories := []; income_splits := []; transactions := l;
     locked_savings := []; treat_wallet := [] |}.

(** *** Onboarding: the default split and an income of 5000 *)

Definition onboarding_form : Onboarding.Screen :=
  {| Onboarding.step := 2; Onboarding.monthlyIncome := str "5000";
     Onboarding.categories := Onboarding.DEFAULT_CATEGORIES;
     Onboarding.loading := false |}.

(** *** Treat wallet: a balance of 1000.00 under a budget of 50.00 *)

Definition rich_wallet : treat_wallet_row :=
  {| tw_user_id := 7%N; tw_current_balance := Some 100000;
     tw_monthly_budget := Some 5000; tw_total_spent_this_month := Some 0 |}.

(** A balance of 10.00 under a budget of 500.00. *)
Definition thrifty_wallet : treat_wallet_row :=
  {| tw_user_id := 7%N; tw_current_balance := Some 1000;
     tw_monthly_budget := Some 50000; tw_total_spent_this_month := Some 0 |}.

Definition give_form (wl : treat_wallet_row) (text : string) : Treat.Screen :=
  {| Treat.wallet := Some wl; Treat.transactions := []; Treat.modalVisible := true;
     Treat.amount := str text; Treat.recipient := str "Sam"; Treat.description := [];
     Treat.loading := false |}.

Definition wallet_world : World := with_wallet rich_wallet.

Definition give_25 : World * Treat.Screen :=
  (wallet_world,
   Treat.edit_form (str "25.00") (str "Sam") []
     (snd (run (Treat.fetchData (Some alice) Treat.mounted) wallet_world))).

(** *** Transactions *)

Definition sample_rows : list transactions_row :=
  [ {| t_id := 1%N; t_user_id := 7%N; t_transaction_type := "income"; t_amount := 500000;
       t_merchant := str "Employer"; t_description := []; t_transaction_date := 1000;
       t_is_impulse := false |};
    {| t_id := 2%N; t_user_id := 7%N; t_transaction_type := "expense"; t_amount := 4250;
       t_merchant := str "Cafe"; t_description := []; t_transaction_date := 3000;
       t_is_impulse := true |};
    {| t_id := 3%N; t_user_id := 8%N; t_transaction_type := "expense"; t_amount := 999;
       t_merchant := str "Other"; t_description := []; t_transaction_date := 2500;
       t_is_impulse := false |};
    {| t_id := 4%N; t_user_id := 7%N; t_transaction_type := "expense"; t_amount := 12000;
       t_merchant := str "Grocer"; t_description := []; t_transaction_date := 2000;
       t_is_impulse := false |} ].

(** An income of 4000.00 and expenses of 1700.00 in the month. *)
Definition month_rows : list transactions_row :=
  [ {| t_id := 1%N; t_user_id := 7%N; t_transaction_type := "income"; t_amount := 400000;
       t_merchant := str "Employer"; t_description := []; t_transaction_date := 1762000000000;
       t_is_impulse := false |};
    {| t_id := 2%N; t_user_id := 7%N; t_transaction_type := "expense"; t_amount := 170000;
       t_merchant := str "Landlord"; t_description := []; t_transaction_date := 1762100000000;
       t_is_impulse := false |} ].

(** *** Locked savings: lock 100.00 until a date in 2030, wait, render, unlock *)

Definition parse_2030 (text : jsstring) : option timestamptz := Some 1900000000000.

Definition opened : World * Locked.Screen :=
  (fresh,
   {| Locked.savings := []; Locked.modalVisible := false; Locked.amount := [];
      Locked.reason := []; Locked.unlockDate := []; Locked.loading := false;
      Locked.rendered := now fresh |}).

Definition filled : World * Locked.Screen :=
  (fst opened,
   Locked.edit_form (str "100.00") (str "Vacation") (str "2030-03-17") (snd opened)).

Definition locked : World * Locked.Screen :=
  run (Locked.handleLockSavings parse_2030 (Some alice) (snd filled)) (fst filled).

Definition later : World * Locked.Screen :=
  (advance 200000000000 (fst locked),
   Locked.render (now (fst locked) + 200000000000) (snd locked)).

Definition unlocked : World * Locked.Screen :=
  run (Locked.handleUnlock (Some alice) 100%N (snd later)) (fst later).

(** *** Settings *)

Definition settings_form (text : string) : Settings.Screen :=
  {| Settings.profile := Some alice_profile; Settings.monthlyIncome := str text;
     Settings.impulseBlocker := false; Settings.showBalance := true;
     Settings.loading := false |}.

End Fixture.

(** ** The Standard Library's binary64, to check the rounding against

    [SpecFloat] is the specification of the primitive floats.  The numbers
    of this development and its operations are compared with it on concrete
    operands. *)

Module Binary64.
Import JS.

Definition prec : Z := 53.
Definition emax : Z := 1024.

Definition of_int (z : Z) : spec_float := binary_normalize prec emax z 0 false.

(** The same value on both sides. *)
Definition agrees (f : spec_float) (x : number) : bool :=
  match f, x with
  | S754_nan, NaN => true
  | S754_infinity s, Infinity t => Bool.eqb s t
  | S754_zero _, Num q => Qeq_bool q 0
  | S754_finite s m e, Num q =>
      Qeq_bool ((if s then - inject_Z (Zpos m) else inject_Z (Zpos m)) * two ^ e)%Q q
  | _, _ => false
  end.

(** [((a - b) / a) * 100] and [(a / 100)], [(a / 100) * 100] on both sides. *)
Definition rate_agrees (a b : Z) : bool :=
  agrees (SFmul prec emax (SFdiv prec emax (of_int (a - b)) (of_int a)) (of_int 100))
         (mul (div (sub (of_Z a) (of_Z b)) (of_Z a)) (of_Z 100)).

Definition cents_agree (d : Z) : bool :=
  agrees (SFdiv prec emax (of_int d) (of_int 100)) (div (of_Z d) (of_Z 100)) &&
  agrees (SFmul prec emax (SFdiv prec emax (of_int d) (of_int 100)) (of_int 100))
         (mul (div (of_Z d) (of_Z 100)) (of_Z 100)).

(** The integers [lo, lo + 1, ..., lo + n - 1]. *)
Fixpoint range (lo : Z) (n : nat) : list Z :=
  match n with
  | O => []
  | S n' => lo :: range (lo + 1) n'
  end.

End Binary64.

(** ** The rest of the onboarding screen: the "Next" button and the amounts
    shown under the categories *)

Module OnboardingForm.
Import JS JSString Store Onboarding.

(** The [disabled] prop of "Next":
    [!monthlyIncome || parseFloat(monthlyIncome) <= 0]. *)
Definition next_disabled (s : Screen) : bool :=
  negb (nonempty (monthlyIncome s)) || le (parseFloat (monthlyIncome s)) (of_Z 0).

(** A press on "Next", [setStep(2)]; the button is given no [loading]. *)
Definition press_Next (s : Screen) : Screen :=
  if Button_disabled (next_disabled s) false then s
  else {| step := 2; monthlyIncome := monthlyIncome s;
          categories := categories s; loading := loading s |}.

(** The text under a category:
    [$] and [((parseFloat(monthlyIncome) * category.percentage) / 100).toFixed(2)]. *)
Definition categoryAmount (s : Screen) (category : Category) : option jsstring :=
  option_map (fun text => 36%N :: text)
    (toFixed2 (div (mul (parseFloat (monthlyIncome s)) (percentage category)) (of_Z 100))).

End OnboardingForm.

(** ** The "Lock It" button of the locked-savings screen, and sessions in
    which the handlers run only through the buttons *)

Module LockedForm.
Import JS JSString Store Locked.

(** The [disabled] prop of "Lock It": [!amount || !reason || !unlockDate]. *)
Definition lockIt_disabled (s : Screen) : bool :=
  negb (nonempty (amount s)) || negb (nonempty (reason s)) || negb (nonempty (unlockDate s)).

(** A press on "Lock It"; the button is given [loading]. *)
Definition press_Lock_It (Date_parse : jsstring -> option timestamptz)
    (user : option User) (s : Screen) : Request Screen :=
  if Onboarding.Button_disabled (lockIt_disabled s) (loading s) then ret s
  else handleLockSavings Date_parse user s.

(** A session in which "Lock It" and "Unlock Now" are reached through their
    buttons. *)
Inductive press (Date_parse : jsstring -> option timestamptz) (user : option User)
  : World * Screen -> World * Screen -> Prop :=
| press_wait w s dt : (0 <= dt)%Z -> press Date_parse user (w, s) (advance dt w, s)
| press_render w s : press Date_parse user (w, s) (w, render (now w) s)
| press_edit w s a r d : press Date_parse user (w, s) (w, edit_form a r d s)
| press_lock w s : press Date_parse user (w, s) (run (press_Lock_It Date_parse user s) w)
| press_refresh w s : press Date_parse user (w, s) (run (fetchSavings user s) w)
| press_unlock w s saving :
    unlock_offered s saving ->
    press Date_parse user (w, s) (run (handleUnlock user (ls_id saving) s) w).

Inductive presses (Date_parse : jsstring -> option timestamptz) (user : option User)
  : World * Screen -> World * Screen -> Prop :=
| presses_refl st : presses Date_parse user st st
| presses_step st st' st'' :
    presses Date_parse user st st' -> press Date_parse user st' st'' ->
    presses Date_parse user st st''.

End LockedForm.

(** ** Dashboard ([DashboardScreen]) *)

Module Dashboard.
Import JS JSString Store.
Local Open Scope request_scope.
Local Open Scope string_scope.

Record Screen : Type := {
  profile : option profiles_row;
  categories : list budget_categories_row;
  showBalance : bool;
  (** the route last passed to [router.replace] *)
  replaced : option string
}.

(** The initial values given to [useState]. *)
Definition mounted : Screen :=
  {| profile := None; categories := []; showBalance := true; replaced := None |}.

(** [.order('category_type')].  The column only holds the five lowercase
    words of its CHECK, which every collation orders as their bytes do. *)
Definition category_type_asc (x y : budget_categories_row) : bool :=
  String.leb (bc_category_type x) (bc_category_type y).

(** [select('*').eq('user_id', uid).order('category_type')] *)
Definition select_categories (uid : uuid) : Request (list budget_categories_row) :=
  fun w =>
    (sort_by category_type_asc
       (filter (fun r => N.eqb (bc_user_id r) uid) (budget_categories w)),
     w).

(** [fetchData] *)
Definition fetchData (user : option User) (s : Screen) : Request Screen :=
  match user with
  | None => ret s
  | Some user =>
      profileData <- await select_profile (id user) ;;
      let s1 :=
        match profileData with
        | Some profileData =>
            {| profile := Some profileData; categories := categories s;
               showBalance := p_show_total_balance profileData;
               replaced := replaced s |}
        | None => s
        end in
      match profileData with
      | Some profileData =>
          if negb (p_onboarding_completed profileData) then
            ret {| profile := profile s1; categories := categories s1;
                   showBalance := showBalance s1; replaced := Some "/onboarding" |}
          else
            categoriesData <- await select_categories (id user) ;;
            ret {| profile := profile s1; categories := categoriesData;
                   showBalance := showBalance s1; replaced := replaced s1 |}
      | None =>
          categoriesData <- await select_categories (id user) ;;
          ret {| profile := profile s1; categories := categoriesData;
                 showBalance := showBalance s1; replaced := replaced s1 |}
      end
  end.

(** [totalBalance] *)
Definition totalBalance (s : Screen) : number :=
  fold_left (fun sum cat => add sum (of_integer (bc_current_balance cat)))
    (categories s) (of_Z 0).

(** [dailyCategory] *)
Definition dailyCategory (s : Screen) : option budget_categories_row :=
  find (fun cat => String.eqb (bc_category_type cat) "daily") (categories s).

(** [dailyCategory?.current_balance || 0] *)
Definition dailyBalance (s : Screen) : number :=
  match dailyCategory s with
  | Some cat => of_integer (bc_current_balance cat)
  | None => of_Z 0
  end.

(** Four bullets, shown in place of an amount. *)
Definition hidden : jsstring := [8226; 8226; 8226; 8226]%N.

(** The text of "Today's Allowance":
    [showBalance ? formatCurrency(dailyCategory?.current_balance || 0) : '....'] *)
Definition allowanceText (s : Screen) : option jsstring :=
  if showBalance s then Settings.formatCurrency (dailyBalance s) else Some hidden.

(** The text of "Total Balance", on the card rendered unless
    [profile?.impulse_blocker_enabled]. *)
Definition totalText (s : Screen) : option (option jsstring) :=
  if match profile s with Some p => p_impulse_blocker_enabled p | None => false end
  then None
  else Some (if showBalance s then Settings.formatCurrency (totalBalance s) else Some hidden).

End Dashboard.

(** ** Further notions used in the statements *)

Module Terms.
Import JS JSString Store.
Local Open Scope string_scope.

(** The row of [transactions] a query of the transactions screen asks for. *)
Definition wanted (user : User) (f : Transactions.Filter) (r : transactions_row) : bool :=
  N.eqb (t_user_id r) (id user) &&
  match f with
  | Transactions.all => true
  | _ => String.eqb (t_transaction_type r) (Transactions.Filter_string f)
  end.

(** The rows of the treat list. *)
Definition treat_of (user : User) (r : transactions_row) : bool :=
  N.eqb (t_user_id r) (id user) && String.eqb (t_transaction_type r) "treat".

(** What a budget category holds apart from its identifier, which the
    store draws: the user, the name, the type, the percentage, the balance
    and the colour. *)
Definition category_fields (r : budget_categories_row)
  : uuid * string * string * option Z * option Z * string :=
  (bc_user_id r, bc_category_name r, bc_category_type r,
   bc_allocation_percentage r, bc_current_balance r, bc_color_code r).

(** The same for the row the setup asks for, for a category of the screen
    and its percentage. *)
Definition created_fields (uid : uuid) (c : Onboarding.Category * Z)
  : uuid * string * string * option Z * option Z * string :=
  (uid, Onboarding.name (fst c), Onboarding.type (fst c), Some (snd c), Some 0,
   Onboarding.color (fst c)).

(** A category's balance as the client's arithmetic sees it. *)
Definition category_balance (r : budget_categories_row) : Z :=
  match bc_current_balance r with Some b => b | None => 0 end.

(** The rows of one user, and the user's rows of type 'daily'. *)
Definition category_of (user : User) (r : budget_categories_row) : bool :=
  N.eqb (bc_user_id r) (id user).

Definition daily_of (user : User) (r : budget_categories_row) : bool :=
  N.eqb (bc_user_id r) (id user) && String.eqb (bc_category_type r) "daily".

(** The user's only stored wallet has a balance that is not negative; an
    absent balance counts as 0, as it does in the client's arithmetic. *)
Definition balance_not_negative (user : User) (w : World) : Prop :=
  forall wl, fst (select_wallet (id user) w) = Some wl -> (0 <= Spec.balance_of wl)%Z.

(** What stays of a stored saving whatever the screen does. *)
Definition same_saving (r r' : locked_savings_row) : Prop :=
  ls_id r' = ls_id r /\ ls_user_id r' = ls_user_id r /\ ls_amount r' = ls_amount r /\
  ls_lock_reason r' = ls_lock_reason r /\ ls_locked_at r' = ls_locked_at r /\
  ls_unlock_date r' = ls_unlock_date r.

End Terms.
(** ** Rounding lemmas *)

Module JSFacts.
Import JS.

Local Open Scope Q_scope.

Lemma two_pow_pos (e : Z) : 0 < two ^ e.
Proof. apply Qpower_0_lt. reflexivity. Qed.

Lemma two_pow_succ (e : Z) : two ^ (e + 1) == 2 * two ^ e.
Proof.
  rewrite Qpower_plus by discriminate.
  change (two ^ 1) with two. unfold two. ring.
Qed.

Lemma two_pow_mono (a b : Z) : (a <= b)%Z -> two ^ a <= two ^ b.
Proof. intros H. apply Qpower_le_compat_l; [exact H | discriminate]. Qed.

Lemma two_pow_inject (n : Z) : (0 <= n)%Z -> inject_Z (2 ^ n) == two ^ n.
Proof. intros H. rewrite Zpower_Qpower by exact H. reflexivity. Qed.

Lemma nearest_even_spec (x : Q) :
  inject_Z (nearest_even x) - (1 # 2) <= x /\
  x <= inject_Z (nearest_even x) + (1 # 2).
Proof.
  unfold nearest_even.
  pose proof (Qfloor_le x) as Hlo.
  pose proof (Qlt_floor x) as Hhi.
  rewrite inject_Z_plus in Hhi.
  change (inject_Z 1) with 1 in Hhi.
  destruct (x - inject_Z (Qfloor x) ?= 1 # 2) eqn:E.
  - apply (proj2 (Qeq_alt _ _)) in E.
    destruct (Z.even (Qfloor x)); [| rewrite inject_Z_plus; change (inject_Z 1) with 1];
      split; lra.
  - apply (proj2 (Qlt_alt _ _)) in E. split; lra.
  - apply (proj2 (Qgt_alt _ _)) in E. rewrite inject_Z_plus. change (inject_Z 1) with 1. split; lra.
Qed.

Lemma nearest_even_Z (z : Z) : nearest_even (inject_Z z) = z.
Proof.
  unfold nearest_even. rewrite Qfloor_Z.
  assert (E : (inject_Z z - inject_Z z ?= 1 # 2) = Lt).
  { apply (proj1 (Qlt_alt _ _)). lra. }
  rewrite E. reflexivity.
Qed.

Lemma nearest_even_eq (x : Q) (z : Z) : x == inject_Z z -> nearest_even x = z.
Proof.
  intros H. unfold nearest_even.
  assert (F : Qfloor x = z).
  { apply Z.le_antisymm.
    - rewrite <- (Qfloor_Z z). apply Qfloor_resp_le. lra.
    - rewrite <- (Qfloor_Z z). apply Qfloor_resp_le. lra. }
  rewrite F.
  assert (E : (x - inject_Z z ?= 1 # 2) = Lt).
  { apply (proj1 (Qlt_alt _ _)). lra. }
  rewrite E. reflexivity.
Qed.

Lemma nearest_even_ge (x : Q) (k : Z) : inject_Z k <= x -> (k <= nearest_even x)%Z.
Proof.
  intros H.
  assert (F : (k <= Qfloor x)%Z).
  { rewrite <- (Qfloor_Z k). apply Qfloor_resp_le. exact H. }
  unfold nearest_even.
  destruct (x - inject_Z (Qfloor x) ?= 1 # 2); [destruct (Z.even (Qfloor x)) | |]; lia.
Qed.

Lemma nearest_even_nonneg (x : Q) : 0 <= x -> (0 <= nearest_even x)%Z.
Proof. intros H. apply nearest_even_ge. exact H. Qed.

Lemma Qdiv_le_cross (A B P R : Q) :
  0 < B -> 0 < R -> A * R <= P * B -> A / B <= P / R.
Proof.
  intros HB HR H.
  apply Qle_shift_div_r; [exact HB |].
  setoid_replace (P / R * B) with (P * B / R) by (field; lra).
  apply Qle_shift_div_l; [exact HR | exact H].
Qed.

Lemma Qdiv_lt_cross (A B P R : Q) :
  0 < B -> 0 < R -> A * R < P * B -> A / B < P / R.
Proof.
  intros HB HR H.
  apply Qlt_shift_div_r; [exact HB |].
  setoid_replace (P / R * B) with (P * B / R) by (field; lra).
  apply Qlt_shift_div_l; [exact HR | exact H].
Qed.

(** Numerator and denominator of a positive rational between powers of two. *)
Lemma log2_brackets (a : Q) :
  0 < a ->
  let lp := Z.log2 (Qnum a) in
  let lr := Z.log2 (Zpos (Qden a)) in
  (0 <= lp)%Z /\ (0 <= lr)%Z /\
  two ^ lp <= inject_Z (Qnum a) /\ inject_Z (Qnum a) < two ^ (lp + 1) /\
  two ^ lr <= inject_Z (Zpos (Qden a)) /\ inject_Z (Zpos (Qden a)) < two ^ (lr + 1).
Proof.
  intros Ha lp lr.
  assert (Hp : (0 < Qnum a)%Z).
  { destruct a as [p r]. unfold Qlt in Ha. simpl in *. lia. }
  assert (Hr : (0 < Zpos (Qden a))%Z) by lia.
  pose proof (Z.log2_spec _ Hp) as [Hp1 Hp2].
  pose proof (Z.log2_spec _ Hr) as [Hr1 Hr2].
  pose proof (Z.log2_nonneg (Qnum a)) as Hlp.
  pose proof (Z.log2_nonneg (Zpos (Qden a))) as Hlr.
  fold lp in Hp1, Hp2, Hlp. fold lr in Hr1, Hr2, Hlr.
  repeat split; try assumption.
  - rewrite <- two_pow_inject by lia. rewrite <- Zle_Qle. exact Hp1.
  - rewrite <- two_pow_inject by lia. rewrite <- Zlt_Qlt.
    replace (lp + 1)%Z with (Z.succ lp) by lia. exact Hp2.
  - rewrite <- two_pow_inject by lia. rewrite <- Zle_Qle. exact Hr1.
  - rewrite <- two_pow_inject by lia. rewrite <- Zlt_Qlt.
    replace (lr + 1)%Z with (Z.succ lr) by lia. exact Hr2.
Qed.

Lemma ilog2_spec (a : Q) :
  0 < a -> two ^ (ilog2 a) <= a /\ a < two ^ (ilog2 a + 1).
Proof.
  intros Ha.
  destruct (log2_brackets a Ha) as (Hlp & Hlr & Hp1 & Hp2 & Hr1 & Hr2).
  unfold ilog2.
  set (lp := Z.log2 (Qnum a)) in *.
  set (lr := Z.log2 (Zpos (Qden a))) in *.
  assert (Ea : a == inject_Z (Qnum a) / inject_Z (Zpos (Qden a))).
  { destruct a as [p r]. simpl. apply Qmake_Qdiv. }
  set (P := inject_Z (Qnum a)) in *.
  set (R := inject_Z (Zpos (Qden a))) in *.
  pose proof (two_pow_pos lp) as Tlp.
  pose proof (two_pow_pos lr) as Tlr.
  pose proof (two_pow_pos (lr + 1)) as Tlr1.
  assert (HR : 0 < R) by lra.
  assert (HP : 0 < P) by lra.
  destruct (Qle_bool (two ^ (lp - lr)) a) eqn:E.
  - apply Qle_bool_iff in E. split; [exact E |].
    replace (lp - lr + 1)%Z with (lp + 1 - lr)%Z by lia.
    rewrite Qpower_minus by discriminate.
    rewrite Ea. apply Qdiv_lt_cross; try assumption.
    nra.
  - assert (E' : ~ two ^ (lp - lr) <= a).
    { intros C. apply Qle_bool_iff in C. congruence. }
    apply Qnot_le_lt in E'.
    replace (lp - lr - 1 + 1)%Z with (lp - lr)%Z by lia.
    split; [| exact E'].
    replace (lp - lr - 1)%Z with (lp - (lr + 1))%Z by lia.
    rewrite Qpower_minus by discriminate.
    rewrite Ea. apply Qdiv_le_cross; try assumption.
    nra.
Qed.

Lemma Qred_inject_Z (n : Z) : Qred (inject_Z n) = inject_Z n.
Proof.
  unfold Qred, inject_Z.
  pose proof (Z.ggcd_gcd n 1) as Hg.
  pose proof (Z.ggcd_correct_divisors n 1) as Hd.
  destruct (Z.ggcd n 1) as [g [r1 r2]]. simpl in *.
  rewrite Z.gcd_1_r in Hg. subst g. destruct Hd as [H1 H2].
  replace r1 with n by lia. replace r2 with 1%Z by lia. reflexivity.
Qed.

Lemma ilog2_lt (a : Q) (k : Z) : 0 < a -> a < two ^ k -> (ilog2 a < k)%Z.
Proof.
  intros Ha Hk. destruct (ilog2_spec a Ha) as [Hlo _].
  destruct (Z_lt_le_dec (ilog2 a) k) as [L | L]; [exact L |].
  pose proof (two_pow_mono _ _ L). lra.
Qed.

Lemma ilog2_ge (a : Q) (k : Z) : 0 < a -> two ^ k <= a -> (k <= ilog2 a)%Z.
Proof.
  intros Ha Hk. destruct (ilog2_spec a Ha) as [_ Hhi].
  destruct (Z_lt_le_dec (ilog2 a) k) as [L | L]; [| exact L].
  assert (L' : (ilog2 a + 1 <= k)%Z) by lia.
  pose proof (two_pow_mono _ _ L'). lra.
Qed.

(** The rounded value is within half a unit in the last place. *)
Lemma round_pos_half_ulp (a : Q) :
  0 < a ->
  let t := two ^ ulp_exp a in
  let v := inject_Z (nearest_even (a / t)) * t in
  v - t * (1 # 2) <= a /\ a <= v + t * (1 # 2) /\ 0 <= v.
Proof.
  intros Ha t v.
  pose proof (two_pow_pos (ulp_exp a)) as Ht. fold t in Ht.
  destruct (nearest_even_spec (a / t)) as [Hlo Hhi].
  assert (Hm : (0 <= nearest_even (a / t))%Z).
  { apply nearest_even_nonneg. apply Qle_shift_div_l; lra. }
  rewrite Zle_Qle in Hm. change (inject_Z 0) with 0 in Hm.
  set (m := inject_Z (nearest_even (a / t))) in *.
  assert (Ex : a == a / t * t) by (field; lra).
  set (x := a / t) in *.
  subst v. repeat split; try nra.
Qed.

Lemma ulp_exp_normal (a : Q) :
  two ^ (-1022) <= a -> two ^ ulp_exp a * two ^ 52 <= a.
Proof.
  intros Ha.
  pose proof (two_pow_pos (-1022)) as T.
  assert (Hpos : 0 < a) by lra.
  pose proof (ilog2_ge a (-1022) Hpos Ha) as Hl.
  unfold ulp_exp. rewrite Z.max_l by lia.
  rewrite <- Qpower_plus by discriminate.
  replace (ilog2 a - 52 + 52)%Z with (ilog2 a) by lia.
  apply ilog2_spec. exact Hpos.
Qed.

Lemma two_pow_52 : two ^ 52 == 4503599627370496.
Proof. reflexivity. Qed.

(** Relative error of rounding in the normal range. *)
Lemma round_pos_rel (a : Q) :
  two ^ (-1022) <= a -> a <= two ^ 1023 ->
  exists y, round_pos a = Num y /\ a - a * eps <= y /\ y <= a + a * eps.
Proof.
  intros Hlo Hhi.
  pose proof (two_pow_pos (-1022)) as T.
  assert (Hpos : 0 < a) by lra.
  destruct (round_pos_half_ulp a Hpos) as (H1 & H2 & H3).
  pose proof (ulp_exp_normal a Hlo) as Hu.
  pose proof (two_pow_pos (ulp_exp a)) as Ht.
  unfold round_pos.
  set (t := two ^ ulp_exp a) in *.
  set (v := inject_Z (nearest_even (a / t)) * t) in *.
  rewrite two_pow_52 in Hu.
  assert (B1 : a - a * eps <= v) by (unfold eps; lra).
  assert (B2 : v <= a + a * eps) by (unfold eps; lra).
  assert (E : Qle_bool (two ^ 1024) v = false).
  { destruct (Qle_bool (two ^ 1024) v) eqn:E; [| reflexivity].
    apply Qle_bool_iff in E.
    change 1024%Z with (1023 + 1)%Z in E. rewrite two_pow_succ in E.
    pose proof (two_pow_pos 1023) as T'.
    unfold eps in B2. exfalso. lra. }
  rewrite E. exists (Qred v). split; [reflexivity |].
  rewrite Qred_correct. split; assumption.
Qed.

Lemma to_double_pos (a : Q) : 0 < a -> to_double a = round_pos a.
Proof.
  intros Ha. unfold to_double.
  apply (proj1 (Qgt_alt _ _)) in Ha. rewrite Ha. reflexivity.
Qed.

Lemma to_double_zero (a : Q) : a == 0 -> to_double a = Num 0.
Proof.
  intros Ha. unfold to_double.
  apply (proj1 (Qeq_alt _ _)) in Ha. rewrite Ha. reflexivity.
Qed.

Lemma to_double_neg (a : Q) : a < 0 -> to_double a = neg (round_pos (- a)).
Proof.
  intros Ha. unfold to_double.
  apply (proj1 (Qlt_alt _ _)) in Ha. rewrite Ha. reflexivity.
Qed.

(** Integers below 2^53 in magnitude are doubles. *)
Lemma round_pos_Z (n : Z) :
  (0 < n < 2 ^ 53)%Z -> round_pos (inject_Z n) = Num (inject_Z n).
Proof.
  intros [Hn Hb].
  assert (Hpos : 0 < inject_Z n).
  { change 0 with (inject_Z 0). rewrite <- Zlt_Qlt. exact Hn. }
  assert (Hlt : inject_Z n < two ^ 53).
  { rewrite <- two_pow_inject by lia. rewrite <- Zlt_Qlt. exact Hb. }
  assert (Hge : two ^ 0 <= inject_Z n).
  { change (two ^ 0) with (inject_Z 1). rewrite <- Zle_Qle. lia. }
  pose proof (ilog2_lt _ _ Hpos Hlt) as L1.
  pose proof (ilog2_ge _ _ Hpos Hge) as L2.
  unfold round_pos, ulp_exp. rewrite Z.max_l by lia.
  set (e := (ilog2 (inject_Z n) - 52)%Z).
  assert (He : (e <= 0)%Z) by (unfold e; lia).
  assert (Ek : two ^ e == / inject_Z (2 ^ (- e))).
  { rewrite two_pow_inject by lia. rewrite <- Qpower_opp.
    replace (- - e)%Z with e by lia. reflexivity. }
  pose proof (two_pow_pos e) as Te.
  assert (Tk : 0 < inject_Z (2 ^ (- e))).
  { rewrite two_pow_inject by lia. apply two_pow_pos. }
  assert (Ex : inject_Z n / two ^ e == inject_Z (n * 2 ^ (- e))).
  { rewrite inject_Z_mult. rewrite Ek. field. lra. }
  rewrite (nearest_even_eq _ _ Ex).
  assert (Ev : inject_Z (n * 2 ^ (- e)) * two ^ e == inject_Z n).
  { rewrite inject_Z_mult. rewrite Ek. field. lra. }
  assert (E : Qle_bool (two ^ 1024) (inject_Z (n * 2 ^ (- e)) * two ^ e) = false).
  { destruct (Qle_bool _ _) eqn:E; [| reflexivity].
    apply Qle_bool_iff in E. rewrite Ev in E.
    pose proof (two_pow_mono 53 1024 ltac:(lia)). exfalso. lra. }
  rewrite E. f_equal.
  rewrite (Qred_complete _ _ Ev). apply Qred_inject_Z.
Qed.

Lemma to_double_Z (n : Z) :
  (- 2 ^ 53 < n < 2 ^ 53)%Z -> to_double (inject_Z n) = Num (inject_Z n).
Proof.
  intros [Hl Hh].
  destruct (Z.lt_trichotomy n 0) as [H | [H | H]].
  - assert (Hq : inject_Z n < 0).
    { change 0 with (inject_Z 0). rewrite <- Zlt_Qlt. exact H. }
    rewrite (to_double_neg _ Hq).
    rewrite <- inject_Z_opp.
    rewrite round_pos_Z by lia. cbn [neg].
    f_equal. rewrite <- inject_Z_opp. rewrite Qred_inject_Z. f_equal. lia.
  - subst n. reflexivity.
  - assert (Hq : 0 < inject_Z n).
    { change 0 with (inject_Z 0). rewrite <- Zlt_Qlt. exact H. }
    rewrite (to_double_pos _ Hq). apply round_pos_Z. lia.
Qed.

(** Rounding depends on the value only, not on the fraction that denotes it. *)
Lemma ilog2_comp (a b : Q) : 0 < a -> a == b -> ilog2 a = ilog2 b.
Proof.
  intros Ha E.
  assert (Hb : 0 < b) by (rewrite <- E; exact Ha).
  destruct (ilog2_spec a Ha) as [H1 H2].
  apply Z.le_antisymm.
  - apply ilog2_ge; [exact Hb | rewrite <- E; exact H1].
  - assert (L : (ilog2 b < ilog2 a + 1)%Z).
    { apply ilog2_lt; [exact Hb | rewrite <- E; exact H2]. }
    lia.
Qed.

Lemma nearest_even_comp (x y : Q) : x == y -> nearest_even x = nearest_even y.
Proof.
  intros E. unfold nearest_even.
  rewrite (Qfloor_comp _ _ E).
  assert (C : (x - inject_Z (Qfloor y) ?= 1 # 2) = (y - inject_Z (Qfloor y) ?= 1 # 2)).
  { apply Qcompare_comp; [rewrite E; reflexivity | reflexivity]. }
  rewrite C. reflexivity.
Qed.

Lemma round_pos_comp (a b : Q) : 0 < a -> a == b -> round_pos a = round_pos b.
Proof.
  intros Ha E. unfold round_pos, ulp_exp.
  rewrite (ilog2_comp a b Ha E).
  set (e := Z.max (ilog2 b - 52) (-1074)).
  assert (En : nearest_even (a / two ^ e) = nearest_even (b / two ^ e)).
  { apply nearest_even_comp. rewrite E. reflexivity. }
  rewrite En. reflexivity.
Qed.

Lemma to_double_comp (x y : Q) : x == y -> to_double x = to_double y.
Proof.
  intros E. unfold to_double.
  assert (C : (x ?= 0) = (y ?= 0)) by (apply Qcompare_comp; [exact E | reflexivity]).
  rewrite <- C.
  destruct (x ?= 0) eqn:D.
  - reflexivity.
  - apply (proj2 (Qlt_alt _ _)) in D.
    f_equal. apply round_pos_comp; [lra | rewrite E; reflexivity].
  - apply (proj2 (Qgt_alt _ _)) in D.
    apply round_pos_comp; [lra | exact E].
Qed.

Lemma to_double_Z_eq (x : Q) (n : Z) :
  x == inject_Z n -> (- 2 ^ 53 < n < 2 ^ 53)%Z -> to_double x = of_Z n.
Proof.
  intros E H. rewrite (to_double_comp _ _ E). apply to_double_Z. exact H.
Qed.

(** Integer arithmetic below 2^53 is exact. *)
Lemma add_Z (a b : Z) :
  (- 2 ^ 53 < a + b < 2 ^ 53)%Z -> add (of_Z a) (of_Z b) = of_Z (a + b).
Proof.
  intros H. unfold add, of_Z. apply to_double_Z_eq; [| exact H].
  rewrite inject_Z_plus. reflexivity.
Qed.

Lemma neg_Z (a : Z) : neg (of_Z a) = of_Z (- a).
Proof.
  unfold neg, of_Z. rewrite <- inject_Z_opp. rewrite Qred_inject_Z. reflexivity.
Qed.

Lemma sub_Z (a b : Z) :
  (- 2 ^ 53 < a - b < 2 ^ 53)%Z -> sub (of_Z a) (of_Z b) = of_Z (a - b).
Proof.
  intros H. unfold sub. rewrite neg_Z. rewrite add_Z by lia.
  f_equal.
Qed.

Lemma gt_Z (a b : Z) : gt (of_Z a) (of_Z b) = (b <? a)%Z.
Proof.
  unfold gt, of_Z.
  destruct (Qle_bool (inject_Z a) (inject_Z b)) eqn:E.
  - apply Qle_bool_iff in E. rewrite <- Zle_Qle in E.
    symmetry. apply Z.ltb_ge. exact E.
  - symmetry. apply Z.ltb_lt.
    destruct (Z_lt_le_dec b a) as [L | L]; [exact L |].
    rewrite Zle_Qle in L. apply Qle_bool_iff in L. congruence.
Qed.

Lemma ge_Z (a b : Z) : ge (of_Z a) (of_Z b) = (b <=? a)%Z.
Proof.
  unfold ge, of_Z.
  destruct (Qle_bool (inject_Z b) (inject_Z a)) eqn:E.
  - apply Qle_bool_iff in E. rewrite <- Zle_Qle in E.
    symmetry. apply Z.leb_le. exact E.
  - symmetry. apply Z.leb_gt.
    destruct (Z_lt_le_dec a b) as [L | L]; [exact L |].
    rewrite Zle_Qle in L. apply Qle_bool_iff in L. congruence.
Qed.

Lemma seq_Z (a b : Z) : seq (of_Z a) (of_Z b) = (a =? b)%Z.
Proof.
  unfold seq, of_Z.
  destruct (Qeq_bool (inject_Z a) (inject_Z b)) eqn:E.
  - apply Qeq_bool_iff in E. apply (proj1 (inject_Z_injective _ _)) in E.
    symmetry. apply Z.eqb_eq. exact E.
  - symmetry. apply Z.eqb_neq. intros C. subst b.
    rewrite Qeq_bool_refl in E. discriminate.
Qed.

Lemma of_Z_inj (a b : Z) : of_Z a = of_Z b -> a = b.
Proof. unfold of_Z, inject_Z. intros H. injection H. auto. Qed.

(** The double nearest to a positive rational is an infinity or a
    non-negative rational. *)
Lemma round_pos_shape (a : Q) :
  0 < a -> round_pos a = Infinity false \/ exists q, round_pos a = Num q /\ 0 <= q.
Proof.
  intros Ha. destruct (round_pos_half_ulp a Ha) as (_ & _ & Hv).
  unfold round_pos. destruct (Qle_bool _ _); [left; reflexivity |].
  right. eexists. split; [reflexivity |]. rewrite Qred_correct. exact Hv.
Qed.

(** Rounding never crosses an integer below 2^53. *)
Lemma round_pos_ge (a : Q) (K : Z) :
  (0 < K < 2 ^ 53)%Z -> inject_Z K <= a ->
  round_pos a = Infinity false \/ exists q, round_pos a = Num q /\ inject_Z K <= q.
Proof.
  intros [HK1 HK2] Ha.
  assert (HKq : 1 <= inject_Z K).
  { change 1 with (inject_Z 1). rewrite <- Zle_Qle. lia. }
  assert (HKb : inject_Z K < two ^ 53).
  { rewrite <- two_pow_inject by lia. rewrite <- Zlt_Qlt. exact HK2. }
  assert (Hpos : 0 < a) by lra.
  unfold round_pos. destruct (Qle_bool _ _); [left; reflexivity |].
  right. eexists. split; [reflexivity |]. rewrite Qred_correct.
  set (e := ulp_exp a).
  pose proof (two_pow_pos e) as Te.
  destruct (Z_le_gt_dec e 0) as [He | He].
  - assert (Ek : two ^ e == / inject_Z (2 ^ (- e))).
    { rewrite two_pow_inject by lia. rewrite <- Qpower_opp.
      replace (- - e)%Z with e by lia. reflexivity. }
    assert (Tk : 0 < inject_Z (2 ^ (- e))).
    { rewrite two_pow_inject by lia. apply two_pow_pos. }
    assert (Hx : inject_Z (K * 2 ^ (- e)) <= a / two ^ e).
    { rewrite inject_Z_mult. rewrite Ek.
      setoid_replace (a / / inject_Z (2 ^ (- e))) with (a * inject_Z (2 ^ (- e)))
        by (field; lra).
      apply Qmult_le_compat_r; lra. }
    apply nearest_even_ge in Hx. rewrite Zle_Qle in Hx.
    rewrite inject_Z_mult in Hx.
    set (m := inject_Z (nearest_even (a / two ^ e))) in *.
    apply Qle_trans with (inject_Z K * inject_Z (2 ^ (- e)) * two ^ e).
    + rewrite Ek. apply Qle_lteq. right. field. lra.
    + apply Qmult_le_compat_r; lra.
  - assert (Hn : two ^ (-1022) <= a).
    { pose proof (two_pow_mono (-1022) 0 ltac:(lia)) as M.
      change (two ^ 0) with 1 in M. lra. }
    pose proof (ulp_exp_normal a Hn) as Hu. fold e in Hu.
    assert (Hx : inject_Z (2 ^ 52) <= a / two ^ e).
    { rewrite two_pow_inject by lia. apply Qle_shift_div_l; [exact Te |].
      rewrite Qmult_comm. exact Hu. }
    apply nearest_even_ge in Hx. rewrite Zle_Qle in Hx.
    rewrite two_pow_inject in Hx by lia.
    set (m := inject_Z (nearest_even (a / two ^ e))) in *.
    assert (T1 : two ^ 1 <= two ^ e) by (apply two_pow_mono; lia).
    change (two ^ 1) with 2 in T1.
    change 53%Z with (52 + 1)%Z in HKb. rewrite two_pow_succ in HKb.
    pose proof (two_pow_pos 52) as T52.
    apply Qle_trans with (two ^ 52 * 2); [lra |].
    apply Qle_trans with (m * 2).
    + apply Qmult_le_compat_r; lra.
    + rewrite (Qmult_comm m 2). rewrite (Qmult_comm m (two ^ e)).
      apply Qmult_le_compat_r; lra.
Qed.

(** What [to_double] makes of an integer, as far as a clamp to [0, 100]
    can tell. *)
Lemma to_double_Z_cases (n : Z) :
  match to_double (inject_Z n) with
  | NaN => False
  | Infinity s => if s then (n < 0)%Z else (100 <= n)%Z
  | Num q =>
      ((n <= 0)%Z /\ q <= 0) \/ ((0 < n < 100)%Z /\ q = inject_Z n) \/
      ((100 <= n)%Z /\ 100 <= q)
  end.
Proof.
  destruct (Z_le_gt_dec n 0) as [H0 | H0].
  - destruct (Z.eq_dec n 0) as [-> | Hne].
    + simpl. left. split; [lia | lra].
    + assert (Hq : inject_Z n < 0).
      { change 0 with (inject_Z 0). rewrite <- Zlt_Qlt. lia. }
      rewrite (to_double_neg _ Hq).
      assert (Hp : 0 < - inject_Z n) by lra.
      destruct (round_pos_shape _ Hp) as [E | (q & E & Hq')]; rewrite E; cbn [neg negb].
      * lia.
      * left. split; [lia |]. rewrite Qred_correct. lra.
  - assert (Hq : 0 < inject_Z n).
    { change 0 with (inject_Z 0). rewrite <- Zlt_Qlt. lia. }
    destruct (Z_lt_le_dec n 100) as [H1 | H1].
    + rewrite to_double_Z by lia. right. left. split; [lia | reflexivity].
    + rewrite (to_double_pos _ Hq).
      assert (Hk : inject_Z 100 <= inject_Z n) by (rewrite <- Zle_Qle; exact H1).
      destruct (round_pos_ge _ 100 ltac:(lia) Hk) as [E | (q & E & Hq')]; rewrite E.
      * exact H1.
      * right. right. split; [exact H1 | exact Hq'].
Qed.

(** Exact sums of integers. *)
Lemma fold_add_exact (zs : list Z) (B acc : Z) :
  Forall (fun z => (- B <= z <= B)%Z) zs ->
  (Z.abs acc + B * Z.of_nat (List.length zs) < 2 ^ 53)%Z ->
  fold_left add (map of_Z zs) (of_Z acc) = of_Z (acc + Spec.sumZ zs) /\
  (Z.abs (acc + Spec.sumZ zs) <= Z.abs acc + B * Z.of_nat (List.length zs))%Z.
Proof.
  intros HF. revert acc. induction HF as [| z zs Hz HF IH]; intros acc Hb.
  - simpl. split; [f_equal; lia | lia].
  - cbn [map fold_left Spec.sumZ fold_right List.length] in *.
    rewrite Nat2Z.inj_succ in Hb.
    assert (HB : (0 <= B)%Z) by lia.
    assert (Hlen : (0 <= B * Z.of_nat (List.length zs))%Z) by nia.
    rewrite add_Z by lia.
    destruct (IH (acc + z)%Z) as [E1 E2]; [nia |].
    fold (Spec.sumZ zs) in *.
    rewrite E1. split; [f_equal; lia |].
    rewrite Nat2Z.inj_succ. replace (acc + (z + Spec.sumZ zs))%Z with (acc + z + Spec.sumZ zs)%Z by lia.
    nia.
Qed.

Lemma two_pow_m60 : two ^ (-1022) <= 1 # 1152921504606846976.
Proof.
  apply Qle_trans with (two ^ (-60)).
  - apply two_pow_mono. lia.
  - apply Qle_lteq. right. reflexivity.
Qed.

Lemma two_pow_p60 : 1152921504606846976 <= two ^ 1023.
Proof.
  apply Qle_trans with (two ^ 60).
  - apply Qle_lteq. right. reflexivity.
  - apply two_pow_mono. lia.
Qed.

(** Relative error of [to_double] on values of magnitude between 2^-60 and
    2^60, whatever their sign. *)
Lemma to_double_rel (a : Q) :
  (1 # 1152921504606846976) <= Qabs a -> Qabs a <= 1152921504606846976 ->
  exists y, to_double a = Num y /\
            (0 < a -> a - a * eps <= y /\ y <= a + a * eps) /\
            (a < 0 -> a + a * eps <= y /\ y <= a - a * eps).
Proof.
  intros Hlo Hhi.
  pose proof two_pow_m60 as L. pose proof two_pow_p60 as U.
  destruct (Qlt_le_dec 0 a) as [Hp | Hn].
  - rewrite Qabs_pos in Hlo, Hhi by lra.
    rewrite (to_double_pos _ Hp).
    destruct (round_pos_rel a) as (y & E & B1 & B2); [lra | lra |].
    exists y. split; [exact E |]. split; [intros _; split; assumption | intros C; lra].
  - assert (Hz : ~ a == 0).
    { intros C. rewrite C in Hlo. change (Qabs 0) with 0 in Hlo.
      unfold Qle in Hlo. simpl in Hlo. lia. }
    assert (Hneg : a < 0).
    { destruct (Qlt_le_dec a 0) as [H | H]; [exact H |]. exfalso. apply Hz. lra. }
    rewrite Qabs_neg in Hlo, Hhi by lra.
    rewrite (to_double_neg _ Hneg).
    destruct (round_pos_rel (- a)) as (y & E & B1 & B2); [lra | lra |].
    rewrite E. cbn [neg]. exists (Qred (- y)). split; [reflexivity |].
    rewrite Qred_correct.
    split; [intros C; lra | intros _; split; lra].
Qed.

Lemma Qfloor_unique (q : Q) (k : Z) :
  inject_Z k <= q -> q < inject_Z (k + 1) -> Qfloor q = k.
Proof.
  intros H1 H2.
  pose proof (Qfloor_le q) as F1. pose proof (Qlt_floor q) as F2.
  assert (A : (k < Qfloor q + 1)%Z).
  { rewrite Zlt_Qlt. lra. }
  assert (B : (Qfloor q < k + 1)%Z).
  { rewrite Zlt_Qlt. lra. }
  lia.
Qed.

End JSFacts.


(** ** Agreement with the Standard Library's binary64 on samples *)

Module Binary64Facts.
Import JS Binary64.

(** Quotients and products of the savings rate, for incomes 1..40 and
    expenses 0..60, and at the amounts of the examples. *)
Lemma rate_agrees_on_samples :
  forallb (fun a => forallb (rate_agrees a) (range 0 61)) (range 1 40) = true /\
  rate_agrees 400000 170000 = true /\ rate_agrees 500000 16250 = true.
Proof. vm_compute. repeat split. Qed.

(** Cents to amount and back, for 0..1000 cents and around the bounds. *)
Lemma cents_agree_on_samples :
  forallb cents_agree (range 0 1001) = true /\
  forallb cents_agree (range 2147483600 50) = true /\
  forallb cents_agree (range 4503599627368490 20) = true.
Proof. vm_compute. repeat split. Qed.

End Binary64Facts.

(** ** Onboarding: percentages, validation and the writes of [handleComplete] *)

Module OnboardingFacts.
Import JS JSString Store Onboarding JSFacts.
Import Spec Fixture.

Lemma Qle_bool_false (x y : Q) : (y < x)%Q -> Qle_bool x y = false.
Proof.
  intros H. destruct (Qle_bool x y) eqn:E; [| reflexivity].
  apply Qle_bool_iff in E. exfalso. lra.
Qed.

Lemma Qle_bool_true (x y : Q) : (x <= y)%Q -> Qle_bool x y = true.
Proof. intros H. apply Qle_bool_iff. exact H. Qed.

Lemma Qeq_bool_false (x y : Q) : ~ (x == y)%Q -> Qeq_bool x y = false.
Proof.
  intros H. destruct (Qeq_bool x y) eqn:E; [| reflexivity].
  apply Qeq_bool_iff in E. contradiction.
Qed.

Lemma parseInt_cases (value : jsstring) :
  parseInt value = NaN \/ exists n, parseInt value = to_double (inject_Z n).
Proof.
  unfold parseInt.
  destruct (split_sign (trim_start value)) as [negative s1].
  match goal with |- context [let (radix, s2) := ?m in _] => destruct m as [radix s2] end.
  destruct (span_digits radix s2) as [ds rest].
  destruct ds; [left | right; eexists]; reflexivity.
Qed.

Lemma clamp_Num_nonpos (q : Q) : (q <= 0)%Q -> clamp (Num q) = of_Z 0.
Proof.
  intros H. unfold clamp, truthy.
  destruct (negb (is_zero q)).
  - unfold Math_max, of_Z, ge. change (inject_Z 0) with 0%Q.
    rewrite (Qle_bool_true _ _ H). reflexivity.
  - reflexivity.
Qed.

Lemma clamp_Num_large (q : Q) : (100 <= q)%Q -> clamp (Num q) = of_Z 100.
Proof.
  intros H. unfold clamp, truthy, is_zero.
  rewrite Qeq_bool_false by lra. cbn [negb].
  unfold Math_max, of_Z, ge. change (inject_Z 0) with 0%Q.
  rewrite Qle_bool_false by lra.
  unfold Math_min, le, ge. change (inject_Z 100) with 100%Q.
  rewrite (Qle_bool_true _ _ H). reflexivity.
Qed.

Lemma clamp_Z_inside (n : Z) : (0 < n < 100)%Z -> clamp (of_Z n) = of_Z n.
Proof.
  intros H. unfold clamp.
  assert (T : truthy (of_Z n) = true).
  { unfold truthy, is_zero, of_Z. rewrite Qeq_bool_false; [reflexivity |].
    intros C. change 0%Q with (inject_Z 0) in C.
    apply (proj1 (inject_Z_injective _ _)) in C. lia. }
  rewrite T.
  assert (M : Math_max (of_Z 0) (of_Z n) = of_Z n).
  { unfold Math_max, of_Z. fold (of_Z 0). fold (of_Z n). rewrite ge_Z.
    destruct (n <=? 0)%Z eqn:E; [apply Z.leb_le in E; lia | reflexivity]. }
  rewrite M.
  unfold Math_min, le, of_Z. fold (of_Z 100). fold (of_Z n). rewrite ge_Z.
  destruct (100 <=? n)%Z eqn:E; [apply Z.leb_le in E; lia | reflexivity].
Qed.

(** Whatever [parseInt] returns, the clamp is an integer of [0, 100]. *)
Lemma clamp_parseInt (value : jsstring) :
  exists z, (0 <= z <= 100)%Z /\ clamp (parseInt value) = of_Z z /\
            (parseInt value = NaN -> z = 0%Z).
Proof.
  destruct (parseInt_cases value) as [E | [n E]]; rewrite E.
  - exists 0%Z. repeat split; try lia.
  - pose proof (to_double_Z_cases n) as C.
    destruct (to_double (inject_Z n)) as [| s | q].
    + contradiction.
    + destruct s.
      * exists 0%Z. repeat split; try lia; try discriminate.
      * exists 100%Z. repeat split; try lia; try discriminate.
    + destruct C as [[_ Hq] | [[Hn Hq] | [_ Hq]]].
      * exists 0%Z. rewrite clamp_Num_nonpos by exact Hq.
        repeat split; try lia; try discriminate.
      * exists n. subst q. fold (of_Z n). rewrite clamp_Z_inside by exact Hn.
        repeat split; try lia; try discriminate.
      * exists 100%Z. rewrite clamp_Num_large by exact Hq.
        repeat split; try lia; try discriminate.
Qed.

Lemma set_percentage_length (h : heap) (r : ref) (p : number) :
  List.length (set_percentage h r p) = List.length h.
Proof.
  revert r. induction h as [| c h IH]; intros r; [reflexivity |].
  destruct r; simpl; [reflexivity | rewrite IH; reflexivity].
Qed.

Lemma set_percentage_ok (h : heap) (r : ref) (z : Z) :
  (0 <= z <= 100)%Z -> Forall percentage_ok h ->
  Forall percentage_ok (set_percentage h r (of_Z z)).
Proof.
  intros Hz HF. revert r. induction HF as [| c h Hc HF IH]; intros r.
  - constructor.
  - destruct r; simpl.
    + constructor; [| exact HF]. exists z. split; [exact Hz | reflexivity].
    + constructor; [exact Hc | apply IH].
Qed.

Lemma objects_default (h : heap) :
  List.length h = 5%nat -> objects h DEFAULT_CATEGORIES = h.
Proof.
  intros H.
  destruct h as [| c0 [| c1 [| c2 [| c3 [| c4 [| c5 h]]]]]]; try discriminate.
  reflexivity.
Qed.

Lemma handlePercentageChange_spec h s index value h' s' :
  handlePercentageChange h s index value = Some (h', s') ->
  exists r z,
    nth_error (categories s) index = Some r /\ (0 <= z <= 100)%Z /\
    h' = set_percentage h r (of_Z z) /\ categories s' = categories s /\
    (parseInt value = NaN -> z = 0%Z).
Proof.
  unfold handlePercentageChange. cbv zeta. fold (clamp (parseInt value)). intros H.
  destruct (nth_error (categories s) index) as [r |] eqn:E; [| discriminate].
  destruct (clamp_parseInt value) as (z & Hz & Hc & Hn).
  rewrite Hc in H. injection H as <- <-.
  exists r, z. repeat split; auto; lia.
Qed.

Lemma reachable_ok h s :
  reachable h s -> heap_ok h /\ categories s = DEFAULT_CATEGORIES.
Proof.
  induction 1 as [| h s _ [IH1 IH2] | h s v _ [IH1 IH2] | h s _ [IH1 IH2]
                  | h s index value h' s' _ [[IHl IHf] IH2] Hc].
  - split; [| reflexivity]. split; [reflexivity |].
    repeat constructor; eexists; (split; [| reflexivity]); lia.
  - split; [exact IH1 | reflexivity].
  - split; [exact IH1 | exact IH2].
  - split; [exact IH1 | exact IH2].
  - destruct (handlePercentageChange_spec _ _ _ _ _ _ Hc) as (r & z & _ & Hz & -> & Hs & _).
    split; [| congruence].
    split; [rewrite set_percentage_length; exact IHl |].
    apply set_percentage_ok; assumption.
Qed.

Lemma percentages_integers (cs : list Category) :
  Forall percentage_ok cs ->
  exists zs, map percentage cs = map of_Z zs /\
             Forall (fun z => (0 <= z <= 100)%Z) zs /\ List.length zs = List.length cs.
Proof.
  induction 1 as [| c cs (z & Hz & Hc) _ (zs & E & F & L)].
  - exists []. repeat split; constructor.
  - exists (z :: zs). simpl. rewrite Hc, E, L. repeat split. constructor; assumption.
Qed.

Lemma totalPercentage_fold (h : heap) (s : Screen) :
  totalPercentage h s = fold_left add (map percentage (objects h (categories s))) (of_Z 0).
Proof.
  unfold totalPercentage. generalize (of_Z 0).
  induction (objects h (categories s)) as [| c cs IH]; intros a; [reflexivity |].
  simpl. apply IH.
Qed.

Lemma sumZ_bounds (zs : list Z) :
  Forall (fun z => (0 <= z <= 100)%Z) zs ->
  (0 <= Spec.sumZ zs <= 100 * Z.of_nat (List.length zs))%Z.
Proof.
  induction 1 as [| z zs Hz _ IH]; [simpl; lia |].
  cbn [Spec.sumZ fold_right List.length]. fold (Spec.sumZ zs).
  rewrite Nat2Z.inj_succ. lia.
Qed.

(** The displayed total is the exact sum of the percentages. *)
Lemma totalPercentage_exact (h : heap) (s : Screen) (zs : list Z) :
  map percentage (objects h (categories s)) = map of_Z zs ->
  Forall (fun z => (0 <= z <= 100)%Z) zs -> List.length zs = 5%nat ->
  totalPercentage h s = of_Z (Spec.sumZ zs).
Proof.
  intros E F L. rewrite totalPercentage_fold, E.
  destruct (fold_add_exact zs 100 0) as [H _].
  - eapply Forall_impl; [| exact F]. simpl. intros; lia.
  - rewrite L. reflexivity.
  - exact H.
Qed.

(** The percentage fields write through to the objects of
    [DEFAULT_CATEGORIES]: a screen mounted again in the same run of the
    application starts from the edited values. *)
Lemma edits_reach_the_defaults :
  forall h' s',
    handlePercentageChange initial_heap mount 0 (str "45") = Some (h', s') ->
    map percentage (objects h' DEFAULT_CATEGORIES) = map of_Z [45; 20; 25; 20; 5] /\
    reachable h' mount /\
    map percentage (objects h' (categories mount)) = map of_Z [45; 20; 25; 20; 5].
Proof.
  intros h' s' H.
  assert (R : reachable h' s').
  { eapply reach_percentage; [apply reach_mount | exact H]. }
  vm_compute in H. injection H as <- <-.
  split; [reflexivity |]. split; [| reflexivity].
  eapply reach_remount. exact R.
Qed.

(** C5.  The budget categories are exactly the five fixed types bills,
    goals, daily, freedom and emergency (named Bills, Goals, Daily, Freedom,
    Emergency), the only ones the schema accepts, and the percentages offered
    when the onboarding screen is first mounted, 30, 20, 25, 20 and 5, sum to
    exactly 100. *)
Theorem default_categories_partition_income :
  map type (objects initial_heap DEFAULT_CATEGORIES) = category_types /\
  map name (objects initial_heap DEFAULT_CATEGORIES)
    = ["Bills"; "Goals"; "Daily"; "Freedom"; "Emergency"]%string /\
  NoDup category_types /\ List.length category_types = 5%nat /\
  map percentage (objects initial_heap (categories mount)) = map of_Z [30; 20; 25; 20; 5] /\
  Spec.sumZ [30; 20; 25; 20; 5] = 100 /\
  totalPercentage initial_heap mount = of_Z 100.
Proof.
  repeat split; try reflexivity.
  unfold category_types.
  repeat constructor; simpl; intuition discriminate.
Qed.

(** The clamp of an integer that [parseInt] read. *)
Lemma clamp_to_double_Z (n : Z) :
  clamp (to_double (inject_Z n)) = of_Z (Z.max 0 (Z.min n 100)).
Proof.
  pose proof (to_double_Z_cases n) as C.
  destruct (to_double (inject_Z n)) as [| s | q].
  - contradiction.
  - destruct s.
    + rewrite Z.max_l by lia. reflexivity.
    + rewrite Z.min_r, Z.max_r by lia. reflexivity.
  - destruct C as [[Hn Hq] | [[Hn Hq] | [Hn Hq]]].
    + rewrite clamp_Num_nonpos by exact Hq. rewrite Z.max_l by lia. reflexivity.
    + subst q. fold (of_Z n). rewrite clamp_Z_inside by exact Hn.
      rewrite Z.min_l, Z.max_r by lia. reflexivity.
    + rewrite clamp_Num_large by exact Hq. rewrite Z.min_r, Z.max_r by lia. reflexivity.
Qed.

Lemma nth_error_set_percentage (h : heap) (r : ref) (p : number) (j : nat) :
  (r < List.length h)%nat ->
  nth_error (map percentage (set_percentage h r p)) j
  = if Nat.eqb j r then Some p else nth_error (map percentage h) j.
Proof.
  revert r j. induction h as [| c h IH]; intros r j Hr; [simpl in Hr; lia |].
  destruct r as [| r]; destruct j as [| j]; try reflexivity.
  cbn [set_percentage map nth_error Nat.eqb]. apply IH. simpl in Hr. lia.
Qed.

(** Every edit of a percentage field, in a reachable state: the object at
    [index] gets the clamp of what [parseInt] makes of the text, and the
    other objects keep their percentages. *)
Lemma handlePercentageChange_stores h s index value h' s' :
  reachable h s ->
  handlePercentageChange h s index value = Some (h', s') ->
  nth_error (categories s) index = Some index /\
  h' = set_percentage h index (clamp (parseInt value)) /\
  categories s' = categories s /\
  (forall j,
      nth_error (map percentage (objects h' (categories s'))) j
      = if Nat.eqb j index then Some (clamp (parseInt value))
        else nth_error (map percentage (objects h (categories s))) j).
Proof.
  intros R H. destruct (reachable_ok h s R) as [[Hl Hf] Hc].
  unfold handlePercentageChange in H. cbv zeta in H.
  fold (clamp (parseInt value)) in H.
  destruct (nth_error (categories s) index) as [r |] eqn:E; [| discriminate].
  assert (Hr : r = index /\ (index < 5)%nat).
  { rewrite Hc in E.
    destruct index as [| [| [| [| [| index]]]]]; cbn in E;
      try (injection E as <-; split; [reflexivity | lia]).
    destruct index; discriminate. }
  destruct Hr as [-> Hi]. injection H as <- <-.
  split; [reflexivity |]. split; [reflexivity |]. split; [reflexivity |].
  intros j. cbn [categories]. rewrite Hc.
  rewrite objects_default by (rewrite set_percentage_length; exact Hl).
  rewrite (objects_default h Hl).
  apply nth_error_set_percentage. lia.
Qed.

(** C10.  In every state the onboarding screen can reach, whatever string
    is typed into a percentage field, [handlePercentageChange] stores in the
    category of that field the integer [parseInt] reads from the string
    clamped to [0, 100] (0 when [parseInt] finds no number), and leaves the
    other percentages as they are; every category's percentage lies in
    [0, 100], so it passes the CHECK of
    [budget_categories.allocation_percentage], and the displayed total of the
    five lies in [0, 500]. *)
Theorem percentages_stay_clamped (h : heap) (s : Screen) :
  reachable h s ->
  (forall index value h' s',
      handlePercentageChange h s index value = Some (h', s') ->
      exists z,
        (0 <= z <= 100)%Z /\
        clamp (parseInt value) = of_Z z /\
        (parseInt value = NaN -> z = 0%Z) /\
        (forall n, parseInt value = to_double (inject_Z n) ->
                   z = Z.max 0 (Z.min n 100)) /\
        nth_error (categories s) index = Some index /\
        h' = set_percentage h index (of_Z z) /\
        categories s' = categories s /\
        (forall j,
            nth_error (map percentage (objects h' (categories s'))) j
            = if Nat.eqb j index then Some (of_Z z)
              else nth_error (map percentage (objects h (categories s))) j)) /\
  (forall index value,
      (index < 5)%nat -> handlePercentageChange h s index value <> None) /\
  List.length (objects h (categories s)) = 5%nat /\
  Forall (fun c => exists z, (0 <= z <= 100)%Z /\ percentage c = of_Z z /\
                             to_integer (percentage c) = Some (Some z) /\
                             check_percentage (Some z) = true)
         (objects h (categories s)) /\
  exists t, (0 <= t <= 500)%Z /\ totalPercentage h s = of_Z t.
Proof.
  intros R. destruct (reachable_ok h s R) as [[Hl Hf] Hc].
  split; [| repeat split].
  - intros index value h' s' H.
    destruct (handlePercentageChange_stores _ _ _ _ _ _ R H) as (H1 & H2 & H3 & H4).
    destruct (clamp_parseInt value) as (z & Hz & Ez & Hn).
    exists z. rewrite <- Ez.
    split; [exact Hz |]. split; [reflexivity |]. split; [exact Hn |].
    split; [| split; [exact H1 | split; [exact H2 | split; [exact H3 | exact H4]]]].
    intros n En. rewrite En, clamp_to_double_Z in Ez.
    unfold of_Z in Ez. injection Ez as Ez. lia.
  - intros index value Hi. unfold handlePercentageChange. cbv zeta. rewrite Hc.
    destruct index as [| [| [| [| [| index]]]]]; try discriminate. lia.
  - rewrite Hc, objects_default by exact Hl. exact Hl.
  - rewrite Hc, objects_default by exact Hl.
    eapply Forall_impl; [| exact Hf].
    intros c (z & Hz & Ec). exists z. split; [exact Hz |]. split; [exact Ec |].
    rewrite Ec. split.
    + unfold to_integer, of_Z. rewrite Qfloor_Z, Qeq_bool_refl.
      assert (I : int4 z = true).
      { unfold int4. apply andb_true_iff. split; apply Z.leb_le; lia. }
      rewrite I. reflexivity.
    + unfold check_percentage. apply andb_true_iff. split; apply Z.leb_le; lia.
  - destruct (percentages_integers _ Hf) as (zs & E & F & L).
    exists (Spec.sumZ zs). pose proof (sumZ_bounds zs F) as B.
    rewrite L, Hl in B. split; [simpl in B; lia |].
    apply totalPercentage_exact.
    + rewrite Hc, objects_default by exact Hl. exact E.
    + exact F.
    + congruence.
Qed.

Lemma percentages_stay_clamped_witness :
  let h := set_percentage initial_heap 1%nat (of_Z 0) in
  reachable h mount /\
  (exists h' s',
      handlePercentageChange h mount 2 (str "45") = Some (h', s') /\
      map percentage (objects h' (categories s'))
      = [of_Z 30; of_Z 0; of_Z 45; of_Z 20; of_Z 5]) /\
  exists t, (0 <= t <= 500)%Z /\ totalPercentage h mount = of_Z t.
Proof.
  assert (R : reachable (set_percentage initial_heap 1%nat (of_Z 0)) mount).
  { apply (reach_percentage initial_heap mount 1%nat (str "abc")).
    - apply reach_mount.
    - vm_compute. reflexivity. }
  split; [exact R |].
  pose proof (percentages_stay_clamped _ _ R) as (P & _ & _ & _ & T).
  split; [| exact T].
  destruct (handlePercentageChange (set_percentage initial_heap 1%nat (of_Z 0)) mount 2
              (str "45")) as [[h' s'] |] eqn:E; [| vm_compute in E; discriminate E].
  exists h', s'. split; [reflexivity |].
  destruct (P 2%nat (str "45") h' s' E) as (z & _ & _ & _ & Hn & _ & Hh & Hs & _).
  rewrite (Hn 45%Z ltac:(vm_compute; reflexivity)) in Hh.
  rewrite Hh, Hs. vm_compute. reflexivity.
Defined.

(** C2.  With five percentages as the percentage fields leave them, the
    "Complete Setup" button is passed [disabled = false] if and only if they
    sum to exactly 100, and outside a running submission it can be pressed
    under the same condition; when the sum differs from 100 a press changes
    neither the screen nor the store, and when it is 100 a press runs
    [handleComplete]. *)
Theorem complete_setup_requires_total_100 (h : heap) (s : Screen) (zs : list Z) :
  map percentage (objects h (categories s)) = map of_Z zs ->
  Forall (fun z => (0 <= z <= 100)%Z) zs ->
  List.length zs = 5%nat ->
  (completeSetup_disabled h s = false <-> Spec.sumZ zs = 100) /\
  (loading s = false ->
   (Button_disabled (completeSetup_disabled h s) (loading s) = false
    <-> Spec.sumZ zs = 100)) /\
  (Spec.sumZ zs <> 100 ->
   forall user w, press_Complete_Setup user h s w = (s, w)) /\
  (Spec.sumZ zs = 100 -> loading s = false ->
   forall user, press_Complete_Setup user h s = handleComplete user h s).
Proof.
  intros E F L.
  assert (D : completeSetup_disabled h s = negb (Spec.sumZ zs =? 100)%Z).
  { unfold completeSetup_disabled.
    rewrite (totalPercentage_exact h s zs E F L), seq_Z. reflexivity. }
  assert (I : completeSetup_disabled h s = false <-> Spec.sumZ zs = 100).
  { rewrite D. rewrite negb_false_iff. apply Z.eqb_eq. }
  split; [exact I |]. split; [| split].
  - intros Hl. unfold Button_disabled. rewrite Hl, orb_false_r. exact I.
  - intros Hne user w. unfold press_Complete_Setup, Button_disabled.
    assert (T : completeSetup_disabled h s = true).
    { destruct (completeSetup_disabled h s); [reflexivity |].
      exfalso. apply Hne, I. reflexivity. }
    rewrite T. reflexivity.
  - intros T Hl user. unfold press_Complete_Setup, Button_disabled.
    rewrite (proj2 I T), Hl. reflexivity.
Qed.

Lemma complete_setup_requires_total_100_witness :
  let h := set_percentage initial_heap 0%nat (of_Z 45) in
  map percentage (objects h (categories mount)) = map of_Z [45; 20; 25; 20; 5] /\
  completeSetup_disabled h mount = true /\
  press_Complete_Setup (Some Fixture.alice) h mount Fixture.fresh = (mount, Fixture.fresh).
Proof.
  pose proof (complete_setup_requires_total_100
                (set_percentage initial_heap 0%nat (of_Z 45)) mount [45; 20; 25; 20; 5]
                eq_refl
                ltac:(repeat constructor; lia)
                eq_refl) as (H1 & _ & H3 & _).
  split; [reflexivity |]. split.
  - destruct (completeSetup_disabled _ mount); [reflexivity |].
    exfalso. assert (C : Spec.sumZ [45; 20; 25; 20; 5] = 100) by (apply H1; reflexivity).
    vm_compute in C. discriminate.
  - apply H3. vm_compute. discriminate.
Defined.

Lemma exec_bind {A B : Type} (m : Request A) (k : A -> Request B) (w : World) :
  exec (bind m k) w = exec (k (eval m w)) (exec m w).
Proof. unfold exec, eval, bind. destruct (m w). reflexivity. Qed.

Lemma for_of_invariant {A : Type} (P : World -> Prop) (xs : list A)
    (body : A -> Request unit) :
  (forall x w, P w -> P (exec (body x) w)) ->
  forall w, P w -> P (exec (for_of xs body) w).
Proof.
  intros Hb. induction xs as [| x xs IH]; intros w Hw.
  - exact Hw.
  - cbn [for_of]. rewrite exec_bind. apply IH, Hb, Hw.
Qed.

Lemma insert_budget_category_income_splits p w :
  income_splits (exec (insert_budget_category p) w) = income_splits w.
Proof.
  unfold exec, insert_budget_category.
  destruct (to_integer (bci_allocation_percentage p)); [| reflexivity].
  destruct (to_integer (bci_current_balance p)); [| reflexivity].
  match goal with |- context [if ?c then _ else _] => destruct c end; reflexivity.
Qed.

(** A split sent without a category is rejected. *)
Lemma insert_income_split_unlinked uid pct w :
  insert_income_split
    {| isi_user_id := uid; isi_category_id := None; isi_split_percentage := pct |} w
  = (true, w).
Proof. reflexivity. Qed.

(** C3.  [handleComplete] never adds a row to [income_splits]: every split
    it sends carries no [category_id] and is rejected.  For a new user who
    submits the default split, the five budget categories are created with
    their percentages and a balance of 0, and [income_splits] stays empty. *)
Theorem handleComplete_sends_splits_without_category :
  (forall user h s w,
      income_splits (exec (handleComplete user h s) w) = income_splits w) /\
  (let w' := exec (handleComplete (Some Fixture.alice) initial_heap onboarding_form)
                  Fixture.fresh in
   map (fun r => (bc_category_type r, bc_allocation_percentage r, bc_current_balance r))
       (budget_categories w')
   = [("bills", Some 30, Some 0); ("goals", Some 20, Some 0); ("daily", Some 25, Some 0);
      ("freedom", Some 20, Some 0); ("emergency", Some 5, Some 0)]%string /\
   map p_monthly_income (profiles w') = [Some 500000] /\
   income_splits w' = []).
Proof.
  split.
  - intros user h s w. unfold handleComplete. destruct user as [user |]; [| reflexivity].
    rewrite exec_bind.
    set (w1 := exec (update_profile_onboarding _ _) w).
    assert (E1 : income_splits w1 = income_splits w).
    { subst w1. unfold exec, update_profile_onboarding.
      destruct (to_integer _); reflexivity. }
    rewrite exec_bind. cbn [exec ret snd].
    rewrite <- E1. generalize w1. clear w1 E1.
    intros w1.
    apply (for_of_invariant (fun w' => income_splits w' = income_splits w1)); [| reflexivity].
    intros category w2 Hw2.
    rewrite exec_bind.
    assert (Es : exec (select_category_id (id user) (type category)) w2 = w2) by reflexivity.
    rewrite Es.
    destruct (eval (select_category_id (id user) (type category)) w2) as [cid |].
    + exact Hw2.
    + rewrite exec_bind. rewrite exec_bind. cbn [exec ret snd].
      unfold exec at 1. rewrite insert_income_split_unlinked. cbn [snd].
      rewrite insert_budget_category_income_splits. exact Hw2.
  - vm_compute. repeat split.
Qed.

End OnboardingFacts.

(** ** Treat wallet: what a spend is checked against and what it writes *)

Module TreatFacts.
Import JS JSString Store Treat JSFacts.
Import Spec Fixture.
Import OnboardingFacts.

Lemma of_integer_balance (wl : treat_wallet_row) :
  of_integer (tw_current_balance wl) = of_Z (balance_of wl).
Proof. unfold of_integer, balance_of. destruct (tw_current_balance wl); reflexivity. Qed.

Lemma of_integer_spent (wl : treat_wallet_row) :
  of_integer (tw_total_spent_this_month wl) = of_Z (spent_of wl).
Proof. unfold of_integer, spent_of. destruct (tw_total_spent_this_month wl); reflexivity. Qed.

Lemma int4_bounds (z : Z) : int4 z = true <-> (-2147483648 <= z <= 2147483647)%Z.
Proof.
  unfold int4. rewrite andb_true_iff, !Z.leb_le. reflexivity.
Qed.

Lemma to_integer_Z (z : Z) : int4 z = true -> to_integer (of_Z z) = Some (Some z).
Proof.
  intros H. unfold to_integer, of_Z. rewrite Qfloor_Z, Qeq_bool_refl, H. reflexivity.
Qed.

Lemma fetchData_world user s w : exec (fetchData user s) w = w.
Proof. destruct user; reflexivity. Qed.

Lemma filter_map_commute {A : Type} (f : A -> bool) (g : A -> A) (l : list A) :
  (forall x, f (g x) = f x) -> filter f (map g l) = map g (filter f l).
Proof.
  intros H. induction l as [| x l IH]; [reflexivity |].
  simpl. rewrite H. destruct (f x); simpl; rewrite IH; reflexivity.
Qed.

Lemma maybeSingle_map {A : Type} (g : A -> A) (l : list A) :
  maybeSingle (map g l) = option_map g (maybeSingle l).
Proof. destruct l as [| x [| y l]]; reflexivity. Qed.

(** The writes of a spend that passes the balance check. *)
Lemma handleSpend_passes user s wl a w :
  wallet s = Some wl ->
  nonempty (amount s) = true -> nonempty (recipient s) = true ->
  inCents (amount s) = of_Z a ->
  (a <= balance_of wl)%Z ->
  handleSpend (Some user) s w =
  (let w1 := exec (insert_transaction
                     {| ti_user_id := id user; ti_transaction_type := "treat";
                        ti_amount := of_Z a; ti_merchant := recipient s;
                        ti_description := description s |}) w in
   let w2 := exec (update_wallet (id user)
                     (sub (of_Z (balance_of wl)) (of_Z a))
                     (add (of_Z (spent_of wl)) (of_Z a))) w1 in
   (set_loading (eval (fetchData (Some user) (close_form s)) w2) false, w2)).
Proof.
  intros Hw Ha Hr Hc Hle. unfold handleSpend.
  rewrite Hw, Ha, Hr, Hc. cbn [andb].
  rewrite of_integer_balance, of_integer_spent, gt_Z.
  assert (L : (balance_of wl <? a)%Z = false) by (apply Z.ltb_ge; exact Hle).
  rewrite L. unfold bind, exec, eval.
  destruct (insert_transaction _ w) as [e1 w1]. cbn [snd].
  destruct (update_wallet _ _ _ w1) as [e2 w2]. cbn [snd].
  pose proof (fetchData_world (Some user) (close_form s) w2) as F.
  unfold exec in F.
  destruct (fetchData (Some user) (close_form s) w2) as [s' w3]. cbn [snd fst] in *.
  subst w3. reflexivity.
Qed.

Lemma update_wallet_transactions uid x y w :
  Store.transactions (exec (update_wallet uid x y) w) = Store.transactions w.
Proof.
  unfold exec, update_wallet.
  destruct (to_integer x); [| reflexivity]. destruct (to_integer y); reflexivity.
Qed.

(** U+0000 in a string keeps it out of a [text] column. *)
Lemma is_text_nul (s : jsstring) : In 0%N s -> is_text s = false.
Proof.
  intros H. unfold is_text. apply andb_false_iff. left.
  apply not_true_is_false. intros F.
  rewrite forallb_forall in F. specialize (F _ H). discriminate F.
Qed.

Lemma insert_transaction_refuses_nul uid ty x merchant description w :
  In 0%N merchant \/ In 0%N description ->
  Store.transactions
    (exec (insert_transaction
             {| ti_user_id := uid; ti_transaction_type := ty; ti_amount := x;
                ti_merchant := merchant; ti_description := description |}) w)
  = Store.transactions w.
Proof.
  intros H. unfold exec, insert_transaction.
  cbn [ti_amount ti_transaction_type ti_merchant ti_description].
  destruct (to_integer x) as [[z |] |]; try reflexivity.
  destruct H as [H | H]; rewrite (is_text_nul _ H), ?andb_false_r; reflexivity.
Qed.

(** C1, as stated, fails: with a balance of 1000.00, a monthly budget of
    50.00 and nothing spent yet, a spend of 80.00 exceeds the cap of 50.00,
    and it is recorded and charged to the wallet all the same.  (And with a
    balance of 10.00 under a budget of 500.00, a spend of 20.00 is within the
    cap and is rejected.) *)
Lemma spend_beyond_monthly_cap_is_recorded :
  let s := give_form rich_wallet "80.00" in
  let w := Fixture.with_wallet rich_wallet in
  let w' := exec (handleSpend (Some Fixture.alice) s) w in
  inCents (amount s) = of_Z 8000 /\
  remainingBudget s = of_Z 5000 /\
  gt (inCents (amount s)) (remainingBudget s) = true /\
  map t_amount (Store.transactions w') = [8000] /\
  Store.transactions w' <> Store.transactions w /\
  treat_wallet w' <> treat_wallet w /\
  (let s2 := give_form thrifty_wallet "20.00" in
   let w2 := Fixture.with_wallet thrifty_wallet in
   inCents (amount s2) = of_Z 2000 /\
   remainingBudget s2 = of_Z 50000 /\
   handleSpend (Some Fixture.alice) s2 w2 = (s2, w2)).
Proof.
  vm_compute. repeat split; discriminate.
Qed.

(** C1, amended.  A spend of [a] cents is checked against the wallet's
    current balance: when [a] exceeds it the handler changes neither the
    screen nor the store; when it does not, [a] fits the integer column and
    the recipient and the description are texts the store takes, one 'treat'
    transaction of amount [a], for the recipient entered, is added to
    [transactions]; and with U+0000 in the recipient or in the description
    the insert is refused and no transaction is added. *)
Theorem spend_checked_against_balance user s wl a w :
  wallet s = Some wl ->
  nonempty (amount s) = true -> nonempty (recipient s) = true ->
  inCents (amount s) = of_Z a ->
  ((balance_of wl < a)%Z -> handleSpend (Some user) s w = (s, w)) /\
  ((a <= balance_of wl)%Z -> int4 a = true ->
   is_text (recipient s) = true -> is_text (description s) = true ->
   Store.transactions (exec (handleSpend (Some user) s) w)
   = Store.transactions w ++ [treat_row user s a w]) /\
  ((a <= balance_of wl)%Z ->
   In 0%N (recipient s) \/ In 0%N (description s) ->
   Store.transactions (exec (handleSpend (Some user) s) w) = Store.transactions w).
Proof.
  intros Hw Ha Hr Hc. split; [| split].
  - intros Hlt. unfold handleSpend.
    rewrite Hw, Ha, Hr, Hc. cbn [andb].
    rewrite of_integer_balance, gt_Z.
    assert (L : (balance_of wl <? a)%Z = true) by (apply Z.ltb_lt; exact Hlt).
    rewrite L. reflexivity.
  - intros Hle Hi Tr Td.
    unfold exec. rewrite (handleSpend_passes user s wl a w Hw Ha Hr Hc Hle).
    cbv zeta. cbn [snd].
    rewrite update_wallet_transactions.
    unfold exec, insert_transaction.
    cbn [ti_amount ti_transaction_type ti_merchant ti_description].
    rewrite (to_integer_Z a Hi), Tr, Td. reflexivity.
  - intros Hle H0.
    unfold exec. rewrite (handleSpend_passes user s wl a w Hw Ha Hr Hc Hle).
    cbv zeta. cbn [snd].
    rewrite update_wallet_transactions.
    apply insert_transaction_refuses_nul. exact H0.
Qed.

Lemma spend_checked_against_balance_witness :
  let s := give_form rich_wallet "25.00" in
  let w := Fixture.with_wallet rich_wallet in
  inCents (amount s) = of_Z 2500 /\
  is_text (recipient s) = true /\ is_text (description s) = true /\
  Store.transactions (exec (handleSpend (Some Fixture.alice) s) w)
  = [treat_row Fixture.alice s 2500 w].
Proof.
  split; [vm_compute; reflexivity |].
  split; [reflexivity |]. split; [reflexivity |].
  apply (proj1 (proj2 (spend_checked_against_balance Fixture.alice
                  (give_form rich_wallet "25.00") rich_wallet 2500
                  (Fixture.with_wallet rich_wallet)
                  eq_refl eq_refl eq_refl
                  ltac:(vm_compute; reflexivity)))).
  - vm_compute. discriminate.
  - reflexivity.
  - reflexivity.
  - reflexivity.
Defined.

(** A spend made from a screen that shows the stored wallet. *)
Lemma spend_from_stored_wallet user s wl a b t w :
  wallet s = Some wl ->
  select_wallet (id user) w = (Some wl, w) ->
  tw_current_balance wl = Some b -> tw_total_spent_this_month wl = Some t ->
  nonempty (amount s) = true -> nonempty (recipient s) = true ->
  inCents (amount s) = of_Z a ->
  (a <= b)%Z -> int4 a = true -> int4 (b - a) = true -> int4 (t + a) = true ->
  exists wl',
    select_wallet (id user) (exec (handleSpend (Some user) s) w)
      = (Some wl', exec (handleSpend (Some user) s) w) /\
    wallet (eval (handleSpend (Some user) s) w) = Some wl' /\
    tw_current_balance wl' = Some (b - a)%Z /\
    tw_total_spent_this_month wl' = Some (t + a)%Z /\
    tw_monthly_budget wl' = tw_monthly_budget wl /\
    ((b - a) + (t + a) = b + t)%Z.
Proof.
  intros Hw Hsel Hb Ht Ha Hr Hc Hle Ia Ib It.
  assert (Bb : balance_of wl = b) by (unfold balance_of; rewrite Hb; reflexivity).
  assert (Bt : spent_of wl = t) by (unfold spent_of; rewrite Ht; reflexivity).
  rewrite int4_bounds in Ia, Ib, It.
  unfold exec at 1 2, eval at 1.
  rewrite (handleSpend_passes user s wl a w Hw Ha Hr Hc ltac:(lia)).
  cbv zeta. rewrite Bb, Bt.
  rewrite sub_Z, add_Z by lia.
  set (w1 := exec (insert_transaction _) w).
  assert (W1 : treat_wallet w1 = treat_wallet w).
  { subst w1. unfold exec, insert_transaction.
    destruct (to_integer _) as [[z |] |]; try reflexivity.
    destruct (_ && _); reflexivity. }
  set (upd := fun r : treat_wallet_row =>
                if N.eqb (tw_user_id r) (id user) then
                  {| tw_user_id := tw_user_id r; tw_current_balance := Some (b - a)%Z;
                     tw_monthly_budget := tw_monthly_budget r;
                     tw_total_spent_this_month := Some (t + a)%Z |}
                else r).
  assert (W2 : treat_wallet (exec (update_wallet (id user) (of_Z (b - a)) (of_Z (t + a))) w1)
               = map upd (treat_wallet w)).
  { unfold exec, update_wallet.
    rewrite !to_integer_Z by (apply int4_bounds; lia).
    cbn [snd treat_wallet]. rewrite W1. reflexivity. }
  set (w2 := exec (update_wallet _ _ _) w1) in *.
  assert (Hsel' : maybeSingle (filter (fun r => N.eqb (tw_user_id r) (id user)) (treat_wallet w))
                  = Some wl).
  { unfold select_wallet in Hsel. injection Hsel as Hsel. exact Hsel. }
  assert (Hu : N.eqb (tw_user_id wl) (id user) = true).
  { destruct (filter _ (treat_wallet w)) as [| x [| y l]] eqn:F; try discriminate.
    injection Hsel' as <-.
    assert (I : In x (filter (fun r => N.eqb (tw_user_id r) (id user)) (treat_wallet w))).
    { rewrite F. left. reflexivity. }
    apply filter_In in I. apply I. }
  assert (S2 : select_wallet (id user) w2 = (Some (upd wl), w2)).
  { unfold select_wallet. rewrite W2.
    rewrite filter_map_commute.
    - rewrite maybeSingle_map, Hsel'. reflexivity.
    - intros x. unfold upd. destruct (N.eqb (tw_user_id x) (id user)) eqn:E; simpl; rewrite E; reflexivity. }
  exists (upd wl). cbn [exec eval fst snd].
  split; [exact S2 |]. split.
  - unfold eval, fetchData, bind. rewrite S2. reflexivity.
  - unfold upd. rewrite Hu. cbn. repeat split. lia.
Qed.

Lemma run_bind_treat {A B : Type} (m : Request A) (k : A -> Request B) (w : World) :
  run (bind m k) w = run (k (eval m w)) (exec m w).
Proof. unfold run, bind, eval, exec. destruct (m w). reflexivity. Qed.

Lemma select_wallet_same uid w w' :
  treat_wallet w' = treat_wallet w ->
  fst (select_wallet uid w') = fst (select_wallet uid w).
Proof. intros E. unfold select_wallet. cbn [fst]. rewrite E. reflexivity. Qed.

Lemma select_wallet_world uid w : snd (select_wallet uid w) = w.
Proof. reflexivity. Qed.

Lemma insert_transaction_wallets p w :
  treat_wallet (exec (insert_transaction p) w) = treat_wallet w.
Proof.
  unfold exec, insert_transaction.
  destruct (to_integer _) as [[z |] |]; try reflexivity.
  destruct (_ && _); reflexivity.
Qed.

(** An update leaves the user with exactly one wallet row. *)
Lemma select_wallet_after_update uid x y w wl :
  fst (select_wallet uid w) = Some wl ->
  exists wl', fst (select_wallet uid (exec (update_wallet uid x y) w)) = Some wl'.
Proof.
  intros Hsel. unfold exec, update_wallet.
  destruct (to_integer x) as [bx |]; [| exists wl; exact Hsel].
  destruct (to_integer y) as [by_ |]; [| exists wl; exact Hsel].
  cbn [snd]. unfold select_wallet in *. cbn [fst treat_wallet] in *.
  rewrite filter_map_commute.
  - rewrite maybeSingle_map, Hsel. eexists. reflexivity.
  - intros r. destruct (N.eqb (tw_user_id r) uid) eqn:E; simpl; rewrite E; reflexivity.
Qed.

Lemma fetchData_shows user s w :
  shows_stored user (w, s) ->
  shows_stored user (run (fetchData (Some user) s) w).
Proof.
  intros Inv wl. unfold run, fetchData, bind.
  destruct (select_wallet (id user) w) as [data w1] eqn:E.
  assert (Ew : w1 = w) by (pose proof (select_wallet_world (id user) w) as W; rewrite E in W; exact W).
  subst w1. cbn [ret run_query fst snd].
  destruct data as [wl' |]; cbn [fst snd set_transactions set_wallet wallet].
  - intros H. injection H as <-. exact E.
  - intros H. apply (Inv wl H).
Qed.

Lemma handleSpend_shows user s w :
  shows_stored user (w, s) ->
  shows_stored user (run (handleSpend (Some user) s) w).
Proof.
  intros Inv. unfold handleSpend.
  destruct (wallet s) as [wl |] eqn:Hw; [| exact Inv].
  destruct (nonempty (amount s) && nonempty (recipient s)); [| exact Inv].
  destruct (gt (inCents (amount s)) (of_integer (tw_current_balance wl))); [exact Inv |].
  rewrite run_bind_treat. rewrite run_bind_treat. rewrite run_bind_treat.
  set (w1 := exec (insert_transaction _) w).
  set (w2 := exec (update_wallet _ _ _) w1).
  pose proof (Inv wl Hw) as Hsel. cbn [fst snd] in Hsel.
  assert (S1 : fst (select_wallet (id user) w1) = Some wl).
  { rewrite (select_wallet_same (id user) w w1).
    - rewrite Hsel. reflexivity.
    - apply insert_transaction_wallets. }
  destruct (select_wallet_after_update (id user)
              (sub (of_integer (tw_current_balance wl)) (inCents (amount s)))
              (add (of_integer (tw_total_spent_this_month wl)) (inCents (amount s)))
              w1 wl S1) as (wl' & S2).
  fold w2 in S2.
  rewrite (fetchData_world (Some user) (close_form s) w2).
  intros wl0. cbn [run ret fst snd set_loading wallet].
  unfold eval, fetchData, bind.
  destruct (select_wallet (id user) w2) as [data w3] eqn:E.
  cbn [fst] in S2. subst data.
  assert (Ew : w3 = w2) by (pose proof (select_wallet_world (id user) w2) as W; rewrite E in W; exact W).
  subst w3. cbn [ret run_query fst snd set_transactions set_wallet wallet].
  intros H. injection H as <-. reflexivity.
Qed.

Lemma steps_shows_stored user st st' :
  shows_stored user st -> steps (Some user) st st' -> shows_stored user st'.
Proof.
  intros Inv S. induction S as [st | st st' st'' _ IH S]; [exact Inv |].
  specialize (IH Inv). destruct S as [w s | w s a r d | w s].
  - apply fetchData_shows, IH.
  - exact IH.
  - apply handleSpend_shows, IH.
Qed.

(** C8.  In a session on the treat-wallet screen, a spend of [a] cents that
    goes through (it passes the balance check and the store accepts both
    writes) lowers the stored [current_balance] by exactly [a] and raises the
    stored [total_spent_this_month] by exactly [a]; their sum and
    [monthly_budget] are unchanged, and the screen shows the new wallet. *)
Theorem spend_moves_balance_to_spent user w0 w s wl a b t :
  steps (Some user) (w0, mounted) (w, s) ->
  wallet s = Some wl ->
  tw_current_balance wl = Some b -> tw_total_spent_this_month wl = Some t ->
  nonempty (amount s) = true -> nonempty (recipient s) = true ->
  inCents (amount s) = of_Z a ->
  (a <= b)%Z -> int4 a = true -> int4 (b - a) = true -> int4 (t + a) = true ->
  select_wallet (id user) w = (Some wl, w) /\
  exists wl',
    select_wallet (id user) (exec (handleSpend (Some user) s) w)
      = (Some wl', exec (handleSpend (Some user) s) w) /\
    wallet (eval (handleSpend (Some user) s) w) = Some wl' /\
    tw_current_balance wl' = Some (b - a)%Z /\
    tw_total_spent_this_month wl' = Some (t + a)%Z /\
    tw_monthly_budget wl' = tw_monthly_budget wl /\
    ((b - a) + (t + a) = b + t)%Z.
Proof.
  intros S Hw Hb Ht Ha Hr Hc Hle Ia Ib It.
  assert (Hsel : select_wallet (id user) w = (Some wl, w)).
  { apply (steps_shows_stored user (w0, mounted) (w, s)); [| exact S | exact Hw].
    intros wl0 H. discriminate. }
  split; [exact Hsel |].
  apply (spend_from_stored_wallet user s wl a b t w); assumption.
Qed.

Lemma spend_moves_balance_to_spent_witness :
  steps (Some Fixture.alice) (wallet_world, mounted) give_25 /\
  exists wl',
    wallet (eval (handleSpend (Some Fixture.alice) (snd give_25)) (fst give_25)) = Some wl' /\
    tw_current_balance wl' = Some 97500 /\
    tw_total_spent_this_month wl' = Some 2500.
Proof.
  assert (S : steps (Some Fixture.alice) (wallet_world, mounted) give_25).
  { apply steps_step with (st' := run (fetchData (Some Fixture.alice) mounted) wallet_world).
    - apply steps_step with (st' := (wallet_world, mounted)).
      + apply steps_refl.
      + apply step_fetch.
    - vm_cast_no_check
        (step_edit (Some Fixture.alice) wallet_world
           (snd (run (fetchData (Some Fixture.alice) mounted) wallet_world))
           (str "25.00") (str "Sam") []). }
  split; [exact S |].
  destruct (spend_moves_balance_to_spent Fixture.alice wallet_world
              (fst give_25) (snd give_25) rich_wallet 2500 100000 0
              S eq_refl eq_refl eq_refl eq_refl eq_refl
              ltac:(vm_compute; reflexivity)
              ltac:(lia) eq_refl eq_refl eq_refl)
    as (_ & wl' & _ & H2 & H3 & H4 & _).
  exists wl'. repeat split; assumption.
Defined.

End TreatFacts.

(** ** Queries: ordering and limits *)

Module QueryFacts.
Import JS JSString Store JSFacts.
Import Spec Fixture.

Section SortBy.

Variable A : Type.
Variable le : A -> A -> bool.
Hypothesis le_total : forall x y, le x y = false -> le y x = true.

Let R (x y : A) : Prop := le x y = true.

Lemma insert_by_perm (x : A) (l : list A) : Permutation (x :: l) (insert_by le x l).
Proof.
  induction l as [| y l IH]; simpl.
  - apply Permutation_refl.
  - destruct (le x y).
    + apply Permutation_refl.
    + eapply perm_trans; [apply perm_swap |]. apply perm_skip, IH.
Qed.

Lemma sort_by_perm (l : list A) : Permutation l (sort_by le l).
Proof.
  induction l as [| x l IH]; simpl.
  - apply perm_nil.
  - eapply perm_trans; [apply perm_skip, IH |]. apply insert_by_perm.
Qed.

Lemma insert_by_hd (x y : A) (l : list A) :
  R y x -> HdRel R y l -> HdRel R y (insert_by le x l).
Proof.
  intros Hyx Hl. destruct l as [| z l]; simpl.
  - constructor. exact Hyx.
  - destruct (le x z).
    + constructor. exact Hyx.
    + constructor. inversion Hl. assumption.
Qed.

Lemma insert_by_sorted (x : A) (l : list A) :
  Sorted R l -> Sorted R (insert_by le x l).
Proof.
  induction 1 as [| y l Hs IH Hh]; simpl.
  - repeat constructor.
  - destruct (le x y) eqn:E.
    + constructor; [constructor; assumption | constructor; exact E].
    + constructor; [exact IH |].
      apply insert_by_hd; [apply le_total; exact E | exact Hh].
Qed.

Lemma sort_by_sorted (l : list A) : Sorted R (sort_by le l).
Proof.
  induction l as [| x l IH]; simpl.
  - constructor.
  - apply insert_by_sorted, IH.
Qed.

Lemma firstn_sorted (n : nat) (l : list A) : Sorted R l -> Sorted R (firstn n l).
Proof.
  intros H. revert n. induction H as [| y l Hs IH Hh]; intros n.
  - destruct n; constructor.
  - destruct n; simpl; [constructor |].
    constructor; [apply IH |].
    destruct Hh as [| z l' Hz]; destruct n; simpl; constructor. exact Hz.
Qed.

End SortBy.

Lemma firstn_incl {A : Type} (n : nat) (l : list A) : incl (firstn n l) l.
Proof.
  revert n. induction l as [| x l IH]; intros n; destruct n; simpl; intros z Hz.
  - exact Hz.
  - exact Hz.
  - destruct Hz.
  - destruct Hz as [-> | Hz]; [left; reflexivity | right; apply (IH n), Hz].
Qed.

Lemma date_desc_total (x y : transactions_row) :
  date_desc x y = false -> date_desc y x = true.
Proof. unfold date_desc. rewrite Z.leb_gt, Z.leb_le. lia. Qed.

(** What a query answers: rows of the table that pass the filters, at most
    [limit] of them, newest first when ordered. *)
Lemma run_query_spec (q : transactions_query) (w : World) :
  exec (run_query q) w = w /\
  (forall r, In r (eval (run_query q) w) ->
             In r (Store.transactions w) /\ tq_where q r = true) /\
  (forall n, tq_limit q = Some n -> (List.length (eval (run_query q) w) <= n)%nat) /\
  (tq_order_date_desc q = true ->
   StronglySorted (fun x y => (t_transaction_date y <= t_transaction_date x)%Z)
                  (eval (run_query q) w)).
Proof.
  unfold exec, eval, run_query. cbn [fst snd].
  set (rows := filter (tq_where q) (Store.transactions w)).
  set (sorted := if tq_order_date_desc q then sort_by date_desc rows else rows).
  assert (Hin : forall r, In r sorted -> In r (Store.transactions w) /\ tq_where q r = true).
  { intros r Hr. apply filter_In. fold rows. subst sorted.
    destruct (tq_order_date_desc q); [| exact Hr].
    eapply Permutation_in; [apply Permutation_sym, sort_by_perm | exact Hr]. }
  split; [reflexivity |]. split; [| split].
  - intros r Hr. apply Hin.
    destruct (tq_limit q) as [n |]; [apply (firstn_incl n), Hr | exact Hr].
  - intros n Hn. rewrite Hn. apply firstn_le_length.
  - intros Ho. subst sorted. rewrite Ho.
    apply Sorted_StronglySorted.
    + intros x y z Hxy Hyz. lia.
    + assert (S : Sorted (fun x y => date_desc x y = true) (sort_by date_desc rows)).
      { apply sort_by_sorted. exact date_desc_total. }
      assert (S' : Sorted (fun x y => date_desc x y = true)
                          match tq_limit q with
                          | Some n => firstn n (sort_by date_desc rows)
                          | None => sort_by date_desc rows
                          end).
      { destruct (tq_limit q); [apply firstn_sorted |]; exact S. }
      eapply Sorted_ind with (P := fun l => Sorted _ l); [constructor | | exact S'].
      intros a l _ IH Hh. constructor; [exact IH |].
      destruct Hh as [| b l' Hb]; constructor.
      unfold date_desc in Hb. apply Z.leb_le in Hb. exact Hb.
Qed.

Lemma fold_amounts (l : list transactions_row) (a : number) :
  fold_left (fun sum t => add sum (of_Z (t_amount t))) l a
  = fold_left add (map of_Z (map t_amount l)) a.
Proof.
  revert a. induction l as [| t l IH]; intros a; [reflexivity |]. simpl. apply IH.
Qed.

Lemma filter_length_le {A : Type} (f : A -> bool) (l : list A) :
  (List.length (filter f l) <= List.length l)%nat.
Proof.
  induction l as [| x l IH]; simpl; [lia |]. destruct (f x); simpl; lia.
Qed.

(** A sum of at most 2^21 amounts of an integer column is exact. *)
Lemma sum_amounts_exact (l : list transactions_row) :
  Forall (fun r => int4 (t_amount r) = true) l ->
  (Z.of_nat (List.length l) <= 2097152)%Z ->
  fold_left (fun sum t => add sum (of_Z (t_amount t))) l (of_Z 0)
  = of_Z (Spec.sumZ (map t_amount l)) /\
  (Z.abs (Spec.sumZ (map t_amount l)) <= 2147483648 * Z.of_nat (List.length l))%Z.
Proof.
  intros F L. rewrite fold_amounts.
  destruct (fold_add_exact (map t_amount l) 2147483648 0) as [H1 H2].
  - apply Forall_map. eapply Forall_impl; [| exact F].
    intros r Hr. simpl in Hr. apply TreatFacts.int4_bounds in Hr. lia.
  - rewrite length_map. change (2 ^ 53)%Z with 9007199254740992%Z.
    change (Z.abs 0) with 0%Z. lia.
  - rewrite length_map in H2. split; [exact H1 |].
    change (Z.abs 0) with 0%Z in H2. simpl in H2. exact H2.
Qed.

End QueryFacts.

(** ** Transactions screen: what is fetched and what is summed *)

Module TransactionsFacts.
Import JS JSString Store Transactions JSFacts QueryFacts.
Import Spec Fixture.

Lemma fetchTransactions_eval user s w :
  eval (fetchTransactions (Some user) s) w
  = {| transactions := eval (run_query (fetch_query user (filter s))) w;
       filter := filter s |}.
Proof. destruct s as [data f]. destruct f; reflexivity. Qed.

Lemma fetch_query_shape user f :
  tq_limit (fetch_query user f) = Some 50%nat /\
  tq_order_date_desc (fetch_query user f) = true /\
  forall r, tq_where (fetch_query user f) r = true ->
            t_user_id r = id user /\
            (f <> all -> t_transaction_type r = Filter_string f).
Proof.
  destruct f; (split; [reflexivity |]; split; [reflexivity |]);
    intros r H; cbn in H;
    repeat (apply andb_true_iff in H; destruct H as [H ?]).
  - split; [apply N.eqb_eq; assumption | intros C; contradiction].
  - split; [apply N.eqb_eq; assumption | intros _; apply String.eqb_eq; assumption].
  - split; [apply N.eqb_eq; assumption | intros _; apply String.eqb_eq; assumption].
Qed.

(** C7.  After [fetchTransactions], the Income summary is the sum of the
    amounts of the fetched transactions of type 'income' and the Expenses
    summary the sum of those of type 'expense'; with the filter 'income' or
    'expense' every fetched transaction has that type; the fetched list
    consists of the user's own stored transactions, is ordered by
    [transaction_date] descending and has at most 50 entries. *)
Theorem transactions_fetched_and_summed user s w :
  Forall (fun r => int4 (t_amount r) = true) (Store.transactions w) ->
  let s' := eval (fetchTransactions (Some user) s) w in
  totalIncome s' = of_Z (Spec.sumZ (map t_amount (of_type "income" (transactions s')))) /\
  totalExpenses s' = of_Z (Spec.sumZ (map t_amount (of_type "expense" (transactions s')))) /\
  (filter s <> all ->
   Forall (fun r => t_transaction_type r = Filter_string (filter s)) (transactions s')) /\
  Forall (fun r => In r (Store.transactions w) /\ t_user_id r = id user) (transactions s') /\
  StronglySorted (fun x y => (t_transaction_date y <= t_transaction_date x)%Z)
                 (transactions s') /\
  (List.length (transactions s') <= 50)%nat /\
  filter s' = filter s.
Proof.
  intros Hw s'. subst s'. rewrite fetchTransactions_eval. cbn [transactions filter].
  destruct (run_query_spec (fetch_query user (filter s)) w) as (_ & Hin & Hlen & Hsort).
  destruct (fetch_query_shape user (filter s)) as (Hl & Ho & Hq).
  set (data := eval (run_query (fetch_query user (filter s))) w) in *.
  specialize (Hlen _ Hl). specialize (Hsort Ho).
  assert (Hint : forall ty, Forall (fun r => int4 (t_amount r) = true) (of_type ty data)).
  { intros ty. apply Forall_forall. intros r Hr.
    apply filter_In in Hr. destruct Hr as [Hr _].
    rewrite Forall_forall in Hw. apply Hw, Hin, Hr. }
  assert (Hsum : forall ty,
             fold_left (fun sum t => add sum (of_Z (t_amount t))) (of_type ty data) (of_Z 0)
             = of_Z (Spec.sumZ (map t_amount (of_type ty data)))).
  { intros ty. apply sum_amounts_exact; [apply Hint |].
    pose proof (filter_length_le (fun t => String.eqb (t_transaction_type t) ty) data).
    unfold of_type. lia. }
  split; [apply Hsum |]. split; [apply Hsum |].
  split; [| split; [| split; [exact Hsort | split; [exact Hlen | reflexivity]]]].
  - intros Hf. apply Forall_forall. intros r Hr. apply Hq; [apply Hin, Hr | exact Hf].
  - apply Forall_forall. intros r Hr. split; [apply Hin, Hr | apply Hq, Hin, Hr].
Qed.

Lemma transactions_fetched_and_summed_witness :
  let w := Fixture.with_transactions sample_rows in
  let s' := eval (fetchTransactions (Some Fixture.alice)
                    {| transactions := []; filter := expense |}) w in
  Forall (fun r => int4 (t_amount r) = true) (Store.transactions w) /\
  map t_id (transactions s') = [2%N; 4%N] /\
  totalIncome s' = of_Z 0 /\ totalExpenses s' = of_Z 16250.
Proof.
  assert (F : Forall (fun r => int4 (t_amount r) = true)
                     (Store.transactions (Fixture.with_transactions sample_rows))).
  { repeat constructor. }
  split; [exact F |]. split; [reflexivity |].
  destruct (transactions_fetched_and_summed Fixture.alice
              {| transactions := []; filter := expense |}
              (Fixture.with_transactions sample_rows) F) as (H1 & H2 & _).
  split; [exact H1 | exact H2].
Defined.

End TransactionsFacts.

(** ** Locked savings: unlocking is gated on the unlock date *)

Module LockedFacts.
Import JS JSString Store Locked JSFacts QueryFacts.
Import Spec Fixture.
Local Open Scope string_scope.

Lemma select_savings_In uid statuses w x :
  In x (eval (select_savings uid statuses) w) -> In x (locked_savings w).
Proof.
  unfold eval, select_savings. cbn [fst]. intros H.
  eapply Permutation_in in H; [| apply Permutation_sym, sort_by_perm].
  apply filter_In in H. apply H.
Qed.

Lemma run_bind {A B : Type} (m : Request A) (k : A -> Request B) (w : World) :
  run (bind m k) w = run (k (eval m w)) (exec m w).
Proof. unfold run, bind, eval, exec. destruct (m w). reflexivity. Qed.

Lemma run_fetchSavings user s w :
  exists l, run (fetchSavings user s) w = (w, set_savings s l) /\
            forall x, In x l -> In x (locked_savings w) \/ In x (savings s).
Proof.
  destruct user as [user |].
  - exists (eval (select_savings (id user) ["active"; "unlocked"]) w).
    split; [reflexivity |]. intros x Hx. left. eapply select_savings_In, Hx.
  - exists (savings s). split; [destruct s; reflexivity | auto].
Qed.

(** Showing stored rows, or rows already shown, keeps the two in step. *)
Lemma consistent_shown w s s' :
  consistent (w, s) ->
  rendered s' = rendered s ->
  (forall x, In x (savings s') -> In x (locked_savings w) \/ In x (savings s)) ->
  consistent (w, s').
Proof.
  intros [C1 C2 C3 C4 C5 C6] Hr Hs. cbn [fst snd] in *.
  constructor; cbn [fst snd].
  - rewrite Hr. exact C1.
  - exact C2.
  - intros x r Hx Hrw E. destruct (Hs x Hx) as [H | H].
    + apply C5; assumption.
    + apply C3; assumption.
  - intros x Hx. destruct (Hs x Hx) as [H | H]; [apply C6 | apply C4]; exact H.
  - exact C5.
  - exact C6.
Qed.

Lemma consistent_wait w s dt :
  (0 <= dt)%Z -> consistent (w, s) -> consistent (advance dt w, s).
Proof.
  intros Hdt [C1 C2 C3 C4 C5 C6]. cbn [fst snd] in *.
  constructor; cbn [fst snd advance now locked_savings next_uuid]; try assumption.
  - lia.
  - intros r Hr Hu. specialize (C2 r Hr Hu). cbn [advance now]. lia.
Qed.

Lemma consistent_render w s :
  consistent (w, s) -> consistent (w, render (now w) s).
Proof.
  intros [C1 C2 C3 C4 C5 C6]. cbn [fst snd] in *.
  constructor; cbn [fst snd render rendered savings]; try assumption. lia.
Qed.

(** Adding a row with a fresh identifier that is not unlocked. *)
Lemma consistent_insert w s row :
  consistent (w, s) ->
  ls_id row = next_uuid w -> ls_status row <> "unlocked" ->
  consistent (set_locked_savings w true (locked_savings w ++ [row])%list, s).
Proof.
  intros [C1 C2 C3 C4 C5 C6] Hid Hst. cbn [fst snd] in *.
  constructor; cbn [fst snd set_locked_savings now locked_savings next_uuid].
  - exact C1.
  - intros r Hr Hu. apply in_app_or in Hr. destruct Hr as [Hr | [<- | []]].
    + apply C2; assumption.
    + contradiction.
  - intros x r Hx Hr E. apply in_app_or in Hr. destruct Hr as [Hr | [<- | []]].
    + apply C3; assumption.
    + specialize (C4 x Hx). rewrite <- E, Hid in C4. lia.
  - intros x Hx. specialize (C4 x Hx). lia.
  - intros r r' Hr Hr' E.
    apply in_app_or in Hr. apply in_app_or in Hr'.
    destruct Hr as [Hr | [<- | []]]; destruct Hr' as [Hr' | [<- | []]].
    + apply C5; assumption.
    + specialize (C6 r Hr). rewrite E, Hid in C6. lia.
    + specialize (C6 r' Hr'). rewrite <- E, Hid in C6. lia.
    + reflexivity.
  - intros r Hr. apply in_app_or in Hr. destruct Hr as [Hr | [<- | []]].
    + specialize (C6 r Hr). lia.
    + rewrite Hid. lia.
Qed.

Lemma unlock_row_keeps user sid r :
  ls_id (unlock_row user sid r) = ls_id r /\
  ls_unlock_date (unlock_row user sid r) = ls_unlock_date r /\
  (ls_status (unlock_row user sid r) = ls_status r \/ ls_id r = sid).
Proof.
  unfold unlock_row. destruct (N.eqb (ls_id r) sid) eqn:E; cbn [andb].
  - apply N.eqb_eq in E. destruct user as [u |]; [destruct (N.eqb _ _) |]; cbn; auto.
  - auto.
Qed.

(** Unlocking a saving whose button is shown. *)
Lemma consistent_unlock user w s saving :
  consistent (w, s) -> unlock_offered s saving ->
  consistent (exec (update_saving_status user (ls_id saving) "unlocked") w, s).
Proof.
  intros [C1 C2 C3 C4 C5 C6] [Hact Hdate]. cbn [fst snd] in *.
  assert (Hin : In saving (savings s)).
  { unfold activeSavings in Hact. apply filter_In in Hact. apply Hact. }
  unfold isUnlockable in Hdate. apply Z.leb_le in Hdate.
  assert (E : exec (update_saving_status user (ls_id saving) "unlocked") w
              = set_locked_savings w false
                  (map (unlock_row user (ls_id saving)) (locked_savings w))) by reflexivity.
  rewrite E.
  constructor; cbn [fst snd set_locked_savings now locked_savings next_uuid].
  - exact C1.
  - intros r' Hr' Hu. apply in_map_iff in Hr'. destruct Hr' as (r & <- & Hr).
    destruct (unlock_row_keeps user (ls_id saving) r) as (_ & Ed & [Es | Ei]).
    + rewrite Ed. apply C2; [exact Hr | congruence].
    + rewrite Ed. rewrite (C3 saving r Hin Hr Ei). cbn [set_locked_savings now]. lia.
  - intros x r' Hx Hr' Ex. apply in_map_iff in Hr'. destruct Hr' as (r & <- & Hr).
    destruct (unlock_row_keeps user (ls_id saving) r) as (Ei & Ed & _).
    rewrite Ed. apply C3; [exact Hx | exact Hr | congruence].
  - exact C4.
  - intros r1' r2' H1 H2 Ex.
    apply in_map_iff in H1. destruct H1 as (r1 & <- & H1).
    apply in_map_iff in H2. destruct H2 as (r2 & <- & H2).
    destruct (unlock_row_keeps user (ls_id saving) r1) as (Ei1 & Ed1 & _).
    destruct (unlock_row_keeps user (ls_id saving) r2) as (Ei2 & Ed2 & _).
    rewrite Ed1, Ed2. apply C5; [exact H1 | exact H2 | congruence].
  - intros r' Hr'. apply in_map_iff in Hr'. destruct Hr' as (r & <- & Hr).
    destruct (unlock_row_keeps user (ls_id saving) r) as (Ei & _ & _).
    rewrite Ei. apply C6, Hr.
Qed.

Section Session.

Variable Date_parse : jsstring -> option timestamptz.
Variable user : option User.

(** A valid form whose reason and date the store takes creates an active
    saving with the date that was entered. *)
Lemma handleLockSavings_creates u s a d w :
  nonempty (amount s) = true -> nonempty (reason s) = true ->
  nonempty (unlockDate s) = true ->
  Date_parse (unlockDate s) = Some d ->
  inCents (amount s) = of_Z a -> int4 a = true ->
  is_text (reason s) = true -> is_timestamptz d = true ->
  locked_savings (fst (run (handleLockSavings Date_parse (Some u) s) w))
  = (locked_savings w ++ [locked_row u s a d w])%list.
Proof.
  intros H1 H2 H3 Hd Ha Hi Tr Td.
  unfold run, handleLockSavings. rewrite H1, H2, H3, Hd, Ha. cbn [andb].
  unfold bind, insert_locked_saving.
  cbn [lsi_amount lsi_status lsi_lock_reason lsi_unlock_date].
  rewrite (TreatFacts.to_integer_Z a Hi), Tr, Td. reflexivity.
Qed.

(** The year 0000, which [new Date] reads and [timestamptz] does not have. *)
Lemma year_0000_is_no_timestamptz (d : timestamptz) :
  (-62167219200000 <= d < -62135596800000)%Z -> is_timestamptz d = false.
Proof.
  intros H. unfold is_timestamptz. apply andb_false_iff. left.
  apply Z.leb_gt. lia.
Qed.

(** A reason with U+0000, or a date of the year 0000, is refused by the
    store: nothing is stored. *)
Lemma handleLockSavings_refused u s d w :
  Date_parse (unlockDate s) = Some d ->
  In 0%N (reason s) \/ (-62167219200000 <= d < -62135596800000)%Z ->
  locked_savings (fst (run (handleLockSavings Date_parse (Some u) s) w))
  = locked_savings w.
Proof.
  intros Hd H.
  unfold run, handleLockSavings. rewrite Hd.
  destruct (nonempty (amount s) && nonempty (reason s) && nonempty (unlockDate s));
    [| reflexivity].
  unfold bind, insert_locked_saving.
  cbn [lsi_amount lsi_status lsi_lock_reason lsi_unlock_date].
  destruct (to_integer (inCents (amount s))) as [[a |] |]; try reflexivity.
  assert (F : mem "active" saving_statuses && is_text (reason s) && is_timestamptz d = false).
  { destruct H as [H | H].
    - rewrite (TreatFacts.is_text_nul _ H), andb_false_r. reflexivity.
    - rewrite (year_0000_is_no_timestamptz d H), andb_false_r. reflexivity. }
  rewrite F. reflexivity.
Qed.

(** Whatever the form holds, [handleLockSavings] stores nothing or one row:
    an active saving with the date read from the form. *)
Lemma handleLockSavings_adds u s w :
  let w' := fst (run (handleLockSavings Date_parse (Some u) s) w) in
  locked_savings w' = locked_savings w \/
  exists a d,
    Date_parse (unlockDate s) = Some d /\
    to_integer (inCents (amount s)) = Some (Some a) /\
    locked_savings w' = (locked_savings w ++ [locked_row u s a d w])%list.
Proof.
  unfold run, handleLockSavings.
  destruct (nonempty (amount s) && nonempty (reason s) && nonempty (unlockDate s));
    [| left; reflexivity].
  destruct (Date_parse (unlockDate s)) as [d |]; [| left; reflexivity].
  unfold bind, insert_locked_saving.
  cbn [lsi_amount lsi_status lsi_lock_reason lsi_unlock_date].
  destruct (to_integer (inCents (amount s))) as [[a |] |]; try (left; reflexivity).
  destruct (_ && is_timestamptz d); [| left; reflexivity].
  right. exists a, d. split; [reflexivity |]. split; [reflexivity |]. reflexivity.
Qed.

(** What "Unlock Now" makes of the stored savings. *)
Lemma handleUnlock_stores sid s w :
  locked_savings (fst (run (handleUnlock user sid s) w))
  = map (unlock_row user sid) (locked_savings w).
Proof.
  unfold handleUnlock. rewrite run_bind.
  destruct (run_fetchSavings user s (exec (update_saving_status user sid "unlocked") w))
    as (l & E & _).
  rewrite E. reflexivity.
Qed.

(** Every outcome of [handleLockSavings]: nothing is stored, or one active
    row with a fresh identifier is. *)
Lemma handleLockSavings_outcomes s w :
  let st' := run (handleLockSavings Date_parse user s) w in
  rendered (snd st') = rendered s /\
  ((fst st' = w /\ savings (snd st') = savings s) \/
   exists row,
     fst st' = set_locked_savings w true (locked_savings w ++ [row])%list /\
     ls_id row = next_uuid w /\ ls_status row = "active" /\
     forall x, In x (savings (snd st')) -> In x (locked_savings (fst st'))).
Proof.
  unfold run, handleLockSavings.
  destruct user as [u |]; [| split; [reflexivity | left; split; reflexivity]].
  destruct (nonempty (amount s) && nonempty (reason s) && nonempty (unlockDate s));
    [| split; [reflexivity | left; split; reflexivity]].
  destruct (Date_parse (unlockDate s)) as [d |];
    [| split; [reflexivity | left; split; reflexivity]].
  unfold bind, insert_locked_saving.
  cbn [lsi_amount lsi_status lsi_lock_reason lsi_unlock_date].
  destruct (to_integer (inCents (amount s))) as [[a |] |];
    try (split; [reflexivity | left; split; reflexivity]).
  destruct (_ && is_timestamptz d);
    [| split; [reflexivity | left; split; reflexivity]].
  cbn. split; [reflexivity |]. right.
  eexists. split; [reflexivity |]. split; [reflexivity |]. split; [reflexivity |].
  intros x Hx.
  eapply Permutation_in in Hx; [| apply Permutation_sym, sort_by_perm].
  apply filter_In in Hx. apply Hx.
Qed.

Lemma step_consistent st st' :
  consistent st -> step Date_parse user st st' -> consistent st'.
Proof.
  intros C S. destruct S as [w s dt Hdt | w s | w s a r d | w s | w s | w s saving Ho].
  - apply consistent_wait; assumption.
  - apply consistent_render; assumption.
  - eapply consistent_shown; [exact C | reflexivity |]. intros x Hx. right. exact Hx.
  - pose proof (handleLockSavings_outcomes s w) as (Hr & [[Hw Hs] | (row & Hw & Hi & Ha & Hs)]).
    + destruct (run (handleLockSavings Date_parse user s) w) as [w' s'].
      cbn [fst snd] in *. subst w'.
      eapply consistent_shown; [exact C | exact Hr |]. rewrite Hs. auto.
    + destruct (run (handleLockSavings Date_parse user s) w) as [w' s'].
      cbn [fst snd] in *.
      assert (C' : consistent (w', s)).
      { rewrite Hw. apply consistent_insert; [exact C | exact Hi |].
        rewrite Ha. discriminate. }
      eapply consistent_shown; [exact C' | exact Hr |]. auto.
  - destruct (run_fetchSavings user s w) as (l & E & Hl). rewrite E.
    eapply consistent_shown; [exact C | reflexivity |]. exact Hl.
  - unfold handleUnlock. rewrite run_bind.
    pose proof (consistent_unlock user w s saving C Ho) as C'.
    destruct (run_fetchSavings user s
                (exec (update_saving_status user (ls_id saving) "unlocked") w))
      as (l & E & Hl).
    rewrite E. eapply consistent_shown; [exact C' | reflexivity |]. exact Hl.
Qed.

Lemma steps_consistent st st' :
  consistent st -> steps Date_parse user st st' -> consistent st'.
Proof.
  intros C S. induction S as [st | st st' st'' _ IH S].
  - exact C.
  - eapply step_consistent; [apply IH, C | exact S].
Qed.

Lemma unlock_offered_iff s saving :
  unlock_offered s saving <->
  In saving (savings s) /\ ls_status saving = "active" /\
  (ls_unlock_date saving <= rendered s)%Z.
Proof.
  unfold unlock_offered, activeSavings, isUnlockable.
  rewrite filter_In, String.eqb_eq, Z.leb_le. tauto.
Qed.

(** An offered saving is due: the screen was rendered in the past, and the
    stored rows with its identifier carry its unlock date. *)
Lemma offered_is_due st saving :
  consistent st -> unlock_offered (snd st) saving ->
  (ls_unlock_date saving <= now (fst st))%Z /\
  (forall r, In r (locked_savings (fst st)) -> ls_id r = ls_id saving ->
             (ls_unlock_date r <= now (fst st))%Z).
Proof.
  intros [C1 C2 C3 C4 C5 C6] O.
  apply unlock_offered_iff in O. destruct O as (Hin & _ & Hd).
  split; [lia |].
  intros r Hr E. rewrite (C3 saving r Hin Hr E). lia.
Qed.

(** C4.  In a session that starts from a consistent store and screen:
    no stored saving is ever 'unlocked' before its unlock date; "Unlock Now"
    is offered for a shown saving exactly when it is active and its unlock
    date is at or before the time of rendering, the stored rows of an offered
    saving are then due, and the press sets the status of the signed-in
    user's row with that identifier to 'unlocked' and alters no other row;
    [handleLockSavings] stores nothing or one saving, with status 'active'
    and the unlock date that was entered: it stores the saving when the form
    is complete, the amount fits the integer column, the reason is a text the
    store takes and the date is of the years 0001 to 9999, and it stores
    nothing with U+0000 in the reason or a date of the year 0000. *)
Theorem unlock_only_from_unlock_date st st' :
  consistent st -> steps Date_parse user st st' ->
  no_early_unlock (fst st') /\
  (forall saving,
      (unlock_offered (snd st') saving <->
       In saving (savings (snd st')) /\ ls_status saving = "active" /\
       (ls_unlock_date saving <= rendered (snd st'))%Z) /\
      (unlock_offered (snd st') saving ->
       (ls_unlock_date saving <= now (fst st'))%Z /\
       (forall r, In r (locked_savings (fst st')) -> ls_id r = ls_id saving ->
                  (ls_unlock_date r <= now (fst st'))%Z) /\
       locked_savings (fst (run (handleUnlock user (ls_id saving) (snd st')) (fst st')))
       = map (unlock_row user (ls_id saving)) (locked_savings (fst st')))) /\
  (forall u,
      let w' := fst (run (handleLockSavings Date_parse (Some u) (snd st')) (fst st')) in
      locked_savings w' = locked_savings (fst st') \/
      exists a d,
        Date_parse (unlockDate (snd st')) = Some d /\
        to_integer (inCents (amount (snd st'))) = Some (Some a) /\
        locked_savings w' = (locked_savings (fst st') ++ [locked_row u (snd st') a d (fst st')])%list) /\
  (forall u a d,
      nonempty (amount (snd st')) = true -> nonempty (reason (snd st')) = true ->
      nonempty (unlockDate (snd st')) = true ->
      Date_parse (unlockDate (snd st')) = Some d ->
      inCents (amount (snd st')) = of_Z a -> int4 a = true ->
      (is_text (reason (snd st')) = true -> is_timestamptz d = true ->
       locked_savings (fst (run (handleLockSavings Date_parse (Some u) (snd st')) (fst st')))
       = (locked_savings (fst st') ++ [locked_row u (snd st') a d (fst st')])%list) /\
      (In 0%N (reason (snd st')) \/ (-62167219200000 <= d < -62135596800000)%Z ->
       locked_savings (fst (run (handleLockSavings Date_parse (Some u) (snd st')) (fst st')))
       = locked_savings (fst st'))).
Proof.
  intros C S.
  pose proof (steps_consistent st st' C S) as C'.
  split; [| split; [| split]].
  - apply (c_unlocked _ C').
  - intros saving. split; [apply unlock_offered_iff |].
    intros O. destruct (offered_is_due st' saving C' O) as [D1 D2].
    split; [exact D1 |]. split; [exact D2 |].
    apply handleUnlock_stores.
  - intros u. apply handleLockSavings_adds.
  - intros u a d H1 H2 H3 Hd Ha Hi. split.
    + intros Tr Td. apply handleLockSavings_creates; assumption.
    + intros H. apply handleLockSavings_refused with (d := d); assumption.
Qed.

End Session.

Lemma opened_consistent : consistent opened.
Proof.
  constructor; cbn; try (intros; contradiction); try lia.
  intros r [].
Qed.

Lemma unlock_only_from_unlock_date_witness :
  consistent opened /\
  steps parse_2030 (Some Fixture.alice) opened unlocked /\
  map (fun r => (ls_status r, ls_unlock_date r)) (locked_savings (fst locked))
    = [("active", 1900000000000)] /\
  map (fun r => (ls_status r, ls_unlock_date r)) (locked_savings (fst unlocked))
    = [("unlocked", 1900000000000)] /\
  now (fst unlocked) = 1963000000000 /\
  no_early_unlock (fst unlocked).
Proof.
  assert (S : steps parse_2030 (Some Fixture.alice) opened unlocked).
  { apply steps_step with (st' := later).
    - apply steps_step with (st' := (advance 200000000000 (fst locked), snd locked)).
      + apply steps_step with (st' := locked).
        * apply steps_step with (st' := filled).
          -- apply steps_step with (st' := opened).
             ++ apply steps_refl.
             ++ vm_cast_no_check
                  (step_edit parse_2030 (Some Fixture.alice) (fst opened) (snd opened)
                     (str "100.00") (str "Vacation") (str "2030-03-17")).
          -- vm_cast_no_check
               (step_lock parse_2030 (Some Fixture.alice) (fst filled) (snd filled)).
        * vm_cast_no_check
            (step_wait parse_2030 (Some Fixture.alice) (fst locked) (snd locked)
               200000000000 ltac:(lia)).
      + vm_cast_no_check
          (step_render parse_2030 (Some Fixture.alice)
             (advance 200000000000 (fst locked)) (snd locked)).
    - assert (O : unlock_offered (snd later)
                    {| ls_id := 100%N; ls_user_id := 7%N; ls_amount := 10000;
                       ls_lock_reason := str "Vacation"; ls_locked_at := 1763000000000;
                       ls_unlock_date := 1900000000000; ls_status := "active" |}).
      { vm_compute. split; [left; reflexivity | reflexivity]. }
      vm_cast_no_check
        (step_unlock parse_2030 (Some Fixture.alice) (fst later) (snd later) _ O). }
  split; [exact opened_consistent |]. split; [exact S |].
  split; [vm_compute; reflexivity |]. split; [vm_compute; reflexivity |].
  split; [vm_compute; reflexivity |].
  exact (proj1 (unlock_only_from_unlock_date parse_2030 (Some Fixture.alice)
                  opened unlocked opened_consistent S)).
Defined.

End LockedFacts.

(** ** Reports: the savings rate *)

Module ReportsFacts.
Import JS JSString Store Reports JSFacts QueryFacts.
Import Spec Fixture.

Local Open Scope Q_scope.

Lemma Qmult_le_r_pos (p q i : Q) : 0 < i -> p <= q -> p * i <= q * i.
Proof. intros Hi H. apply Qmult_le_compat_r; lra. Qed.

Lemma inject_Z_pos (z : Z) : (0 < z)%Z -> 0 < inject_Z z.
Proof. intros H. change 0 with (inject_Z 0). rewrite <- Zlt_Qlt. exact H. Qed.

Lemma inject_Z_le_const (z c : Z) : (z <= c)%Z -> inject_Z z <= inject_Z c.
Proof. intros H. rewrite <- Zle_Qle. exact H. Qed.

(** The double computed for [(D / I) * 100] is within 1/(2 I) of the exact
    value, for a quotient of integers of moderate size. *)
Lemma rate_bracket (D I : Z) :
  (0 < I < 2 ^ 53)%Z -> (Z.abs D <= 2 ^ 43)%Z -> D <> 0%Z ->
  exists y, mul (div (of_Z D) (of_Z I)) (of_Z 100) = Num y /\
            200 * inject_Z D - 1 < 2 * (y * inject_Z I) /\
            2 * (y * inject_Z I) < 200 * inject_Z D + 1.
Proof.
  intros [HI1 HI2] HD HD0.
  pose proof (inject_Z_pos I HI1) as Hi.
  assert (Hi2 : inject_Z I <= 9007199254740992).
  { change 9007199254740992 with (inject_Z (2 ^ 53)). apply inject_Z_le_const. lia. }
  assert (Hi1 : 1 <= inject_Z I).
  { change 1 with (inject_Z 1). apply inject_Z_le_const. lia. }
  assert (Hd : - (8796093022208) <= inject_Z D <= 8796093022208).
  { change 8796093022208 with (inject_Z (2 ^ 43)). rewrite <- inject_Z_opp.
    split; apply inject_Z_le_const; lia. }
  set (i := inject_Z I) in *. set (d := inject_Z D) in *.
  set (a := d / i).
  assert (Ea : a * i == d) by (unfold a; field; lra).
  assert (Ez : is_zero i = false).
  { unfold is_zero. apply OnboardingFacts.Qeq_bool_false. lra. }
  assert (Ediv : div (of_Z D) (of_Z I) = to_double a).
  { unfold div, of_Z. fold i. fold d. rewrite Ez. reflexivity. }
  rewrite Ediv.
  destruct (Z_lt_le_dec 0 D) as [Hpos | Hneg].
  - assert (Hd1 : 1 <= d).
    { change 1 with (inject_Z 1). apply inject_Z_le_const. lia. }
    assert (Ha : 0 < a) by (unfold a; apply Qlt_shift_div_l; lra).
    assert (Ha1 : (1 # 9007199254740992) <= a) by nra.
    assert (Ha2 : a <= 8796093022208) by nra.
    destruct (to_double_rel a) as (x & Ex & Bx & _).
    { rewrite Qabs_pos by lra. lra. }
    { rewrite Qabs_pos by lra. lra. }
    destruct (Bx Ha) as [Bx1 Bx2]. unfold eps in Bx1, Bx2.
    rewrite Ex. unfold mul, of_Z.
    change (inject_Z 100) with 100.
    destruct (to_double_rel (x * 100)) as (y & Ey & By & _).
    { rewrite Qabs_pos by lra. lra. }
    { rewrite Qabs_pos by lra. lra. }
    assert (Hb : 0 < x * 100) by lra.
    destruct (By Hb) as [By1 By2]. unfold eps in By1, By2.
    exists y. split; [exact Ey |].
    pose proof (Qmult_le_r_pos _ _ i Hi Bx1) as X1.
    pose proof (Qmult_le_r_pos _ _ i Hi Bx2) as X2.
    pose proof (Qmult_le_r_pos _ _ i Hi By1) as Y1.
    pose proof (Qmult_le_r_pos _ _ i Hi By2) as Y2.
    set (X := x * i) in *. set (Y := y * i) in *.
    assert (X1' : d - d * (1 # 9007199254740992) <= X).
    { rewrite <- Ea. eapply Qle_trans; [| exact X1]. apply Qle_lteq. right. ring. }
    assert (X2' : X <= d + d * (1 # 9007199254740992)).
    { rewrite <- Ea. eapply Qle_trans; [exact X2 |]. apply Qle_lteq. right. ring. }
    assert (Y1' : 100 * X - 100 * X * (1 # 9007199254740992) <= Y).
    { eapply Qle_trans; [| exact Y1]. apply Qle_lteq. right. unfold X. ring. }
    assert (Y2' : Y <= 100 * X + 100 * X * (1 # 9007199254740992)).
    { eapply Qle_trans; [exact Y2 |]. apply Qle_lteq. right. unfold X. ring. }
    split; lra.
  - assert (Hd1 : d <= -1).
    { change (-1) with (inject_Z (-1)). apply inject_Z_le_const. lia. }
    assert (Ha : a < 0).
    { unfold a. apply Qlt_shift_div_r; lra. }
    assert (Ha1 : a <= - (1 # 9007199254740992)) by nra.
    assert (Ha2 : - (8796093022208) <= a) by nra.
    destruct (to_double_rel a) as (x & Ex & _ & Bx).
    { rewrite Qabs_neg by lra. lra. }
    { rewrite Qabs_neg by lra. lra. }
    destruct (Bx Ha) as [Bx1 Bx2]. unfold eps in Bx1, Bx2.
    rewrite Ex. unfold mul, of_Z.
    change (inject_Z 100) with 100.
    destruct (to_double_rel (x * 100)) as (y & Ey & _ & By).
    { rewrite Qabs_neg by lra. lra. }
    { rewrite Qabs_neg by lra. lra. }
    assert (Hb : x * 100 < 0) by lra.
    destruct (By Hb) as [By1 By2]. unfold eps in By1, By2.
    exists y. split; [exact Ey |].
    pose proof (Qmult_le_r_pos _ _ i Hi Bx1) as X1.
    pose proof (Qmult_le_r_pos _ _ i Hi Bx2) as X2.
    pose proof (Qmult_le_r_pos _ _ i Hi By1) as Y1.
    pose proof (Qmult_le_r_pos _ _ i Hi By2) as Y2.
    set (X := x * i) in *. set (Y := y * i) in *.
    assert (X1' : d + d * (1 # 9007199254740992) <= X).
    { rewrite <- Ea. eapply Qle_trans; [| exact X1]. apply Qle_lteq. right. ring. }
    assert (X2' : X <= d - d * (1 # 9007199254740992)).
    { rewrite <- Ea. eapply Qle_trans; [exact X2 |]. apply Qle_lteq. right. ring. }
    assert (Y1' : 100 * X + 100 * X * (1 # 9007199254740992) <= Y).
    { eapply Qle_trans; [| exact Y1]. apply Qle_lteq. right. unfold X. ring. }
    assert (Y2' : Y <= 100 * X - 100 * X * (1 # 9007199254740992)).
    { eapply Qle_trans; [exact Y2 |]. apply Qle_lteq. right. unfold X. ring. }
    split; lra.
Qed.

(** The rate the screen computes against the exactly rounded one. *)
Lemma savingsRate_rounds (I E : Z) :
  (0 < I < 2 ^ 53)%Z -> (Z.abs (I - E) <= 2 ^ 43)%Z ->
  exists r,
    savingsRate (of_Z I) (of_Z E) = of_Z r /\
    (Spec.round_half_up (100 * (I - E)) I - 1 <= r <= Spec.round_half_up (100 * (I - E)) I)%Z /\
    (~ Spec.halfway (100 * (I - E)) I -> r = Spec.round_half_up (100 * (I - E)) I).
Proof.
  intros HI HD. unfold savingsRate.
  rewrite gt_Z. destruct (Z.ltb_spec 0 I) as [_ | C]; [| lia].
  rewrite sub_Z by lia.
  set (D := (I - E)%Z) in *.
  unfold Spec.round_half_up, Spec.halfway.
  set (N := (2 * (100 * D) + I)%Z). set (M := (2 * I)%Z).
  assert (HM : (0 < M)%Z) by (unfold M; lia).
  pose proof (Z.div_mod N M ltac:(lia)) as Hdm.
  pose proof (Z.mod_pos_bound N M HM) as Hrem.
  destruct (Z.eq_dec D 0) as [HD0 | HD0].
  - exists 0%Z.
    assert (E0 : mul (div (of_Z D) (of_Z I)) (of_Z 100) = Num 0).
    { rewrite HD0. unfold div, of_Z.
      assert (Ez : is_zero (inject_Z I) = false).
      { unfold is_zero. apply OnboardingFacts.Qeq_bool_false.
        pose proof (inject_Z_pos I ltac:(lia)). lra. }
      rewrite Ez.
      rewrite (to_double_zero (inject_Z 0 / inject_Z I)).
      - reflexivity.
      - unfold Qdiv. change (inject_Z 0) with 0. ring. }
    rewrite E0. split; [reflexivity |].
    assert (K : (N / M = 0)%Z).
    { apply Z.div_small. unfold N, M. lia. }
    rewrite K. split; [lia | reflexivity].
  - destruct (rate_bracket D I HI HD HD0) as (y & Ey & B1 & B2).
    rewrite Ey. cbn [Math_round]. fold (of_Z (Qfloor (y + (1 # 2)))).
    set (r := Qfloor (y + (1 # 2))).
    exists r. split; [reflexivity |].
    pose proof (Qfloor_le (y + (1 # 2))) as F1.
    pose proof (Qlt_floor (y + (1 # 2))) as F2.
    fold r in F1, F2.
    pose proof (inject_Z_pos I ltac:(lia)) as Hi.
    assert (A : (2 * I * r <= N)%Z).
    { assert (A' : (2 * I * r < N + 1)%Z).
      { rewrite Zlt_Qlt. unfold N.
        rewrite !inject_Z_plus, !inject_Z_mult.
        change (inject_Z 2) with 2. change (inject_Z 100) with 100.
        change (inject_Z 1) with 1.
        assert (T : inject_Z r * inject_Z I <= (y + (1 # 2)) * inject_Z I)
          by (apply Qmult_le_r_pos; assumption).
        lra. }
      lia. }
    assert (B : (N <= 2 * I * (r + 1))%Z).
    { assert (B' : (N - 1 < 2 * I * (r + 1))%Z).
      { rewrite Zlt_Qlt. unfold N. unfold Z.sub.
        rewrite !inject_Z_plus, !inject_Z_mult, !inject_Z_plus.
        change (inject_Z 2) with 2. change (inject_Z 100) with 100.
        change (inject_Z 1) with 1. change (inject_Z (- (1))) with (- (1)).
        assert (T : (y + (1 # 2)) * inject_Z I <= inject_Z (r + 1) * inject_Z I).
        { apply Qmult_le_r_pos; [assumption | lra]. }
        rewrite inject_Z_plus in T. change (inject_Z 1) with 1 in T.
        lra. }
      lia. }
    fold M in A, B.
    assert (R1 : (r <= N / M)%Z) by (apply Z.div_le_lower_bound; lia).
    assert (R2 : (N / M <= r + 1)%Z) by (apply Z.div_le_upper_bound; lia).
    split; [lia |].
    intros Ht. nia.
Qed.

Local Open Scope Z_scope.

(** C9, as stated, fails: with an income of 4000.00 and expenses of
    1700.00 the exact rate is 57.5, which rounds to 58 (and so does the
    formula of the claim evaluated in doubles, [Math.round(100 * (I - E) / I)]),
    but the double computed for [((I - E) / I) * 100] lies just below 57.5 and
    the report says 57. *)
Lemma savings_rate_below_exact_rounding :
  option_map savings_rate
    (generateCurrentMonthReport (Some Fixture.alice) 11 2026 0 (Some month_rows))
  = Some (of_Z 57) /\
  Spec.round_half_up (100 * (400000 - 170000)) 400000 = 58 /\
  Math_round (div (mul (of_Z 100) (sub (of_Z 400000) (of_Z 170000))) (of_Z 400000))
  = of_Z 58 /\
  of_Z 57 <> of_Z (Spec.round_half_up (100 * (400000 - 170000)) 400000).
Proof.
  vm_compute. repeat split. discriminate.
Qed.

(** C9, amended.  For every list of at most 1000 transactions the report is
    produced; with [I] the total income and [E] the total expenses, the
    savings rate is 0 when [I <= 0], and otherwise it is [Math.round] of the
    double computed for [((I - E) / I) * 100], an integer that equals
    [100 (I - E) / I] rounded to the nearest integer unless that quotient is
    exactly halfway between two integers, where it is the rounded value or
    one less; [goals_met] holds exactly when the savings rate is at least
    20. *)
Theorem monthly_report_savings_rate u month year random l :
  Forall (fun r => int4 (t_amount r) = true) l ->
  Z.of_nat (List.length l) <= 1000 ->
  let I := Spec.sumZ (map t_amount (of_type "income" l)) in
  let E := Spec.sumZ (map t_amount (of_type "expense" l)) in
  exists report r,
    generateCurrentMonthReport (Some u) month year random (Some l) = Some report /\
    total_income report = of_Z I /\ total_expenses report = of_Z E /\
    savings_rate report = of_Z r /\
    (I <= 0 -> r = 0) /\
    (0 < I ->
     savings_rate report = Math_round (mul (div (of_Z (I - E)) (of_Z I)) (of_Z 100)) /\
     Spec.round_half_up (100 * (I - E)) I - 1 <= r <= Spec.round_half_up (100 * (I - E)) I /\
     (~ Spec.halfway (100 * (I - E)) I -> r = Spec.round_half_up (100 * (I - E)) I)) /\
    goals_met report = (20 <=? r).
Proof.
  intros F L I E.
  assert (Hty : forall ty,
             sum_amounts (of_type ty l) = of_Z (Spec.sumZ (map t_amount (of_type ty l))) /\
             Z.abs (Spec.sumZ (map t_amount (of_type ty l))) <= 2147483648 * 1000).
  { intros ty.
    pose proof (filter_length_le (fun t => String.eqb (t_transaction_type t) ty) l) as Hl.
    fold (of_type ty l) in Hl.
    destruct (sum_amounts_exact (of_type ty l)) as [S1 S2].
    - apply Forall_forall. intros r Hr. apply filter_In in Hr.
      rewrite Forall_forall in F. apply F, Hr.
    - lia.
    - split; [exact S1 | nia]. }
  destruct (Hty "income"%string) as [SI BI]. destruct (Hty "expense"%string) as [SE BE].
  fold I in SI, BI. fold E in SE, BE.
  unfold generateCurrentMonthReport. cbv zeta.
  fold (of_type "income" l). fold (of_type "expense" l).
  rewrite SI, SE.
  destruct (Z_lt_le_dec 0 I) as [HI | HI].
  - destruct (savingsRate_rounds I E) as (r & Er & B & T).
    { change (2 ^ 53) with 9007199254740992. lia. }
    { change (2 ^ 43) with 8796093022208. lia. }
    eexists. exists r. split; [reflexivity |]. cbn [total_income total_expenses savings_rate goals_met].
    split; [reflexivity |]. split; [reflexivity |]. split; [exact Er |].
    split; [lia |]. split.
    + intros _. split; [| split; [exact B | exact T]].
      unfold savingsRate. rewrite gt_Z.
      destruct (Z.ltb_spec 0 I) as [_ | C]; [| lia].
      rewrite sub_Z; [reflexivity |]. change (2 ^ 53) with 9007199254740992. lia.
    + rewrite Er. apply ge_Z.
  - eexists. exists 0. split; [reflexivity |]. cbn [total_income total_expenses savings_rate goals_met].
    assert (Er : savingsRate (of_Z I) (of_Z E) = of_Z 0).
    { unfold savingsRate. rewrite gt_Z.
      destruct (Z.ltb_spec 0 I) as [C | _]; [lia | reflexivity]. }
    split; [reflexivity |]. split; [reflexivity |]. split; [exact Er |].
    split; [reflexivity |]. split; [lia |].
    rewrite Er. reflexivity.
Qed.

Lemma monthly_report_savings_rate_witness :
  Forall (fun r => int4 (t_amount r) = true) month_rows /\
  exists report,
    generateCurrentMonthReport (Some Fixture.alice) 11 2026 0 (Some month_rows)
      = Some report /\
    total_income report = of_Z 400000 /\ total_expenses report = of_Z 170000 /\
    exists r, savings_rate report = of_Z r /\ 57 <= r <= 58.
Proof.
  assert (F : Forall (fun r => int4 (t_amount r) = true) month_rows).
  { repeat constructor. }
  split; [exact F |].
  destruct (monthly_report_savings_rate Fixture.alice 11 2026 0%nat month_rows F
              ltac:(vm_compute; discriminate))
    as (report & r & H1 & H2 & H3 & H4 & _ & H6 & _).
  exists report. split; [exact H1 |]. split; [exact H2 |]. split; [exact H3 |].
  exists r. split; [exact H4 |].
  destruct (H6 ltac:(vm_compute; reflexivity)) as (_ & B & _).
  vm_compute in B. vm_compute. exact B.
Defined.

End ReportsFacts.

(** ** Amounts: from text to cents and back *)

Module AmountFacts.
Import JS JSString Store JSFacts.
Import Spec Fixture.

Local Open Scope Q_scope.

(** [Math.round(x * 100)] recovers the cents of a two-decimal amount that
    fits the integer column. *)
Lemma cents_rounding (q : Q) (d : Z) :
  q == inject_Z d / 100 -> (0 <= d <= 2147483647)%Z ->
  Math_round (mul (to_double q) (of_Z 100)) = of_Z d.
Proof.
  intros Eq [Hd0 Hd1].
  destruct (Z.eq_dec d 0) as [-> | Hne].
  - rewrite (to_double_zero q).
    + reflexivity.
    + rewrite Eq. reflexivity.
  - assert (D1 : 1 <= inject_Z d).
    { change 1 with (inject_Z 1). rewrite <- Zle_Qle. lia. }
    assert (D2 : inject_Z d <= 2147483647).
    { change 2147483647 with (inject_Z 2147483647). rewrite <- Zle_Qle. lia. }
    set (dd := inject_Z d) in *.
    assert (Hq : 100 * q == dd) by (rewrite Eq; field).
    destruct (to_double_rel q) as (x & Ex & Bx & _).
    { rewrite Qabs_pos by lra. lra. }
    { rewrite Qabs_pos by lra. lra. }
    destruct (Bx ltac:(lra)) as [Bx1 Bx2]. unfold eps in Bx1, Bx2.
    rewrite Ex. unfold mul, of_Z. change (inject_Z 100) with 100.
    destruct (to_double_rel (x * 100)) as (y & Ey & By & _).
    { rewrite Qabs_pos by lra. lra. }
    { rewrite Qabs_pos by lra. lra. }
    destruct (By ltac:(lra)) as [By1 By2]. unfold eps in By1, By2.
    rewrite Ey. cbn [Math_round]. f_equal. f_equal.
    apply Qfloor_unique.
    + fold dd. lra.
    + rewrite inject_Z_plus. fold dd. change (inject_Z 1) with 1. lra.
Qed.

(** [(cents / 100).toFixed(2)] prints the cents it was given. *)
Lemma cents_formatting (d : Z) :
  (0 <= d <= 2147483647)%Z -> fromCents (of_Z d) = Some (fixed2_digits d).
Proof.
  intros [Hd0 Hd1]. unfold fromCents.
  destruct (Z.eq_dec d 0) as [-> | Hne]; [reflexivity |].
  assert (D1 : 1 <= inject_Z d).
  { change 1 with (inject_Z 1). rewrite <- Zle_Qle. lia. }
  assert (D2 : inject_Z d <= 2147483647).
  { change 2147483647 with (inject_Z 2147483647). rewrite <- Zle_Qle. lia. }
  assert (Ediv : div (of_Z d) (of_Z 100) = to_double (inject_Z d / 100)) by reflexivity.
  rewrite Ediv.
  set (dd := inject_Z d) in *.
  set (q := dd / 100).
  assert (Hq : 100 * q == dd) by (unfold q; field).
  destruct (to_double_rel q) as (x & Ex & Bx & _).
  { rewrite Qabs_pos by lra. lra. }
  { rewrite Qabs_pos by lra. lra. }
  destruct (Bx ltac:(lra)) as [Bx1 Bx2]. unfold eps in Bx1, Bx2.
  rewrite Ex. unfold toFixed2.
  assert (N : is_neg x = false).
  { unfold is_neg. rewrite OnboardingFacts.Qle_bool_true by lra. reflexivity. }
  rewrite N.
  assert (B : Qle_bool ((10 # 1) ^ 21) x = false).
  { apply OnboardingFacts.Qle_bool_false.
    assert (T : (10 # 1) ^ 21 == 1000000000000000000000) by reflexivity.
    rewrite T. lra. }
  rewrite B. cbn [app].
  assert (F : Qfloor (x * 100 + (1 # 2)) = d).
  { apply Qfloor_unique.
    - fold dd. lra.
    - rewrite inject_Z_plus. fold dd. change (inject_Z 1) with 1. lra. }
  rewrite F. reflexivity.
Qed.

Local Open Scope Z_scope.

Lemma is_digit_cases (v : Z) :
  is_digit v ->
  v = 0 \/ v = 1 \/ v = 2 \/ v = 3 \/ v = 4 \/ v = 5 \/ v = 6 \/ v = 7 \/ v = 8 \/ v = 9.
Proof. unfold is_digit. lia. Qed.

Ltac each_digit H :=
  apply is_digit_cases in H;
  repeat (destruct H as [H | H]); subst.

Lemma digit_enc (v : Z) : is_digit v -> digit 10 (enc v) = Some v.
Proof. intros H. each_digit H; reflexivity. Qed.

Lemma enc_not_space (v : Z) : is_digit v -> is_space (enc v) = false.
Proof. intros H. each_digit H; reflexivity. Qed.

Lemma split_sign_enc (v : Z) (r : jsstring) :
  is_digit v -> split_sign (enc v :: r) = (false, enc v :: r).
Proof. intros H. each_digit H; reflexivity. Qed.

Lemma starts_with_Infinity_enc (v : Z) (r : jsstring) :
  is_digit v -> starts_with Infinity_word (enc v :: r) = false.
Proof. intros H. each_digit H; reflexivity. Qed.

Lemma span_digits_enc (ds : list Z) (rest : jsstring) :
  Forall is_digit ds ->
  match rest with [] => True | c :: _ => digit 10 c = None end ->
  span_digits 10 (map enc ds ++ rest) = (ds, rest).
Proof.
  intros F Hr. induction F as [| v ds Hv F IH].
  - destruct rest as [| c r]; [reflexivity |]. simpl. rewrite Hr. reflexivity.
  - cbn [map app span_digits]. rewrite (digit_enc v Hv), IH. reflexivity.
Qed.

Lemma digits_value_snoc (ds : list Z) (v : Z) :
  digits_value 10 (ds ++ [v]) = 10 * digits_value 10 ds + v.
Proof.
  unfold digits_value. rewrite fold_left_app. cbn [fold_left]. lia.
Qed.

(** The digits produced for [n], given enough fuel. *)
Lemma digits_fuel_spec (fuel : nat) (n : Z) (acc : jsstring) :
  0 <= n < 2 ^ Z.of_nat (S fuel) ->
  exists ds, digits_fuel (S fuel) n acc = map enc ds ++ acc /\
             Forall is_digit ds /\ ds <> [] /\ digits_value 10 ds = n.
Proof.
  revert n acc. induction fuel as [| fuel IH]; intros n acc Hn.
  - assert (Hm : is_digit (n mod 10)) by (unfold is_digit; Z.div_mod_to_equations; lia).
    change (2 ^ Z.of_nat 1) with 2 in Hn.
    cbn [digits_fuel].
    assert (E : (n <? 10) = true) by (apply Z.ltb_lt; lia).
    rewrite E. exists [n mod 10].
    split; [reflexivity |]. split; [constructor; [exact Hm | constructor] |].
    split; [discriminate |]. unfold digits_value. simpl.
    Z.div_mod_to_equations. lia.
  - assert (Hm : is_digit (n mod 10)) by (unfold is_digit; Z.div_mod_to_equations; lia).
    remember (S fuel) as f eqn:Ef.
    cbn [digits_fuel].
    destruct (n <? 10) eqn:E.
    + apply Z.ltb_lt in E. exists [n mod 10].
      split; [reflexivity |]. split; [constructor; [exact Hm | constructor] |].
      split; [discriminate |]. unfold digits_value. simpl.
      Z.div_mod_to_equations. lia.
    + apply Z.ltb_ge in E. subst f.
      destruct (IH (n / 10) (Z.to_N (48 + n mod 10) :: acc)) as (ds & E1 & F & _ & V).
      { rewrite (Nat2Z.inj_succ (S fuel)), Z.pow_succ_r in Hn by lia.
        Z.div_mod_to_equations. lia. }
      exists (ds ++ [n mod 10]). split; [| split; [| split]].
      * rewrite E1, map_app, <- app_assoc. reflexivity.
      * apply Forall_app. split; [exact F | constructor; [exact Hm | constructor]].
      * destruct ds; discriminate.
      * rewrite digits_value_snoc, V. Z.div_mod_to_equations. lia.
Qed.

Lemma digits_of_spec (n : Z) :
  0 <= n ->
  exists ds, digits_of n = map enc ds /\ Forall is_digit ds /\ ds <> [] /\
             digits_value 10 ds = n.
Proof.
  intros Hn. unfold digits_of.
  destruct (digits_fuel_spec (Z.to_nat (Z.log2 n)) n []) as (ds & E & F & N & V).
  - rewrite Nat2Z.inj_succ, Z2Nat.id by apply Z.log2_nonneg.
    destruct (Z.eq_dec n 0) as [-> | Hne]; [simpl; lia |].
    split; [lia |]. apply Z.log2_spec. lia.
  - exists ds. rewrite app_nil_r in E. auto.
Qed.

(** The text printed for [d] cents denotes [d / 100]. *)
Lemma fixed2_denotes (d : Z) :
  0 <= d ->
  exists q, StrDecimalLiteral (fixed2_digits d) = lit_decimal q /\
            (q == inject_Z d / 100)%Q.
Proof.
  intros Hd. unfold fixed2_digits.
  assert (Hw : 0 <= d / 100) by (Z.div_mod_to_equations; lia).
  destruct (digits_of_spec (d / 100) Hw) as (ds & E & F & N & V).
  rewrite E.
  set (f1 := d mod 100 / 10). set (f2 := d mod 10).
  assert (H1 : is_digit f1) by (unfold is_digit, f1; Z.div_mod_to_equations; lia).
  assert (H2 : is_digit f2) by (unfold is_digit, f2; Z.div_mod_to_equations; lia).
  fold (enc f1). fold (enc f2).
  set (rest := [46%N; enc f1; enc f2]).
  destruct ds as [| v0 ds']; [contradiction |].
  assert (H0 : is_digit v0) by (inversion F; assumption).
  unfold StrDecimalLiteral.
  assert (T : trim_start (map enc (v0 :: ds') ++ rest) = map enc (v0 :: ds') ++ rest).
  { cbn [map app trim_start]. rewrite (enc_not_space v0 H0). reflexivity. }
  rewrite T.
  assert (S : split_sign (map enc (v0 :: ds') ++ rest) = (false, map enc (v0 :: ds') ++ rest)).
  { cbn [map app]. apply split_sign_enc, H0. }
  rewrite S.
  assert (I : starts_with Infinity_word (map enc (v0 :: ds') ++ rest) = false).
  { cbn [map app]. apply starts_with_Infinity_enc, H0. }
  rewrite I.
  unfold decimal_MV.
  rewrite (span_digits_enc (v0 :: ds') rest F) by reflexivity.
  unfold rest.
  assert (P : span_digits 10 [enc f1; enc f2] = ([f1; f2], [])).
  { apply (span_digits_enc [f1; f2] []); [| exact Logic.I].
    constructor; [exact H1 | constructor; [exact H2 | constructor]]. }
  rewrite P.
  eexists. split; [reflexivity |].
  cbn [exponent_part List.length].
  change (0 - Z.of_nat 2) with (-2).
  assert (Ev : digits_value 10 ((v0 :: ds') ++ [f1; f2]) = d).
  { change [f1; f2] with ([f1] ++ [f2]). rewrite app_assoc.
    rewrite !digits_value_snoc, V. unfold f1, f2. Z.div_mod_to_equations. lia. }
  rewrite Ev.
  assert (Ep : ((10 # 1) ^ (-2) == 1 # 100)%Q) by reflexivity.
  rewrite Ep. unfold Qdiv. reflexivity.
Qed.

(** What a two-decimal amount within the integer column goes through:
    text to cents, cents to text, text to cents. *)
Lemma amount_cents_text (s : jsstring) (q : Q) (d : Z) :
  StrDecimalLiteral s = lit_decimal q -> (q == inject_Z d / 100)%Q ->
  0 <= d <= 2147483647 ->
  inCents s = of_Z d /\
  to_integer (inCents s) = Some (Some d) /\
  fromCents (of_Z d) = Some (fixed2_digits d) /\
  (exists q', StrDecimalLiteral (fixed2_digits d) = lit_decimal q' /\ (q' == q)%Q) /\
  inCents (fixed2_digits d) = of_Z d.
Proof.
  intros Hs Hq Hd.
  assert (C : inCents s = of_Z d).
  { unfold inCents, parseFloat. rewrite Hs. apply cents_rounding; assumption. }
  destruct (fixed2_denotes d ltac:(lia)) as (q' & Hs' & Hq').
  repeat split.
  - exact C.
  - rewrite C. apply TreatFacts.to_integer_Z. apply TreatFacts.int4_bounds. lia.
  - apply cents_formatting. exact Hd.
  - exists q'. split; [exact Hs' |]. rewrite Hq', Hq. reflexivity.
  - unfold inCents, parseFloat. rewrite Hs'. apply cents_rounding; assumption.
Qed.

Import Settings.

(** C6, as stated, fails: 21474836.48 has two decimal places, but its
    2147483648 cents do not fit the integer column; the update is rejected,
    the stored income stays at 500000 cents, and the screen shows 5000.00
    again instead of the amount entered.  (Further up the conversion itself
    gives way: 45035996273685.02 is turned into 4503599627368503 cents.) *)
Lemma amount_beyond_integer_column_is_not_stored :
  let s := settings_form "21474836.48" in
  let w' := exec (handleSave (Some Fixture.alice) s) Fixture.fresh in
  let s' := eval (handleSave (Some Fixture.alice) s) Fixture.fresh in
  match StrDecimalLiteral (monthlyIncome s) with
  | lit_decimal q => Qeq_bool q (2147483648 # 100)
  | _ => false
  end = true /\
  inCents (monthlyIncome s) = of_Z 2147483648 /\
  to_integer (inCents (monthlyIncome s)) = None /\
  map p_monthly_income (profiles w') = [Some 500000] /\
  monthlyIncome s' = str "5000.00" /\
  monthlyIncome s' <> str "21474836.48" /\
  inCents (str "45035996273685.02") = of_Z 4503599627368503.
Proof.
  vm_compute. repeat split. discriminate.
Qed.

Lemma select_profile_updated uid income blocker balance w row :
  select_profile uid w = (Some row, w) ->
  int4 income = true ->
  let w' := exec (update_profile_settings uid (of_Z income) blocker balance) w in
  exists row', select_profile uid w' = (Some row', w') /\
               p_monthly_income row' = Some income.
Proof.
  intros Hsel Hi w'.
  assert (Hs : maybeSingle (filter (fun r => N.eqb (p_user_id r) uid) (profiles w)) = Some row).
  { unfold select_profile in Hsel. injection Hsel as Hsel. exact Hsel. }
  assert (Hu : N.eqb (p_user_id row) uid = true).
  { destruct (filter _ (profiles w)) as [| x [| y l]] eqn:F; try discriminate.
    injection Hs as <-.
    assert (I : In x (filter (fun r => N.eqb (p_user_id r) uid) (profiles w))).
    { rewrite F. left. reflexivity. }
    apply filter_In in I. apply I. }
  set (upd := fun r : profiles_row =>
                if N.eqb (p_user_id r) uid then
                  {| p_user_id := p_user_id r; p_monthly_income := Some income;
                     p_onboarding_completed := p_onboarding_completed r;
                     p_impulse_blocker_enabled := blocker;
                     p_show_total_balance := balance |}
                else r).
  assert (W : profiles w' = map upd (profiles w)).
  { subst w'. unfold exec, update_profile_settings.
    rewrite (TreatFacts.to_integer_Z income Hi). reflexivity. }
  exists (upd row). split.
  - unfold select_profile. rewrite W.
    rewrite TreatFacts.filter_map_commute.
    + rewrite TreatFacts.maybeSingle_map, Hs. reflexivity.
    + intros x. unfold upd. destruct (N.eqb (p_user_id x) uid) eqn:E; simpl; rewrite E; reflexivity.
  - unfold upd. rewrite Hu. reflexivity.
Qed.

(** C6, amended.  An amount entered as a decimal string is turned into
    cents by [Math.round(parseFloat(value) * 100)].  For every non-negative
    amount with at most two decimal places of at most 21474836.47, the
    largest whose cents fit the integer column: the cents are exact and are
    stored; formatting them back, [(cents / 100).toFixed(2)], gives the amount
    written with two decimals, a text that denotes the original amount and
    converts to the same cents; and on the settings screen, saving the amount
    stores these cents in the user's profile and shows that text. *)
Theorem amount_round_trip (s : jsstring) (q : Q) (d : Z) :
  StrDecimalLiteral s = lit_decimal q -> (q == inject_Z d / 100)%Q ->
  0 <= d <= 2147483647 ->
  inCents s = of_Z d /\
  to_integer (inCents s) = Some (Some d) /\
  fromCents (of_Z d) = Some (fixed2_digits d) /\
  (exists q', StrDecimalLiteral (fixed2_digits d) = lit_decimal q' /\ (q' == q)%Q) /\
  inCents (fixed2_digits d) = of_Z d /\
  (forall user sc w row,
      monthlyIncome sc = s -> select_profile (id user) w = (Some row, w) ->
      let w' := exec (handleSave (Some user) sc) w in
      let sc' := eval (handleSave (Some user) sc) w in
      option_map p_monthly_income (eval (select_profile (id user)) w') = Some (Some d) /\
      monthlyIncome sc' = fixed2_digits d).
Proof.
  intros Hs Hq Hd.
  destruct (amount_cents_text s q d Hs Hq Hd) as (C1 & C2 & C3 & C4 & C5).
  split; [exact C1 |]. split; [exact C2 |]. split; [exact C3 |].
  split; [exact C4 |]. split; [exact C5 |].
  intros user sc w row Hm Hsel w' sc'.
  assert (Hi : int4 d = true) by (apply TreatFacts.int4_bounds; lia).
  destruct (select_profile_updated (id user) d (impulseBlocker sc) (showBalance sc) w row Hsel Hi)
    as (row' & Hsel' & Hinc).
  set (w1 := exec (update_profile_settings (id user) (of_Z d) (impulseBlocker sc) (showBalance sc)) w) in *.
  assert (Hrun : handleSave (Some user) sc w
                 = ({| profile := Some row'; monthlyIncome := fixed2_digits d;
                       impulseBlocker := p_impulse_blocker_enabled row';
                       showBalance := p_show_total_balance row'; loading := false |}, w1)).
  { unfold handleSave. rewrite Hm, C1. unfold bind.
    fold (exec (update_profile_settings (id user) (of_Z d) (impulseBlocker sc) (showBalance sc)) w).
    destruct (update_profile_settings (id user) (of_Z d) (impulseBlocker sc) (showBalance sc) w)
      as [e w1'] eqn:Eu.
    assert (Ew : w1' = w1) by (subst w1; unfold exec; rewrite Eu; reflexivity).
    subst w1'. unfold fetchProfile, bind. rewrite Hsel'.
    cbn [ret]. rewrite Hinc. cbn [of_integer]. rewrite C3. reflexivity. }
  subst w' sc'. unfold exec, eval. rewrite Hrun. cbn [fst snd].
  split; [| reflexivity].
  rewrite Hsel'. cbn [fst option_map]. rewrite Hinc. reflexivity.
Qed.

Lemma amount_round_trip_witness :
  let s := str "1.15" in
  StrDecimalLiteral s = lit_decimal (115 # 100) /\
  inCents s = of_Z 115 /\
  fromCents (of_Z 115) = Some (str "1.15") /\
  monthlyIncome (eval (handleSave (Some Fixture.alice) (settings_form "1.15")) Fixture.fresh)
  = str "1.15".
Proof.
  destruct (amount_round_trip (str "1.15") (115 # 100) 115
              ltac:(vm_compute; reflexivity) ltac:(reflexivity) ltac:(lia))
    as (C1 & _ & C3 & _ & _ & C6).
  split; [vm_compute; reflexivity |]. split; [exact C1 |]. split; [exact C3 |].
  apply (C6 Fixture.alice (settings_form "1.15") Fixture.fresh Fixture.alice_profile
            eq_refl eq_refl).
Defined.

End AmountFacts.

(** ** What the lists of the transactions and treat screens hold *)

Module FetchFacts.
Import JS JSString Store JSFacts QueryFacts.
Import Spec Terms.

Lemma StronglySorted_app_lr {A : Type} (R : A -> A -> Prop) (l1 l2 : list A) :
  StronglySorted R (l1 ++ l2) -> forall x y, In x l1 -> In y l2 -> R x y.
Proof.
  induction l1 as [| a l1 IH]; intros S x y Hx Hy; [contradiction |].
  cbn [app] in S. inversion S as [| a' l' S' F]; subst.
  destruct Hx as [<- | Hx].
  - rewrite Forall_forall in F. apply F, in_or_app. right. exact Hy.
  - apply IH; assumption.
Qed.

Lemma date_desc_sorted (l : list transactions_row) :
  StronglySorted (fun x y => (t_transaction_date y <= t_transaction_date x)%Z)
                 (sort_by date_desc l).
Proof.
  apply Sorted_StronglySorted.
  - intros x y z Hxy Hyz. lia.
  - assert (S : Sorted (fun x y => date_desc x y = true) (sort_by date_desc l)).
    { apply sort_by_sorted. exact date_desc_total. }
    eapply Sorted_ind with (P := fun l => Sorted _ l); [constructor | | exact S].
    intros a l0 _ IH Hh. constructor; [exact IH |].
    destruct Hh as [| b l' Hb]; constructor.
    unfold date_desc in Hb. apply Z.leb_le in Hb. exact Hb.
Qed.

(** An ordered query with a limit answers with the newest matching rows. *)
Lemma run_query_newest (q : transactions_query) (n : nat) (w : World) :
  tq_limit q = Some n -> tq_order_date_desc q = true ->
  let matching := filter (tq_where q) (Store.transactions w) in
  let rows := eval (run_query q) w in
  List.length rows = Nat.min n (List.length matching) /\
  ((List.length matching <= n)%nat -> Permutation matching rows) /\
  (forall r x, In r matching -> ~ In r rows -> In x rows ->
               (t_transaction_date r <= t_transaction_date x)%Z).
Proof.
  intros Hl Ho matching rows.
  assert (E : rows = firstn n (sort_by date_desc matching)).
  { subst rows matching. unfold eval, run_query. rewrite Hl, Ho. reflexivity. }
  pose proof (sort_by_perm _ date_desc matching) as P.
  pose proof (Permutation_length P) as L.
  split; [| split].
  - rewrite E, length_firstn, L. reflexivity.
  - intros Hle. rewrite E, firstn_all2 by lia. exact P.
  - intros r x Hr Hn Hx.
    pose proof (date_desc_sorted matching) as S.
    rewrite <- (firstn_skipn n (sort_by date_desc matching)) in S.
    apply (StronglySorted_app_lr _ _ _ S x r).
    + rewrite <- E. exact Hx.
    + assert (I : In r (sort_by date_desc matching)) by (eapply Permutation_in; eassumption).
      rewrite <- (firstn_skipn n (sort_by date_desc matching)) in I.
      apply in_app_or in I. destruct I as [I | I]; [| exact I].
      exfalso. apply Hn. rewrite E. exact I.
Qed.

Lemma fetch_query_where user f r :
  tq_where (fetch_query user f) r = wanted user f r.
Proof. unfold wanted. destruct f; cbn; rewrite ?andb_true_r; reflexivity. Qed.

Lemma filter_ext_eq {A : Type} (f g : A -> bool) (l : list A) :
  (forall x, f x = g x) -> filter f l = filter g l.
Proof.
  intros H. induction l as [| x l IH]; [reflexivity |].
  simpl. rewrite H, IH. reflexivity.
Qed.

(** X1.  The list of the transactions screen consists of the newest of the
    user's stored transactions of the selected type: it has 50 entries or,
    when fewer match, all of them, and a matching stored transaction that is
    left out is no newer than any that is shown. *)
Theorem fetchTransactions_shows_the_newest user s w :
  let matching := List.filter (wanted user (Transactions.filter s)) (Store.transactions w) in
  let shown := Transactions.transactions (eval (Transactions.fetchTransactions (Some user) s) w) in
  List.length shown = Nat.min 50 (List.length matching) /\
  ((List.length matching <= 50)%nat -> Permutation matching shown) /\
  (forall r x, In r matching -> ~ In r shown -> In x shown ->
               (t_transaction_date r <= t_transaction_date x)%Z) /\
  exec (Transactions.fetchTransactions (Some user) s) w = w.
Proof.
  intros matching shown.
  assert (Es : shown = eval (run_query (fetch_query user (Transactions.filter s))) w).
  { subst shown. rewrite TransactionsFacts.fetchTransactions_eval. reflexivity. }
  assert (Em : matching
               = List.filter (tq_where (fetch_query user (Transactions.filter s)))
                             (Store.transactions w)).
  { subst matching. apply filter_ext_eq. intros r. symmetry. apply fetch_query_where. }
  destruct (TransactionsFacts.fetch_query_shape user (Transactions.filter s)) as (Hl & Ho & _).
  destruct (run_query_newest _ _ w Hl Ho) as (H1 & H2 & H3).
  rewrite Es, Em. split; [exact H1 |]. split; [exact H2 |]. split; [exact H3 |].
  destruct s as [data f]. destruct f; reflexivity.
Qed.

Lemma fetchTransactions_shows_the_newest_witness :
  let s := {| Transactions.transactions := []; Transactions.filter := Transactions.expense |} in
  let w := Fixture.with_transactions Fixture.sample_rows in
  Permutation
    (List.filter (wanted Fixture.alice (Transactions.filter s)) (Store.transactions w))
    (Transactions.transactions
       (eval (Transactions.fetchTransactions (Some Fixture.alice) s) w)).
Proof.
  apply (proj1 (proj2 (fetchTransactions_shows_the_newest Fixture.alice
                         {| Transactions.transactions := [];
                            Transactions.filter := Transactions.expense |}
                         (Fixture.with_transactions Fixture.sample_rows)))).
  vm_compute. repeat constructor.
Defined.

(** X2.  The two summaries of the transactions screen are computed from the
    fetched list only: under the filter 'income' the Expenses summary is 0,
    and under the filter 'expense' the Income summary is 0, whatever is
    stored. *)
Theorem filtered_list_zeroes_the_other_summary user s w :
  let s' := eval (Transactions.fetchTransactions (Some user) s) w in
  (Transactions.filter s = Transactions.income -> Transactions.totalExpenses s' = of_Z 0) /\
  (Transactions.filter s = Transactions.expense -> Transactions.totalIncome s' = of_Z 0).
Proof.
  intros s'.
  assert (Hall : forall f ty,
             Transactions.filter s = f -> f <> Transactions.all ->
             Transactions.Filter_string f <> ty ->
             List.filter (fun t => String.eqb (t_transaction_type t) ty)
                         (Transactions.transactions s') = []).
  { intros f ty Hf Hna Hty. subst s'. rewrite TransactionsFacts.fetchTransactions_eval.
    cbn [Transactions.transactions].
    destruct (run_query_spec (fetch_query user (Transactions.filter s)) w) as (_ & Hin & _).
    destruct (TransactionsFacts.fetch_query_shape user (Transactions.filter s)) as (_ & _ & Hq).
    set (data := eval (run_query (fetch_query user (Transactions.filter s))) w) in *.
    assert (F : forall r, In r data -> String.eqb (t_transaction_type r) ty = false).
    { intros r Hr. apply String.eqb_neq.
      destruct (Hin r Hr) as [_ Hw]. destruct (Hq r Hw) as [_ Ht].
      rewrite Ht by (rewrite Hf; exact Hna). rewrite Hf. exact Hty. }
    clearbody data. clear Hin. induction data as [| r data IH]; [reflexivity |].
    simpl. rewrite F by (left; reflexivity). apply IH. intros r' Hr'. apply F. right. exact Hr'. }
  split; intros Hf.
  - unfold Transactions.totalExpenses.
    rewrite (Hall Transactions.income "expense"%string Hf); [reflexivity | |]; discriminate.
  - unfold Transactions.totalIncome.
    rewrite (Hall Transactions.expense "income"%string Hf); [reflexivity | |]; discriminate.
Qed.

Lemma filtered_list_zeroes_the_other_summary_witness :
  Transactions.totalExpenses
    (eval (Transactions.fetchTransactions (Some Fixture.alice)
             {| Transactions.transactions := []; Transactions.filter := Transactions.income |})
          (Fixture.with_transactions Fixture.sample_rows))
  = of_Z 0.
Proof.
  exact (proj1 (filtered_list_zeroes_the_other_summary Fixture.alice
                  {| Transactions.transactions := [];
                     Transactions.filter := Transactions.income |}
                  (Fixture.with_transactions Fixture.sample_rows)) eq_refl).
Defined.

(** X3.  [fetchData] of the treat screen writes nothing.  Its list consists
    of the newest of the user's stored 'treat' transactions, 20 or, when fewer
    are stored, all of them; and when the store has no wallet row for the user
    the wallet shown before stays on the screen. *)
Theorem treat_fetchData_shows_the_newest user s w :
  let matching := List.filter (treat_of user) (Store.transactions w) in
  let s' := eval (Treat.fetchData (Some user) s) w in
  exec (Treat.fetchData (Some user) s) w = w /\
  List.length (Treat.transactions s') = Nat.min 20 (List.length matching) /\
  ((List.length matching <= 20)%nat -> Permutation matching (Treat.transactions s')) /\
  (forall r x, In r matching -> ~ In r (Treat.transactions s') -> In x (Treat.transactions s') ->
               (t_transaction_date r <= t_transaction_date x)%Z) /\
  StronglySorted (fun x y => (t_transaction_date y <= t_transaction_date x)%Z)
                 (Treat.transactions s') /\
  Treat.wallet s' = match fst (select_wallet (id user) w) with
                    | Some wl => Some wl
                    | None => Treat.wallet s
                    end.
Proof.
  intros matching s'.
  set (q := limit 20 (order_transaction_date_desc
              (eq_transaction_type "treat" (eq_user_id (id user) from_transactions)))).
  assert (Et : Treat.transactions s' = eval (run_query q) w).
  { subst s'. unfold eval, Treat.fetchData, bind, select_wallet.
    destruct (maybeSingle _); reflexivity. }
  assert (Em : matching = List.filter (tq_where q) (Store.transactions w)).
  { subst matching. apply filter_ext_eq. intros r. reflexivity. }
  destruct (run_query_newest q 20 w eq_refl eq_refl) as (H1 & H2 & H3).
  destruct (run_query_spec q w) as (_ & _ & _ & H4).
  split; [apply TreatFacts.fetchData_world |].
  rewrite Et, Em. split; [exact H1 |]. split; [exact H2 |]. split; [exact H3 |].
  split; [apply H4; reflexivity |].
  subst s'. unfold eval, Treat.fetchData, bind, select_wallet. cbn [fst].
  destruct (maybeSingle _); reflexivity.
Qed.

Lemma treat_fetchData_shows_the_newest_witness :
  let w := exec (Treat.handleSpend (Some Fixture.alice) (snd Fixture.give_25))
                (fst Fixture.give_25) in
  Permutation
    (List.filter (treat_of Fixture.alice) (Store.transactions w))
    (Treat.transactions (eval (Treat.fetchData (Some Fixture.alice) Treat.mounted) w)).
Proof.
  apply (proj1 (proj2 (proj2 (treat_fetchData_shows_the_newest Fixture.alice Treat.mounted
                                (exec (Treat.handleSpend (Some Fixture.alice)
                                         (snd Fixture.give_25))
                                      (fst Fixture.give_25)))))).
  vm_compute. repeat constructor.
Defined.

End FetchFacts.

(** ** Treat wallet: what a session can and cannot do to the stored wallet *)

Module TreatSessionFacts.
Import JS JSString Store Treat JSFacts.
Import Spec Terms Fixture.

Local Open Scope Q_scope.

(** The double nearest to a non-negative rational is not negative. *)
Lemma to_double_nonneg (x : Q) :
  0 <= x -> to_double x = Infinity false \/ exists q, to_double x = Num q /\ 0 <= q.
Proof.
  intros Hx. destruct (Qlt_le_dec 0 x) as [Hp | Hz].
  - rewrite (to_double_pos x Hp). apply round_pos_shape, Hp.
  - right. exists 0. split; [| lra]. apply to_double_zero. lra.
Qed.

(** What is left of a balance after an amount that passed the check. *)
Lemma remainder_not_negative (amt : number) (b z : Z) :
  gt amt (of_Z b) = false ->
  to_integer (sub (of_Z b) amt) = Some (Some z) -> (0 <= z)%Z.
Proof.
  intros Hgt Hi. destruct amt as [| s | q].
  - discriminate.
  - discriminate.
  - cbn [gt of_Z] in Hgt. apply negb_false_iff in Hgt. apply Qle_bool_iff in Hgt.
    unfold sub, of_Z in Hi. cbn [neg add] in Hi.
    assert (Hx : 0 <= inject_Z b + Qred (- q)).
    { rewrite Qred_correct. lra. }
    destruct (to_double_nonneg _ Hx) as [E | (q' & E & Hq')]; rewrite E in Hi.
    + discriminate.
    + cbn [to_integer] in Hi.
      destruct (Qeq_bool (inject_Z (Qfloor q')) q' && int4 (Qfloor q')); [| discriminate].
      injection Hi as <-.
      change 0%Z with (Qfloor 0). apply Qfloor_resp_le. exact Hq'.
Qed.

Local Open Scope Z_scope.

Lemma run_handleSpend_idle user s w :
  wallet s = None -> run (handleSpend user s) w = (w, s).
Proof.
  intros H. unfold handleSpend. rewrite H. destruct user; reflexivity.
Qed.

Lemma run_fetchData user s w :
  run (fetchData (Some user) s) w
  = (w, set_transactions
          (match fst (select_wallet (id user) w) with
           | Some wl => set_wallet s wl
           | None => s
           end)
          (eval (run_query (limit 20 (order_transaction_date_desc
                   (eq_transaction_type "treat" (eq_user_id (id user) from_transactions))))) w)).
Proof.
  unfold run, fetchData, bind, select_wallet. cbn [fst].
  destruct (maybeSingle _); reflexivity.
Qed.

Lemma fetchData_wallet user s w :
  wallet (eval (fetchData (Some user) s) w)
  = match fst (select_wallet (id user) w) with
    | Some wl => Some wl
    | None => wallet s
    end.
Proof.
  unfold eval, fetchData, bind, select_wallet. cbn [fst].
  destruct (maybeSingle _); reflexivity.
Qed.

Lemma fetchData_form user s w :
  let s' := eval (fetchData user s) w in
  modalVisible s' = modalVisible s /\ amount s' = amount s /\
  recipient s' = recipient s /\ description s' = description s /\
  loading s' = loading s.
Proof.
  destruct user as [user |]; [| repeat split].
  unfold eval, fetchData, bind, select_wallet. cbn [fst].
  destruct (maybeSingle _); repeat split.
Qed.

(** X4.  A user for whom the store holds no treat-wallet row can record no
    treat: through a whole session on the screen the wallet stays absent
    from the screen and the store stays exactly as it was. *)
Theorem no_wallet_row_no_treat user w0 st :
  fst (select_wallet (id user) w0) = None ->
  steps (Some user) (w0, mounted) st ->
  fst st = w0 /\ wallet (snd st) = None.
Proof.
  intros Hn S. remember (w0, mounted) as st0 eqn:E0.
  induction S as [st | st st' st'' _ IH S].
  - subst st. split; reflexivity.
  - destruct (IH E0) as [Ew Es]. clear IH. destruct S as [w s | w s a r d | w s]; cbn [fst snd] in *.
    + subst w. rewrite run_fetchData, Hn. cbn [fst snd]. split; [reflexivity | exact Es].
    + split; [exact Ew | exact Es].
    + rewrite run_handleSpend_idle by exact Es. split; [exact Ew | exact Es].
Qed.

Lemma no_wallet_row_no_treat_witness :
  let st := run (handleSpend (Some alice) (edit_form (str "25.00") (str "Sam") [] mounted))
                fresh in
  fst st = fresh /\ wallet (snd st) = None.
Proof.
  apply (no_wallet_row_no_treat alice fresh); [reflexivity |].
  apply steps_step with (st' := (fresh, edit_form (str "25.00") (str "Sam") [] mounted)).
  - apply steps_step with (st' := (fresh, mounted)).
    + apply steps_refl.
    + apply step_edit.
  - apply step_spend.
Defined.

Lemma select_wallet_updated uid X Y bx sx w :
  to_integer X = Some bx -> to_integer Y = Some sx ->
  fst (select_wallet uid (exec (update_wallet uid X Y) w))
  = option_map (fun r => {| tw_user_id := tw_user_id r;
                            tw_current_balance := bx;
                            tw_monthly_budget := tw_monthly_budget r;
                            tw_total_spent_this_month := sx |})
               (fst (select_wallet uid w)).
Proof.
  intros EX EY. unfold exec, update_wallet. rewrite EX, EY.
  unfold select_wallet. cbn [fst snd treat_wallet].
  rewrite TreatFacts.filter_map_commute.
  - rewrite TreatFacts.maybeSingle_map.
    destruct (filter (fun r => N.eqb (tw_user_id r) uid) (treat_wallet w))
      as [| x [| y l]] eqn:F; try reflexivity.
    cbn [maybeSingle option_map].
    assert (I : In x (filter (fun r => N.eqb (tw_user_id r) uid) (treat_wallet w))).
    { rewrite F. left. reflexivity. }
    apply filter_In in I. destruct I as [_ I]. rewrite I. reflexivity.
  - intros r. destruct (N.eqb (tw_user_id r) uid) eqn:E; simpl; rewrite E; reflexivity.
Qed.

Lemma handleSpend_balance user s w :
  balance_not_negative user w ->
  balance_not_negative user (fst (run (handleSpend (Some user) s) w)).
Proof.
  intros Inv. unfold handleSpend.
  destruct (wallet s) as [wl |]; [| exact Inv].
  destruct (nonempty (amount s) && nonempty (recipient s)); [| exact Inv].
  rewrite TreatFacts.of_integer_balance.
  destruct (gt (inCents (amount s)) (of_Z (balance_of wl))) eqn:G; [exact Inv |].
  rewrite !TreatFacts.run_bind_treat.
  set (w1 := exec (insert_transaction _) w).
  assert (I1 : balance_not_negative user w1).
  { intros wl0 H. apply Inv. rewrite <- H. symmetry.
    apply TreatFacts.select_wallet_same, TreatFacts.insert_transaction_wallets. }
  clearbody w1.
  set (X := sub (of_Z (balance_of wl)) (inCents (amount s))).
  set (Y := add (of_integer (tw_total_spent_this_month wl)) (inCents (amount s))).
  assert (I2 : balance_not_negative user (exec (update_wallet (id user) X Y) w1)).
  { destruct (to_integer X) as [bx |] eqn:EX;
      [| unfold exec, update_wallet; rewrite EX; exact I1].
    destruct (to_integer Y) as [sx |] eqn:EY;
      [| unfold exec, update_wallet; rewrite EX, EY; exact I1].
    intros wl0. rewrite (select_wallet_updated _ _ _ bx sx _ EX EY).
    destruct (fst (select_wallet (id user) w1)) as [wl1 |]; [| discriminate].
    cbn [option_map]. intros H. injection H as <-.
    unfold balance_of. cbn [tw_current_balance].
    destruct bx as [z |]; [| lia].
    apply (remainder_not_negative (inCents (amount s)) (balance_of wl) z G EX). }
  set (w2 := exec (update_wallet (id user) X Y) w1) in *.
  rewrite (TreatFacts.fetchData_world (Some user) (close_form s) w2).
  exact I2.
Qed.

(** X5.  Through a session on the treat screen the stored balance never
    becomes negative: every balance the screen writes is what is left after an
    amount that did not exceed the balance shown, whatever text was entered as
    the amount. *)
Theorem treat_balance_never_negative user w0 st :
  balance_not_negative user w0 ->
  steps (Some user) (w0, mounted) st ->
  balance_not_negative user (fst st).
Proof.
  intros Inv S. remember (w0, mounted) as st0 eqn:E0.
  induction S as [st | st st' st'' _ IH S].
  - subst st. exact Inv.
  - specialize (IH E0). destruct S as [w s | w s a r d | w s]; cbn [fst snd] in *.
    + rewrite run_fetchData. exact IH.
    + exact IH.
    + apply handleSpend_balance, IH.
Qed.

Lemma treat_balance_never_negative_witness :
  balance_not_negative alice (fst (run (handleSpend (Some alice) (snd give_25)) (fst give_25))).
Proof.
  apply (treat_balance_never_negative alice wallet_world).
  - intros wl H. vm_compute in H. injection H as <-. vm_compute. discriminate.
  - apply steps_step with (st' := give_25); [| apply step_spend].
    apply steps_step with (st' := run (fetchData (Some alice) mounted) wallet_world).
    + apply steps_step with (st' := (wallet_world, mounted)).
      * apply steps_refl.
      * apply step_fetch.
    + vm_cast_no_check
        (step_edit (Some alice) wallet_world
           (snd (run (fetchData (Some alice) mounted) wallet_world))
           (str "25.00") (str "Sam") []).
Defined.

(** X6.  An amount text in which [parseFloat] finds no number passes the
    "Give" button and the balance check (no comparison with NaN holds).  The
    transaction is then refused for its missing amount, while the wallet
    update goes through with both numbers absent: no treat is recorded, and
    the stored balance and the stored spent-this-month are wiped. *)
Theorem unreadable_amount_wipes_the_wallet user s wl stored w :
  wallet s = Some wl ->
  fst (select_wallet (id user) w) = Some stored ->
  nonempty (amount s) = true -> nonempty (recipient s) = true ->
  parseFloat (amount s) = NaN ->
  give_disabled s = false /\
  let w' := exec (handleSpend (Some user) s) w in
  Store.transactions w' = Store.transactions w /\
  fst (select_wallet (id user) w')
  = Some {| tw_user_id := tw_user_id stored; tw_current_balance := None;
            tw_monthly_budget := tw_monthly_budget stored;
            tw_total_spent_this_month := None |} /\
  wallet (eval (handleSpend (Some user) s) w) = fst (select_wallet (id user) w') /\
  isBalanceEmpty (eval (handleSpend (Some user) s) w) = true.
Proof.
  intros Hw Hst Ha Hr Hp.
  assert (Hc : inCents (amount s) = NaN) by (unfold inCents; rewrite Hp; reflexivity).
  split.
  { unfold give_disabled. rewrite Ha, Hr, Hw, Hc. reflexivity. }
  assert (Hrun : handleSpend (Some user) s w
                 = (let w2 := exec (update_wallet (id user) NaN NaN) w in
                    (set_loading (eval (fetchData (Some user) (close_form s)) w2) false, w2))).
  { unfold handleSpend. rewrite Hw, Ha, Hr, Hc. cbn [andb gt].
    unfold bind at 1. unfold insert_transaction at 1. cbn [ti_amount to_integer].
    assert (S1 : sub (of_integer (tw_current_balance wl)) NaN = NaN).
    { unfold sub, add. cbn [neg]. destruct (of_integer (tw_current_balance wl)); reflexivity. }
    assert (S2 : add (of_integer (tw_total_spent_this_month wl)) NaN = NaN).
    { unfold add. destruct (of_integer (tw_total_spent_this_month wl)); reflexivity. }
    rewrite S1, S2. unfold bind, exec, eval.
    destruct (update_wallet (id user) NaN NaN w) as [e2 w2]. cbn [snd].
    pose proof (TreatFacts.fetchData_world (Some user) (close_form s) w2) as F.
    unfold exec in F.
    destruct (fetchData (Some user) (close_form s) w2) as [s' w3]. cbn [snd fst] in *.
    subst w3. reflexivity. }
  cbv zeta in Hrun. set (w2 := exec (update_wallet (id user) NaN NaN) w) in *.
  assert (Ew : exec (handleSpend (Some user) s) w = w2)
    by (unfold exec at 1; rewrite Hrun; reflexivity).
  assert (Ee : eval (handleSpend (Some user) s) w
               = set_loading (eval (fetchData (Some user) (close_form s)) w2) false)
    by (unfold eval at 1; rewrite Hrun; reflexivity).
  cbv zeta. rewrite Ew, Ee.
  assert (Hs : fst (select_wallet (id user) w2)
               = Some {| tw_user_id := tw_user_id stored; tw_current_balance := None;
                         tw_monthly_budget := tw_monthly_budget stored;
                         tw_total_spent_this_month := None |}).
  { subst w2. rewrite (select_wallet_updated (id user) NaN NaN None None w eq_refl eq_refl), Hst.
    reflexivity. }
  assert (Ht : Store.transactions w2 = Store.transactions w).
  { subst w2. apply TreatFacts.update_wallet_transactions. }
  split; [exact Ht |]. split; [exact Hs |].
  assert (Hf : wallet (eval (fetchData (Some user) (close_form s)) w2)
               = fst (select_wallet (id user) w2)).
  { rewrite fetchData_wallet, Hs. reflexivity. }
  split.
  - cbn [set_loading wallet]. exact Hf.
  - unfold isBalanceEmpty. cbn [set_loading wallet]. rewrite Hf, Hs. reflexivity.
Qed.

Lemma unreadable_amount_wipes_the_wallet_witness :
  let s := give_form rich_wallet "." in
  map (fun r => (tw_current_balance r, tw_total_spent_this_month r))
      (treat_wallet (exec (handleSpend (Some alice) s) wallet_world))
  = [(None, None)] /\
  give_disabled s = false.
Proof.
  destruct (unreadable_amount_wipes_the_wallet alice (give_form rich_wallet ".")
              rich_wallet rich_wallet wallet_world
              eq_refl eq_refl eq_refl eq_refl eq_refl) as (H1 & _).
  split; [vm_compute; reflexivity | exact H1].
Defined.

(** X7.  The "Give" button and [handleSpend] apply the same checks: when
    the button is disabled the handler would change neither the screen nor
    the store, and when it is enabled, with a user signed in and a wallet on
    the screen, the handler runs to its end, closing the form, clearing its
    three fields and ending with [loading] off. *)
Theorem give_button_agrees_with_handleSpend user s w :
  (give_disabled s = true -> handleSpend user s w = (s, w)) /\
  (give_disabled s = false ->
   forall u wl, user = Some u -> wallet s = Some wl ->
     let s' := eval (handleSpend user s) w in
     modalVisible s' = false /\ amount s' = [] /\ recipient s' = [] /\
     description s' = [] /\ loading s' = false).
Proof.
  unfold give_disabled, handleSpend. split.
  - intros H. destruct user as [u |]; [| reflexivity].
    destruct (wallet s) as [wl |]; [| reflexivity].
    destruct (nonempty (amount s)); [| reflexivity].
    destruct (nonempty (recipient s)); [| reflexivity].
    cbn [negb orb andb] in *. rewrite H. reflexivity.
  - intros H u wl -> Hw. rewrite Hw in *.
    destruct (nonempty (amount s)); [| discriminate].
    destruct (nonempty (recipient s)); [| discriminate].
    cbn [negb orb andb] in *. rewrite H.
    unfold eval, bind.
    destruct (insert_transaction _ w) as [e1 w1].
    destruct (update_wallet _ _ _ w1) as [e2 w2].
    pose proof (fetchData_form (Some u) (close_form s) w2) as F. unfold eval in F.
    destruct (fetchData (Some u) (close_form s) w2) as [s' w3].
    cbn [fst ret set_loading modalVisible amount recipient description loading close_form] in *.
    destruct F as (F1 & F2 & F3 & F4 & _). repeat split; assumption.
Qed.

Lemma give_button_agrees_with_handleSpend_witness :
  let s := give_form thrifty_wallet "20.00" in
  give_disabled s = true /\
  handleSpend (Some alice) s (with_wallet thrifty_wallet) = (s, with_wallet thrifty_wallet).
Proof.
  assert (D : give_disabled (give_form thrifty_wallet "20.00") = true)
    by (vm_compute; reflexivity).
  split; [exact D |].
  exact (proj1 (give_button_agrees_with_handleSpend (Some alice)
                  (give_form thrifty_wallet "20.00") (with_wallet thrifty_wallet)) D).
Defined.

Lemma to_integer_out_of_range (z : Z) : int4 z = false -> to_integer (of_Z z) = None.
Proof.
  intros H. unfold to_integer, of_Z. rewrite Qfloor_Z, Qeq_bool_refl, H. reflexivity.
Qed.

(** X8.  A spend is two separate writes, and neither is undone when the
    other fails: when the amount passes the balance check but the new
    spent-this-month (or the new balance) no longer fits the integer column,
    the wallet update is refused as a whole while the transaction that was
    inserted before it (its recipient and description being texts the store
    takes) stays recorded, so the treat is on the list and the wallet has not
    been charged. *)
Theorem refused_wallet_update_keeps_the_treat user s wl a w :
  wallet s = Some wl ->
  nonempty (amount s) = true -> nonempty (recipient s) = true ->
  inCents (amount s) = of_Z a ->
  (a <= balance_of wl)%Z -> int4 a = true ->
  is_text (recipient s) = true -> is_text (description s) = true ->
  int4 (balance_of wl) = true -> int4 (spent_of wl) = true ->
  int4 (balance_of wl - a) = false \/ int4 (spent_of wl + a) = false ->
  let w' := exec (handleSpend (Some user) s) w in
  Store.transactions w' = (Store.transactions w ++ [treat_row user s a w])%list /\
  treat_wallet w' = treat_wallet w.
Proof.
  intros Hw Ha Hr Hc Hle Ia Tr Td Ib It Hout w'.
  subst w'. unfold exec at 1 2.
  rewrite (TreatFacts.handleSpend_passes user s wl a w Hw Ha Hr Hc Hle).
  cbv zeta. cbn [snd].
  apply TreatFacts.int4_bounds in Ia, Ib, It.
  rewrite sub_Z by (change (2 ^ 53)%Z with 9007199254740992%Z; lia).
  rewrite add_Z by (change (2 ^ 53)%Z with 9007199254740992%Z; lia).
  set (w1 := exec (insert_transaction _) w).
  assert (Eu : exec (update_wallet (id user) (of_Z (balance_of wl - a))
                       (of_Z (spent_of wl + a))) w1 = w1).
  { unfold exec, update_wallet. destruct Hout as [H | H].
    - rewrite (to_integer_out_of_range _ H). reflexivity.
    - rewrite (to_integer_out_of_range _ H).
      destruct (to_integer (of_Z (balance_of wl - a))); reflexivity. }
  rewrite Eu. subst w1. split.
  - unfold exec, insert_transaction.
    cbn [ti_amount ti_transaction_type ti_merchant ti_description].
    rewrite (TreatFacts.to_integer_Z a), Tr, Td; [reflexivity |].
    apply TreatFacts.int4_bounds. exact Ia.
  - apply TreatFacts.insert_transaction_wallets.
Qed.

Lemma refused_wallet_update_keeps_the_treat_witness :
  let wl := {| tw_user_id := 7%N; tw_current_balance := Some 100000%Z;
               tw_monthly_budget := Some 5000%Z;
               tw_total_spent_this_month := Some 2147483000%Z |} in
  let w' := exec (handleSpend (Some alice) (give_form wl "25.00")) (with_wallet wl) in
  Store.transactions w'
  = (Store.transactions (with_wallet wl)
     ++ [treat_row alice (give_form wl "25.00") 2500 (with_wallet wl)])%list /\
  treat_wallet w' = treat_wallet (with_wallet wl).
Proof.
  exact (refused_wallet_update_keeps_the_treat alice
           (give_form {| tw_user_id := 7%N; tw_current_balance := Some 100000%Z;
                         tw_monthly_budget := Some 5000%Z;
                         tw_total_spent_this_month := Some 2147483000%Z |} "25.00")
           {| tw_user_id := 7%N; tw_current_balance := Some 100000%Z;
              tw_monthly_budget := Some 5000%Z;
              tw_total_spent_this_month := Some 2147483000%Z |}
           2500
           (with_wallet {| tw_user_id := 7%N; tw_current_balance := Some 100000%Z;
                           tw_monthly_budget := Some 5000%Z;
                           tw_total_spent_this_month := Some 2147483000%Z |})
           eq_refl eq_refl eq_refl ltac:(vm_compute; reflexivity)
           ltac:(vm_compute; discriminate) eq_refl eq_refl eq_refl eq_refl eq_refl
           (or_intror eq_refl)).
Defined.

End TreatSessionFacts.

(** ** Onboarding: what the setup writes, and what it leaves alone *)

Module SetupFacts.
Import JS JSString Store Onboarding OnboardingForm JSFacts.
Import Spec Terms Fixture.
Import OnboardingFacts.

Lemma insert_budget_category_profiles p w :
  profiles (exec (insert_budget_category p) w) = profiles w.
Proof.
  unfold exec, insert_budget_category.
  destruct (to_integer (bci_allocation_percentage p)); [| reflexivity].
  destruct (to_integer (bci_current_balance p)); [| reflexivity].
  match goal with |- context [if ?c then _ else _] => destruct c end; reflexivity.
Qed.

(** The loop of [handleComplete] leaves the profiles alone. *)
Lemma handleComplete_profiles user h s w :
  profiles (exec (handleComplete (Some user) h s) w)
  = profiles (exec (update_profile_onboarding (id user) (inCents (monthlyIncome s))) w).
Proof.
  unfold handleComplete. rewrite exec_bind.
  set (w1 := exec (update_profile_onboarding _ _) w).
  rewrite exec_bind. cbn [exec ret snd]. fold (exec (A := unit)).
  apply (for_of_invariant (fun w' => profiles w' = profiles w1)); [| reflexivity].
  intros category w2 Hw2. rewrite exec_bind.
  assert (Es : exec (select_category_id (id user) (type category)) w2 = w2) by reflexivity.
  rewrite Es.
  destruct (eval (select_category_id (id user) (type category)) w2) as [cid |].
  - exact Hw2.
  - rewrite exec_bind. rewrite exec_bind. cbn [exec ret snd].
    unfold exec at 1. rewrite insert_income_split_unlinked. cbn [snd].
    rewrite insert_budget_category_profiles. exact Hw2.
Qed.

Lemma select_profile_mapped uid (upd : profiles_row -> profiles_row) w w' :
  profiles w' = map (fun r => if N.eqb (p_user_id r) uid then upd r else r) (profiles w) ->
  (forall r, p_user_id (upd r) = p_user_id r) ->
  fst (select_profile uid w') = option_map upd (fst (select_profile uid w)).
Proof.
  intros E Hu. unfold select_profile. cbn [fst]. rewrite E.
  rewrite TreatFacts.filter_map_commute.
  - rewrite TreatFacts.maybeSingle_map.
    destruct (filter (fun r => N.eqb (p_user_id r) uid) (profiles w))
      as [| x [| y l]] eqn:F; try reflexivity.
    cbn [maybeSingle option_map].
    assert (I : In x (filter (fun r => N.eqb (p_user_id r) uid) (profiles w))).
    { rewrite F. left. reflexivity. }
    apply filter_In in I. destruct I as [_ I]. rewrite I. reflexivity.
  - intros r. destruct (N.eqb (p_user_id r) uid) eqn:Er; [| exact Er].
    rewrite Hu. exact Er.
Qed.

(** X9.  An income text in which [parseFloat] finds no number does not
    disable "Next" (no comparison with NaN holds), and completing the setup
    with it marks the onboarding as completed while leaving the stored
    monthly income absent. *)
Theorem unreadable_income_completes_setup user h s w row :
  nonempty (monthlyIncome s) = true ->
  parseFloat (monthlyIncome s) = NaN ->
  fst (select_profile (id user) w) = Some row ->
  next_disabled s = false /\ step (press_Next s) = 2 /\
  fst (select_profile (id user) (exec (handleComplete (Some user) h s) w))
  = Some {| p_user_id := p_user_id row; p_monthly_income := None;
            p_onboarding_completed := true;
            p_impulse_blocker_enabled := p_impulse_blocker_enabled row;
            p_show_total_balance := p_show_total_balance row |}.
Proof.
  intros Hn Hp Hsel.
  assert (D : next_disabled s = false).
  { unfold next_disabled. rewrite Hn, Hp. reflexivity. }
  split; [exact D |]. split.
  { unfold press_Next. rewrite D. reflexivity. }
  rewrite (select_profile_mapped (id user)
             (fun r => {| p_user_id := p_user_id r; p_monthly_income := None;
                          p_onboarding_completed := true;
                          p_impulse_blocker_enabled := p_impulse_blocker_enabled r;
                          p_show_total_balance := p_show_total_balance r |}) w).
  - rewrite Hsel. reflexivity.
  - rewrite handleComplete_profiles.
    unfold inCents. rewrite Hp. reflexivity.
  - reflexivity.
Qed.

Lemma unreadable_income_completes_setup_witness :
  let s := {| step := 1; monthlyIncome := str "five thousand";
              categories := DEFAULT_CATEGORIES; loading := false |} in
  next_disabled s = false /\
  map (fun r => (p_monthly_income r, p_onboarding_completed r))
      (profiles (exec (handleComplete (Some alice) initial_heap s) fresh))
  = [(None, true)].
Proof.
  destruct (unreadable_income_completes_setup alice initial_heap
              {| step := 1; monthlyIncome := str "five thousand";
                 categories := DEFAULT_CATEGORIES; loading := false |}
              fresh alice_profile eq_refl eq_refl eq_refl) as (H1 & _).
  split; [exact H1 | vm_compute; reflexivity].
Defined.

Lemma set_percentage_static (h : heap) (r : ref) (p : number) :
  map (fun c => (type c, name c, color c)) (set_percentage h r p)
  = map (fun c => (type c, name c, color c)) h.
Proof.
  revert r. induction h as [| c h IH]; intros r; [reflexivity |].
  destruct r; simpl; [reflexivity | rewrite IH; reflexivity].
Qed.

(** Editing percentages changes nothing else about the five categories. *)
Lemma reachable_static h s :
  reachable h s ->
  map (fun c => (type c, name c, color c)) h
  = map (fun c => (type c, name c, color c)) initial_heap.
Proof.
  induction 1 as [| h s _ IH | h s v _ IH | h s _ IH | h s index value h' s' _ IH Hc];
    try assumption; [reflexivity |].
  destruct (handlePercentageChange_spec _ _ _ _ _ _ Hc) as (r & z & _ & _ & -> & _).
  rewrite set_percentage_static. exact IH.
Qed.

(** The loop of [handleComplete], over categories none of which the user
    has yet: one budget category each, and nothing else. *)
Lemma for_of_creates (uid : uuid) (cs : list Category) (zs : list Z) (w : World) :
  map percentage cs = map of_Z zs ->
  Forall (fun z => (0 <= z <= 100)%Z) zs ->
  Forall (fun c => mem (type c) category_types = true) cs ->
  NoDup (map type cs) ->
  (forall r, In r (budget_categories w) -> bc_user_id r = uid ->
             ~ In (bc_category_type r) (map type cs)) ->
  exists rows,
    map category_fields rows = map (created_fields uid) (combine cs zs) /\
    exec (for_of cs (fun category =>
            bind (select_category_id uid (type category)) (fun existingCategory =>
              match existingCategory with
              | Some _ => ret tt
              | None =>
                  bind (insert_budget_category
                          {| bci_user_id := uid;
                             bci_category_name := name category;
                             bci_category_type := type category;
                             bci_allocation_percentage := percentage category;
                             bci_current_balance := of_Z 0;
                             bci_color_code := color category |}) (fun _ =>
                  bind (insert_income_split
                          {| isi_user_id := uid;
                             isi_category_id := existingCategory;
                             isi_split_percentage := percentage category |}) (fun _ =>
                  ret tt))
              end))) w
    = {| now := now w;
         next_uuid := (next_uuid w + N.of_nat (List.length cs))%N;
         profiles := profiles w;
         budget_categories := budget_categories w ++ rows;
         income_splits := income_splits w;
         Store.transactions := Store.transactions w;
         locked_savings := locked_savings w;
         treat_wallet := treat_wallet w |}.
Proof.
  revert zs w. induction cs as [| c cs IH]; intros zs w E Fz Fc Nd Hw.
  - exists []. split; [reflexivity |].
    destruct w. cbn. rewrite N.add_0_r, app_nil_r. reflexivity.
  - destruct zs as [| z zs]; [discriminate |].
    cbn [map] in E. injection E as Ec E.
    inversion Fz as [| ? ? Hz Fz']; subst.
    inversion Fc as [| ? ? Hc Fc']; subst.
    cbn [map] in Nd. inversion Nd as [| ? ? Hnin Nd']; subst.
    cbn [for_of].
    match goal with |- context [for_of cs ?b] => set (body := b) in * end.
    assert (Hsel : forall r, In r (budget_categories w) ->
                             N.eqb (bc_user_id r) uid && String.eqb (bc_category_type r) (type c)
                             = false).
    { intros r Hr. destruct (N.eqb (bc_user_id r) uid) eqn:Eu; [| reflexivity].
      apply N.eqb_eq in Eu. cbn [andb]. apply String.eqb_neq. intros Et.
      apply (Hw r Hr Eu). left. symmetry. exact Et. }
    assert (Hf : filter (fun r => N.eqb (bc_user_id r) uid
                                  && String.eqb (bc_category_type r) (type c))
                        (budget_categories w) = []).
    { clear - Hsel. induction (budget_categories w) as [| r l IHl]; [reflexivity |].
      simpl. rewrite Hsel by (left; reflexivity). apply IHl.
      intros r' Hr'. apply Hsel. right. exact Hr'. }
    assert (He : existsb (fun r => N.eqb (bc_user_id r) uid
                                   && String.eqb (bc_category_type r) (type c))
                         (budget_categories w) = false).
    { clear - Hsel. induction (budget_categories w) as [| r l IHl]; [reflexivity |].
      simpl. rewrite Hsel by (left; reflexivity). apply IHl.
      intros r' Hr'. apply Hsel. right. exact Hr'. }
    set (row := {| bc_id := next_uuid w; bc_user_id := uid;
                   bc_category_name := name c; bc_category_type := type c;
                   bc_allocation_percentage := Some z;
                   bc_current_balance := Some 0;
                   bc_color_code := color c |}).
    assert (Hb : exec (body c) w
                 = {| now := now w; next_uuid := N.succ (next_uuid w);
                      profiles := profiles w;
                      budget_categories := budget_categories w ++ [row];
                      income_splits := income_splits w;
                      Store.transactions := Store.transactions w;
                      locked_savings := locked_savings w;
                      treat_wallet := treat_wallet w |}).
    { unfold body, exec, bind, select_category_id. rewrite Hf.
      cbn [maybeSingle option_map].
      unfold insert_budget_category.
      cbn [bci_allocation_percentage bci_current_balance bci_category_type bci_user_id
           bci_category_name bci_color_code].
      rewrite Ec.
      rewrite (TreatFacts.to_integer_Z z) by (apply TreatFacts.int4_bounds; lia).
      rewrite (TreatFacts.to_integer_Z 0) by reflexivity.
      rewrite Hc, He.
      assert (Hk : check_percentage (Some z) = true).
      { unfold check_percentage. apply andb_true_iff. split; apply Z.leb_le; lia. }
      rewrite Hk. reflexivity. }
    destruct (IH zs (exec (body c) w) E Fz' Fc' Nd') as (rows & Hrows & Hrun).
    + rewrite Hb. cbn [budget_categories]. intros r Hr Hu Hin.
      apply in_app_or in Hr. destruct Hr as [Hr | [<- | []]].
      * apply (Hw r Hr Hu). right. exact Hin.
      * cbn [row bc_category_type] in Hin. contradiction.
    + exists (row :: rows). split.
      * cbn [map combine]. rewrite Hrows. reflexivity.
      * rewrite exec_bind.
        match goal with |- exec _ ?x = _ => change x with (exec (body c) w) end.
        cbv beta. rewrite Hrun, Hb.
        cbn [now next_uuid profiles budget_categories income_splits Store.transactions
             locked_savings treat_wallet List.length].
        rewrite <- app_assoc. cbn [app]. f_equal. lia.
Qed.

(** The store after the setup of a user who has no budget category yet. *)
Lemma handleComplete_new_user user h s w zs :
  reachable h s ->
  (forall r, In r (budget_categories w) -> bc_user_id r <> id user) ->
  map percentage h = map of_Z zs ->
  Forall (fun z => (0 <= z <= 100)%Z) zs ->
  map type h = category_types /\
  objects h (categories s) = h /\
  exists rows,
    map category_fields rows = map (created_fields (id user)) (combine h zs) /\
    exec (handleComplete (Some user) h s) w
    = (let w1 := exec (update_profile_onboarding (id user) (inCents (monthlyIncome s))) w in
       {| now := now w;
          next_uuid := (next_uuid w + 5)%N;
          profiles := profiles w1;
          budget_categories := budget_categories w ++ rows;
          income_splits := income_splits w;
          Store.transactions := Store.transactions w;
          locked_savings := locked_savings w;
          treat_wallet := treat_wallet w |}).
Proof.
  intros R Hnew E F.
  destruct (reachable_ok h s R) as [[Hl Hf] Hc].
  pose proof (reachable_static h s R) as St.
  assert (Ty : map type h = category_types).
  { transitivity (map (fun p : string * string * string => fst (fst p))
                      (map (fun c => (type c, name c, color c)) h)).
    - rewrite map_map. reflexivity.
    - rewrite St. reflexivity. }
  split; [exact Ty |].
  split; [rewrite Hc; apply objects_default, Hl |].
  unfold handleComplete.
  set (w1 := exec (update_profile_onboarding (id user) (inCents (monthlyIncome s))) w).
  assert (B1 : budget_categories w1 = budget_categories w /\
               income_splits w1 = income_splits w /\
               next_uuid w1 = next_uuid w /\ now w1 = now w /\
               Store.transactions w1 = Store.transactions w /\
               locked_savings w1 = locked_savings w /\
               treat_wallet w1 = treat_wallet w).
  { subst w1. unfold exec, update_profile_onboarding.
    destruct (to_integer _); repeat split. }
  destruct B1 as (B1 & B2 & B3 & B4 & B5 & B6 & B7).
  destruct (for_of_creates (id user) h zs w1 E F) as (rows & Hrows & Hrun).
  - apply Forall_forall. intros c Hin.
    assert (Ht : In (type c) (map type h)) by (apply in_map; exact Hin).
    rewrite Ty in Ht.
    unfold category_types in Ht. cbn in Ht.
    destruct Ht as [<- | [<- | [<- | [<- | [<- | []]]]]]; reflexivity.
  - rewrite Ty. unfold category_types.
    repeat constructor; simpl; intuition discriminate.
  - rewrite B1. intros r Hr Hu _. exact (Hnew r Hr Hu).
  - exists rows. split; [exact Hrows |].
    rewrite exec_bind. cbv zeta. fold w1.
    rewrite exec_bind. cbn [exec ret snd]. fold (exec (A := unit)).
    rewrite Hc, (objects_default h Hl).
    rewrite Hrun, B1, B2, B3, B4, B5, B6, B7, Hl. reflexivity.
Qed.

(** X10.  For a user who has no budget category yet, completing the setup
    from any state the screen can reach creates exactly five budget
    categories, one per type in the order bills, goals, daily, freedom,
    emergency, each for this user, with the name and colour of the category,
    the percentage shown on the screen and a balance of 0, and creates no
    income split. *)
Theorem setup_creates_the_five_categories user h s w :
  reachable h s ->
  (forall r, In r (budget_categories w) -> bc_user_id r <> id user) ->
  exists zs rows,
    map percentage (objects h (categories s)) = map of_Z zs /\
    Forall (fun z => (0 <= z <= 100)%Z) zs /\
    map type (objects h (categories s)) = category_types /\
    let w' := exec (handleComplete (Some user) h s) w in
    budget_categories w' = budget_categories w ++ rows /\
    map category_fields rows
    = map (created_fields (id user)) (combine (objects h (categories s)) zs) /\
    map bc_category_type rows = category_types /\
    List.length (budget_categories w') = (List.length (budget_categories w) + 5)%nat /\
    income_splits w' = income_splits w.
Proof.
  intros R Hnew.
  destruct (reachable_ok h s R) as [[Hl Hf] Hc].
  destruct (percentages_integers h Hf) as (zs & E & F & L).
  destruct (handleComplete_new_user user h s w zs R Hnew E F)
    as (Ty & Ho & rows & Hrows & Hrun).
  rewrite Ho. exists zs, rows.
  split; [exact E |]. split; [exact F |]. split; [exact Ty |].
  cbv zeta. rewrite Hrun. cbv zeta. cbn [budget_categories income_splits].
  destruct h as [| c0 [| c1 [| c2 [| c3 [| c4 [| c5 h]]]]]]; try discriminate.
  destruct zs as [| z0 [| z1 [| z2 [| z3 [| z4 [| z5 zs]]]]]]; try discriminate.
  destruct rows as [| r0 [| r1 [| r2 [| r3 [| r4 [| r5 rows]]]]]]; try discriminate.
  split; [reflexivity |]. split; [exact Hrows |].
  split; [| split; [rewrite length_app; reflexivity | reflexivity]].
  cbn [map combine] in Hrows. unfold category_fields, created_fields in Hrows.
  cbn [fst snd] in Hrows. cbn [map] in Ty. cbn [map].
  injection Hrows as _ _ T0 _ _ _ _ _ T1 _ _ _ _ _ T2 _ _ _ _ _ T3 _ _ _ _ _ T4 _ _ _.
  rewrite T0, T1, T2, T3, T4. exact Ty.
Qed.

Lemma setup_creates_the_five_categories_witness :
  let h := set_percentage initial_heap 0%nat (of_Z 45) in
  exists zs rows,
    map percentage (objects h (categories mount)) = map of_Z zs /\
    Forall (fun z => (0 <= z <= 100)%Z) zs /\
    map type (objects h (categories mount)) = category_types /\
    let w' := exec (handleComplete (Some alice) h mount) fresh in
    budget_categories w' = budget_categories fresh ++ rows /\
    map category_fields rows
    = map (created_fields (id alice)) (combine (objects h (categories mount)) zs) /\
    map bc_category_type rows = category_types /\
    List.length (budget_categories w') = (List.length (budget_categories fresh) + 5)%nat /\
    income_splits w' = income_splits fresh.
Proof.
  assert (R : reachable (set_percentage initial_heap 0%nat (of_Z 45)) mount).
  { eapply reach_remount.
    apply (reach_percentage initial_heap mount 0%nat (str "45")).
    - apply reach_mount.
    - vm_compute. reflexivity. }
  exact (setup_creates_the_five_categories alice _ mount fresh R
           (fun r (H : In r []) => match H with end)).
Defined.

Lemma insert_budget_category_appends p w :
  exists added,
    budget_categories (exec (insert_budget_category p) w) = budget_categories w ++ added.
Proof.
  unfold exec, insert_budget_category.
  destruct (to_integer (bci_allocation_percentage p));
    [| exists []; rewrite app_nil_r; reflexivity].
  destruct (to_integer (bci_current_balance p));
    [| exists []; rewrite app_nil_r; reflexivity].
  match goal with |- context [if ?c then _ else _] => destruct c end.
  - eexists. reflexivity.
  - exists []. rewrite app_nil_r. reflexivity.
Qed.

(** A loop whose every turn finds the category it looks for writes nothing. *)
Lemma for_of_finds (uid : uuid) (cs : list Category) (w : World)
    (create : Category -> option uuid -> Request unit) :
  (forall c, In c cs -> exists cid, eval (select_category_id uid (type c)) w = Some cid) ->
  exec (for_of cs (fun category =>
          bind (select_category_id uid (type category)) (fun existingCategory =>
            match existingCategory with
            | Some _ => ret tt
            | None => create category existingCategory
            end))) w
  = w.
Proof.
  induction cs as [| c cs IH]; intros H; [reflexivity |].
  cbn [for_of]. rewrite exec_bind. rewrite exec_bind.
  assert (Es : exec (select_category_id uid (type c)) w = w) by reflexivity.
  rewrite Es. destruct (H c (or_introl eq_refl)) as (cid & ->).
  cbn [exec ret snd]. fold (exec (A := unit)).
  apply IH. intros c' Hc'. apply H. right. exact Hc'.
Qed.

(** X11.  Completing the setup never removes or alters a stored budget
    category: the rows present before are still there, in place, and rows
    are only added after them.  When the user already has a category of each
    type on the screen, nothing is added either: setting up again with other
    percentages leaves the stored allocations as they were. *)
Theorem setup_never_alters_stored_categories user h s w :
  (exists added,
      budget_categories (exec (handleComplete (Some user) h s) w)
      = budget_categories w ++ added) /\
  ((forall c, In c (objects h (categories s)) ->
              exists cid, eval (select_category_id (id user) (type c)) w = Some cid) ->
   budget_categories (exec (handleComplete (Some user) h s) w) = budget_categories w).
Proof.
  set (w1 := exec (update_profile_onboarding (id user) (inCents (monthlyIncome s))) w).
  assert (B1 : budget_categories w1 = budget_categories w).
  { subst w1. unfold exec, update_profile_onboarding. destruct (to_integer _); reflexivity. }
  split.
  - unfold handleComplete. rewrite exec_bind. fold w1.
    rewrite exec_bind. cbn [exec ret snd]. fold (exec (A := unit)).
    rewrite <- B1.
    apply (for_of_invariant
             (fun w' => exists added, budget_categories w' = budget_categories w1 ++ added)).
    + intros category w2 (added & Hw2). rewrite exec_bind.
      assert (Es : exec (select_category_id (id user) (type category)) w2 = w2) by reflexivity.
      rewrite Es.
      destruct (eval (select_category_id (id user) (type category)) w2) as [cid |].
      * exists added. exact Hw2.
      * rewrite exec_bind. rewrite exec_bind. cbn [exec ret snd].
        unfold exec at 1. rewrite insert_income_split_unlinked. cbn [snd].
        match goal with
        | |- context [exec (insert_budget_category ?p) w2] =>
            destruct (insert_budget_category_appends p w2) as (more & ->)
        end.
        exists (added ++ more). rewrite Hw2, app_assoc. reflexivity.
    + exists []. rewrite app_nil_r. reflexivity.
  - intros Hall. unfold handleComplete. rewrite exec_bind. fold w1.
    rewrite exec_bind. cbn [exec ret snd]. fold (exec (A := unit)).
    rewrite <- B1. f_equal.
    apply (for_of_finds (id user) (objects h (categories s)) w1).
    intros c Hc. destruct (Hall c Hc) as (cid & E). exists cid.
    unfold eval, select_category_id in *. cbn [fst] in *. rewrite B1. exact E.
Qed.

Lemma setup_never_alters_stored_categories_witness :
  let w := exec (handleComplete (Some alice) initial_heap onboarding_form) fresh in
  let h := set_percentage initial_heap 0%nat (of_Z 45) in
  budget_categories (exec (handleComplete (Some alice) h onboarding_form) w)
  = budget_categories w.
Proof.
  apply (proj2 (setup_never_alters_stored_categories alice
                  (set_percentage initial_heap 0%nat (of_Z 45)) onboarding_form
                  (exec (handleComplete (Some alice) initial_heap onboarding_form) fresh))).
  intros c Hc. vm_compute in Hc.
  destruct Hc as [<- | [<- | [<- | [<- | [<- | []]]]]];
    eexists; vm_compute; reflexivity.
Defined.

(** X12.  An edit of a percentage field writes the clamped value into the
    category object itself, which the literal [DEFAULT_CATEGORIES] shares
    with the screen: a screen mounted afresh afterwards shows the edited
    value for that category and the values from before for the other four,
    and the types, names and colours are never touched. *)
Theorem percentage_edit_outlives_the_screen h s index value :
  reachable h s -> (index < 5)%nat ->
  exists h' s',
    handlePercentageChange h s index value = Some (h', s') /\
    reachable h' mount /\
    (forall j,
        nth_error (map percentage (objects h' (categories mount))) j
        = if Nat.eqb j index then Some (clamp (parseInt value))
          else nth_error (map percentage (objects h (categories mount))) j) /\
    map (fun c => (type c, name c, color c)) (objects h' (categories mount))
    = map (fun c => (type c, name c, color c)) (objects initial_heap DEFAULT_CATEGORIES).
Proof.
  intros R Hi.
  destruct (reachable_ok h s R) as [[Hl Hf] Hc].
  assert (Hn : nth_error (categories s) index = Some index).
  { rewrite Hc. destruct index as [| [| [| [| [| index]]]]]; try reflexivity. lia. }
  assert (E : handlePercentageChange h s index value
              = Some (set_percentage h index (clamp (parseInt value)),
                      {| step := step s; monthlyIncome := monthlyIncome s;
                         categories := categories s; loading := loading s |})).
  { unfold handlePercentageChange. cbv zeta. rewrite Hn. reflexivity. }
  eexists. eexists. split; [exact E |].
  assert (R' : reachable (set_percentage h index (clamp (parseInt value))) mount).
  { eapply reach_remount. eapply reach_percentage; [exact R | exact E]. }
  split; [exact R' |].
  assert (Hl' : List.length (set_percentage h index (clamp (parseInt value))) = 5%nat).
  { rewrite set_percentage_length. exact Hl. }
  change (categories mount) with DEFAULT_CATEGORIES.
  rewrite (objects_default _ Hl'), (objects_default h Hl). split.
  - intros j. apply nth_error_set_percentage. lia.
  - rewrite set_percentage_static. apply (reachable_static h s R).
Qed.

Lemma percentage_edit_outlives_the_screen_witness :
  exists h' s',
    handlePercentageChange initial_heap mount 2 (str "40%") = Some (h', s') /\
    reachable h' mount /\
    (forall j,
        nth_error (map percentage (objects h' (categories mount))) j
        = if Nat.eqb j 2 then Some (clamp (parseInt (str "40%")))
          else nth_error (map percentage (objects initial_heap (categories mount))) j) /\
    map (fun c => (type c, name c, color c)) (objects h' (categories mount))
    = map (fun c => (type c, name c, color c)) (objects initial_heap DEFAULT_CATEGORIES).
Proof.
  apply (percentage_edit_outlives_the_screen initial_heap mount 2 (str "40%")).
  - apply reach_mount.
  - lia.
Defined.

End SetupFacts.

(** ** Cents: rounding of entered amounts, and the texts of amounts *)

Module CentsFacts.
Import JS JSString Store JSFacts.
Import Spec Terms Fixture.

Local Open Scope Q_scope.

(** Absolute error of rounding below [2^K]. *)
Lemma round_pos_abs (a : Q) (K : Z) :
  (-1022 <= K <= 1023)%Z -> 0 < a -> a <= two ^ K ->
  exists y, round_pos a = Num y /\ 0 <= y /\
            a - two ^ (K - 53) <= y /\ y <= a + two ^ (K - 53).
Proof.
  intros HK Ha Hle.
  destruct (round_pos_half_ulp a Ha) as (H1 & H2 & H3).
  assert (He : (ulp_exp a - 1 <= K - 53)%Z).
  { unfold ulp_exp.
    destruct (Qlt_le_dec a (two ^ K)) as [L | L].
    - pose proof (ilog2_lt a K Ha L). lia.
    - assert (Ea : a == two ^ K) by lra.
      destruct (ilog2_spec a Ha) as [I1 I2].
      destruct (Z_lt_le_dec K (ilog2 a)) as [C | C].
      + assert (C' : (K + 1 <= ilog2 a)%Z) by lia.
        pose proof (two_pow_mono _ _ C'). pose proof (two_pow_succ K).
        pose proof (two_pow_pos K). lra.
      + lia. }
  pose proof (two_pow_mono _ _ He) as Hm.
  assert (Eh : two ^ ulp_exp a * (1 # 2) == two ^ (ulp_exp a - 1)).
  { replace (ulp_exp a) with (ulp_exp a - 1 + 1)%Z at 1 by lia.
    rewrite two_pow_succ. field. }
  unfold round_pos.
  set (t := two ^ ulp_exp a) in *.
  set (v := inject_Z (nearest_even (a / t)) * t) in *.
  assert (B1 : a - two ^ (K - 53) <= v) by lra.
  assert (B2 : v <= a + two ^ (K - 53)) by lra.
  assert (E : Qle_bool (two ^ 1024) v = false).
  { apply OnboardingFacts.Qle_bool_false.
    assert (M1 : two ^ K <= two ^ 1023) by (apply two_pow_mono; lia).
    assert (M2 : two ^ (K - 53) <= two ^ 1023) by (apply two_pow_mono; lia).
    pose proof (two_pow_succ 1023) as S. change (1023 + 1)%Z with 1024%Z in S.
    pose proof (two_pow_pos 1023).
    assert (M3 : two ^ (K - 53) < two ^ 1023).
    { assert (M4 : two ^ (K - 53 + 1) <= two ^ 1023) by (apply two_pow_mono; lia).
      pose proof (two_pow_succ (K - 53)). pose proof (two_pow_pos (K - 53)). lra. }
    lra. }
  rewrite E. exists (Qred v). split; [reflexivity |].
  rewrite Qred_correct. repeat split; assumption.
Qed.

(** The same for either sign, zero included. *)
Lemma to_double_abs (a : Q) (K : Z) :
  (-1022 <= K <= 1023)%Z -> Qabs a <= two ^ K ->
  exists y, to_double a = Num y /\
            a - two ^ (K - 53) <= y /\ y <= a + two ^ (K - 53) /\
            (0 <= a -> 0 <= y) /\ (a <= 0 -> y <= 0).
Proof.
  intros HK Ha. pose proof (two_pow_pos (K - 53)) as T.
  destruct (Q_dec a 0) as [[Hn | Hp] | Hz].
  - rewrite (to_double_neg a Hn).
    rewrite Qabs_neg in Ha by lra.
    destruct (round_pos_abs (- a) K HK ltac:(lra) Ha) as (y & E & Y0 & Y1 & Y2).
    rewrite E. cbn [neg]. exists (Qred (- y)). split; [reflexivity |].
    rewrite Qred_correct. repeat split; lra.
  - rewrite (to_double_pos a Hp).
    rewrite Qabs_pos in Ha by lra.
    destruct (round_pos_abs a K HK Hp Ha) as (y & E & Y0 & Y1 & Y2).
    exists y. split; [exact E |]. repeat split; lra.
  - rewrite (to_double_zero a Hz). exists 0. split; [reflexivity |].
    repeat split; lra.
Qed.

Lemma two_pow_25 : two ^ 25 == 33554432. Proof. reflexivity. Qed.
Lemma two_pow_32 : two ^ 32 == 4294967296. Proof. reflexivity. Qed.
Lemma two_pow_m28 : two ^ (25 - 53) == 1 # 268435456. Proof. reflexivity. Qed.
Lemma two_pow_m21 : two ^ (32 - 53) == 1 # 2097152. Proof. reflexivity. Qed.

(** X13.  [Math.round(parseFloat(value) * 100)] turns every amount of
    magnitude up to 21474836.48, of either sign and with any number of
    decimals, into a whole number of cents that fits the integer column or
    is 2147483648, and that is the amount rounded to the cent: it differs
    from 100 times the amount by at most half a cent and a millionth. *)
Theorem inCents_is_the_nearest_cent (s : jsstring) (q : Q) :
  StrDecimalLiteral s = lit_decimal q -> Qabs q <= 2147483648 # 100 ->
  exists d : Z,
    inCents s = of_Z d /\
    (- 2147483648 <= d <= 2147483648)%Z /\
    Qabs (inject_Z d - 100 * q) <= (1 # 2) + (1 # 1000000).
Proof.
  intros Hs Hq. unfold inCents, parseFloat. rewrite Hs.
  destruct (to_double_abs q 25 ltac:(lia)) as (x & Ex & X1 & X2 & _).
  { rewrite two_pow_25. lra. }
  rewrite two_pow_m28 in X1, X2.
  rewrite Ex. unfold mul, of_Z. change (inject_Z 100) with 100.
  assert (Hq' : - (2147483648 # 100) <= q <= 2147483648 # 100).
  { apply Qabs_Qle_condition. exact Hq. }
  destruct (to_double_abs (x * 100) 32 ltac:(lia)) as (y & Ey & Y1 & Y2 & _).
  { rewrite two_pow_32. apply Qabs_Qle_condition. lra. }
  rewrite two_pow_m21 in Y1, Y2.
  rewrite Ey. cbn [Math_round].
  exists (Qfloor (y + (1 # 2))). split; [reflexivity |].
  pose proof (Qfloor_le (y + (1 # 2))) as F1.
  pose proof (Qlt_floor (y + (1 # 2))) as F2.
  rewrite inject_Z_plus in F2. change (inject_Z 1) with 1 in F2.
  set (d := Qfloor (y + (1 # 2))) in *.
  split.
  - split.
    + assert (C : inject_Z (- 2147483648 - 1) < inject_Z d).
      { change (inject_Z (- 2147483648 - 1)) with (- 2147483649). lra. }
      rewrite <- Zlt_Qlt in C. lia.
    + assert (C : inject_Z d < inject_Z (2147483648 + 1)).
      { change (inject_Z (2147483648 + 1)) with 2147483649. lra. }
      rewrite <- Zlt_Qlt in C. lia.
  - apply Qabs_Qle_condition. lra.
Qed.

Lemma inCents_is_the_nearest_cent_witness :
  exists d : Z,
    inCents (str "-12.3456") = of_Z d /\
    (- 2147483648 <= d <= 2147483648)%Z /\
    Qabs (inject_Z d - 100 * (- (123456 # 10000))) <= (1 # 2) + (1 # 1000000).
Proof.
  apply (inCents_is_the_nearest_cent (str "-12.3456") (- (123456 # 10000))).
  - vm_compute. reflexivity.
  - vm_compute. discriminate.
Defined.

(** X14.  [formatCurrency] prints every value of an integer column
    exactly: the dollar sign, a minus sign when the cents are negative, and
    the magnitude in dollars with two decimals. *)
Theorem formatCurrency_prints_the_cents (d : Z) :
  (- 2147483648 <= d <= 2147483647)%Z ->
  Settings.formatCurrency (of_Z d)
  = Some (36%N :: (if (d <? 0)%Z then [45%N] else []) ++ fixed2_digits (Z.abs d)).
Proof.
  intros Hd. unfold Settings.formatCurrency, fromCents.
  assert (Ediv : div (of_Z d) (of_Z 100) = to_double (inject_Z d / 100)) by reflexivity.
  rewrite Ediv.
  assert (D1 : - 2147483648 <= inject_Z d).
  { change (- 2147483648) with (inject_Z (- 2147483648)). rewrite <- Zle_Qle. lia. }
  assert (D2 : inject_Z d <= 2147483647).
  { change 2147483647 with (inject_Z 2147483647). rewrite <- Zle_Qle. lia. }
  destruct (to_double_abs (inject_Z d / 100) 25 ltac:(lia)) as (x & Ex & X1 & X2 & X3 & X4).
  { rewrite two_pow_25. apply Qabs_Qle_condition.
    set (dd := inject_Z d) in *. split.
    - apply Qle_shift_div_l; lra.
    - apply Qle_shift_div_r; lra. }
  rewrite two_pow_m28 in X1, X2.
  rewrite Ex. unfold toFixed2.
  assert (Hq : 100 * (inject_Z d / 100) == inject_Z d) by field.
  set (q := inject_Z d / 100) in *.
  destruct (Z.ltb_spec d 0) as [Hneg | Hpos].
  - assert (D3 : inject_Z d <= - 1).
    { change (- 1) with (inject_Z (- 1)). rewrite <- Zle_Qle. lia. }
    assert (N : is_neg x = true).
    { unfold is_neg. rewrite OnboardingFacts.Qle_bool_false by lra. reflexivity. }
    rewrite N.
    assert (B : Qle_bool ((10 # 1) ^ 21) (- x) = false).
    { apply OnboardingFacts.Qle_bool_false.
      assert (T : (10 # 1) ^ 21 == 1000000000000000000000) by reflexivity.
      rewrite T. lra. }
    rewrite B.
    assert (F : Qfloor (- x * 100 + (1 # 2)) = Z.abs d).
    { apply Qfloor_unique.
      - rewrite Z.abs_neq by lia. rewrite inject_Z_opp. lra.
      - rewrite inject_Z_plus, Z.abs_neq by lia. rewrite inject_Z_opp.
        change (inject_Z 1) with 1. lra. }
    rewrite F. reflexivity.
  - assert (D3 : 0 <= inject_Z d).
    { change 0 with (inject_Z 0). rewrite <- Zle_Qle. lia. }
    assert (N : is_neg x = false).
    { unfold is_neg. rewrite OnboardingFacts.Qle_bool_true; [reflexivity |].
      apply X3. unfold q. apply Qle_shift_div_l; lra. }
    rewrite N.
    assert (B : Qle_bool ((10 # 1) ^ 21) x = false).
    { apply OnboardingFacts.Qle_bool_false.
      assert (T : (10 # 1) ^ 21 == 1000000000000000000000) by reflexivity.
      rewrite T. lra. }
    rewrite B.
    assert (F : Qfloor (x * 100 + (1 # 2)) = Z.abs d).
    { apply Qfloor_unique.
      - rewrite Z.abs_eq by lia. lra.
      - rewrite inject_Z_plus, Z.abs_eq by lia. change (inject_Z 1) with 1. lra. }
    rewrite F. reflexivity.
Qed.

Lemma formatCurrency_prints_the_cents_witness :
  Settings.formatCurrency (of_Z (- 5000)) = Some (str "$-50.00").
Proof.
  exact (formatCurrency_prints_the_cents (- 5000) ltac:(lia)).
Defined.

Local Open Scope Z_scope.

Lemma round_half_up_bounds (p : Z) :
  p mod 100 <> 50 ->
  100 * Spec.round_half_up p 100 + 1 <= p + 50 <= 100 * Spec.round_half_up p 100 + 99.
Proof.
  unfold Spec.round_half_up. intros H. Z.div_mod_to_equations. lia.
Qed.

Local Open Scope Q_scope.

(** X15.  The amount shown under a category on the second onboarding step
    is that category's share of the entered income, rounded to the cent: for
    an income of [d] cents and a percentage [z], it prints [d z / 100] cents
    rounded to the nearest whole cent, whenever that share is not exactly half
    a cent between two. *)
Theorem category_amount_is_the_rounded_share s c (q : Q) (d z : Z) :
  StrDecimalLiteral (Onboarding.monthlyIncome s) = lit_decimal q ->
  q == inject_Z d / 100 -> (0 <= d <= 2147483647)%Z ->
  Onboarding.percentage c = of_Z z -> (0 <= z <= 100)%Z ->
  ((d * z) mod 100 <> 50)%Z ->
  OnboardingForm.categoryAmount s c
  = Some (36%N :: fixed2_digits (Spec.round_half_up (d * z) 100)).
Proof.
  intros Hs Hq Hd Hc Hz Hh.
  unfold OnboardingForm.categoryAmount, parseFloat. rewrite Hs, Hc.
  assert (D1 : 0 <= inject_Z d).
  { change 0 with (inject_Z 0). rewrite <- Zle_Qle. lia. }
  assert (D2 : inject_Z d <= 2147483647).
  { change 2147483647 with (inject_Z 2147483647). rewrite <- Zle_Qle. lia. }
  assert (Z1 : 0 <= inject_Z z).
  { change 0 with (inject_Z 0). rewrite <- Zle_Qle. lia. }
  assert (Z2 : inject_Z z <= 100).
  { change 100 with (inject_Z 100). rewrite <- Zle_Qle. lia. }
  assert (Hq' : 100 * q == inject_Z d) by (rewrite Hq; field).
  destruct (to_double_abs q 25 ltac:(lia)) as (x & Ex & X1 & X2 & X3 & _).
  { rewrite two_pow_25. apply Qabs_Qle_condition. lra. }
  rewrite two_pow_m28 in X1, X2. specialize (X3 ltac:(lra)).
  rewrite Ex. unfold mul, of_Z.
  set (zz := inject_Z z) in *. set (dd := inject_Z d) in *.
  assert (P1 : (q - (1 # 268435456)) * zz <= x * zz) by (apply Qmult_le_compat_r; lra).
  assert (P2 : x * zz <= (q + (1 # 268435456)) * zz) by (apply Qmult_le_compat_r; lra).
  assert (P3 : 0 <= q * zz) by (apply Qmult_le_0_compat; lra).
  assert (P4 : q * zz <= q * 100).
  { rewrite (Qmult_comm q zz), (Qmult_comm q 100). apply Qmult_le_compat_r; lra. }
  assert (P5 : x * zz <= x * 100).
  { rewrite (Qmult_comm x zz), (Qmult_comm x 100). apply Qmult_le_compat_r; lra. }
  assert (P6 : 0 <= x * zz) by (apply Qmult_le_0_compat; lra).
  assert (E1 : (q - (1 # 268435456)) * zz == q * zz - (1 # 268435456) * zz) by ring.
  assert (E2 : (q + (1 # 268435456)) * zz == q * zz + (1 # 268435456) * zz) by ring.
  rewrite E1 in P1. rewrite E2 in P2. clear E1 E2.
  set (t := q * zz) in *. set (xz := x * zz) in *.
  destruct (to_double_abs xz 32 ltac:(lia)) as (y & Ey & Y1 & Y2 & Y3 & _).
  { rewrite two_pow_32. apply Qabs_Qle_condition. lra. }
  rewrite two_pow_m21 in Y1, Y2. specialize (Y3 P6).
  rewrite Ey. unfold div. change (is_zero (inject_Z 100)) with false. cbv iota.
  change (inject_Z 100) with 100.
  assert (Hy : 100 * (y / 100) == y) by field.
  set (y100 := y / 100) in *.
  destruct (to_double_abs y100 25 ltac:(lia)) as (v & Ev & V1 & V2 & V3 & _).
  { rewrite two_pow_25. apply Qabs_Qle_condition. lra. }
  rewrite two_pow_m28 in V1, V2. specialize (V3 ltac:(lra)).
  rewrite Ev. unfold toFixed2.
  assert (N : is_neg v = false).
  { unfold is_neg. rewrite OnboardingFacts.Qle_bool_true by exact V3. reflexivity. }
  rewrite N.
  assert (B : Qle_bool ((10 # 1) ^ 21) v = false).
  { apply OnboardingFacts.Qle_bool_false.
    assert (T : (10 # 1) ^ 21 == 1000000000000000000000) by reflexivity.
    rewrite T. lra. }
  rewrite B. cbn [app option_map].
  pose proof (round_half_up_bounds (d * z) Hh) as [R1 R2].
  rewrite Zle_Qle in R1, R2.
  rewrite !inject_Z_plus, !inject_Z_mult in R1, R2.
  change (inject_Z 100) with 100 in R1, R2. change (inject_Z 1) with 1 in R1.
  change (inject_Z 50) with 50 in R1, R2. change (inject_Z 99) with 99 in R2.
  fold dd zz in R1, R2.
  assert (Hdz : dd * zz == 100 * t).
  { unfold t. rewrite <- Hq'. ring. }
  rewrite Hdz in R1, R2.
  set (n := Spec.round_half_up (d * z) 100) in *.
  assert (F : Qfloor (v * 100 + (1 # 2)) = n).
  { apply Qfloor_unique.
    - lra.
    - rewrite inject_Z_plus. change (inject_Z 1) with 1. lra. }
  rewrite F. reflexivity.
Qed.

Lemma category_amount_is_the_rounded_share_witness :
  OnboardingForm.categoryAmount
    {| Onboarding.step := 2; Onboarding.monthlyIncome := str "1234.56";
       Onboarding.categories := Onboarding.DEFAULT_CATEGORIES; Onboarding.loading := false |}
    {| Onboarding.type := "bills"; Onboarding.name := "Bills";
       Onboarding.percentage := of_Z 30; Onboarding.color := "#FF6B6B" |}
  = Some (str "$370.37").
Proof.
  exact (category_amount_is_the_rounded_share
           {| Onboarding.step := 2; Onboarding.monthlyIncome := str "1234.56";
              Onboarding.categories := Onboarding.DEFAULT_CATEGORIES;
              Onboarding.loading := false |}
           {| Onboarding.type := "bills"; Onboarding.name := "Bills";
              Onboarding.percentage := of_Z 30; Onboarding.color := "#FF6B6B" |}
           (123456 # 100) 123456 30
           ltac:(vm_compute; reflexivity) ltac:(reflexivity) ltac:(lia)
           eq_refl ltac:(lia) ltac:(vm_compute; discriminate)).
Defined.

End CentsFacts.

(** ** Settings: what "Save Changes" stores and what it shows afterwards *)

Module SettingsFacts.
Import JS JSString Store Settings JSFacts.
Import Spec Terms Fixture.

(** [handleSave], step by step. *)
Lemma handleSave_run user sc w :
  handleSave (Some user) sc w
  = (let w1 := exec (update_profile_settings (id user) (inCents (monthlyIncome sc))
                       (impulseBlocker sc) (showBalance sc)) w in
     (match fst (select_profile (id user) w1) with
      | Some data =>
          {| profile := Some data;
             monthlyIncome :=
               match fromCents (of_integer (p_monthly_income data)) with
               | Some text => text
               | None => monthlyIncome sc
               end;
             impulseBlocker := p_impulse_blocker_enabled data;
             showBalance := p_show_total_balance data;
             loading := false |}
      | None =>
          {| profile := profile sc; monthlyIncome := monthlyIncome sc;
             impulseBlocker := impulseBlocker sc; showBalance := showBalance sc;
             loading := false |}
      end, w1)).
Proof.
  unfold handleSave, bind, exec.
  destruct (update_profile_settings _ _ _ _ w) as [e w1]. cbn [snd].
  unfold fetchProfile, bind, select_profile. cbn [fst].
  destruct (maybeSingle _); reflexivity.
Qed.

Lemma update_profile_settings_accepted uid x income blocker balance w :
  to_integer x = Some income ->
  exec (update_profile_settings uid x blocker balance) w
  = set_profiles w
      (map (fun r =>
              if N.eqb (p_user_id r) uid then
                {| p_user_id := p_user_id r; p_monthly_income := income;
                   p_onboarding_completed := p_onboarding_completed r;
                   p_impulse_blocker_enabled := blocker;
                   p_show_total_balance := balance |}
              else r)
           (profiles w)).
Proof. intros E. unfold exec, update_profile_settings. rewrite E. reflexivity. Qed.

(** X16.  "Save Changes" with an income the column accepts stores the
    income and both switches in the profile of the signed-in user and in no
    other row, keeps the profile's onboarding flag, leaves every other table
    alone, and the screen then shows the stored switches with [loading] off. *)
Theorem save_stores_income_and_switches user sc w row income :
  to_integer (inCents (monthlyIncome sc)) = Some income ->
  fst (select_profile (id user) w) = Some row ->
  let w' := exec (handleSave (Some user) sc) w in
  let sc' := eval (handleSave (Some user) sc) w in
  let saved := {| p_user_id := p_user_id row; p_monthly_income := income;
                  p_onboarding_completed := p_onboarding_completed row;
                  p_impulse_blocker_enabled := impulseBlocker sc;
                  p_show_total_balance := showBalance sc |} in
  fst (select_profile (id user) w') = Some saved /\
  profile sc' = Some saved /\
  impulseBlocker sc' = impulseBlocker sc /\ showBalance sc' = showBalance sc /\
  loading sc' = false /\
  (forall r, In r (profiles w) -> p_user_id r <> id user -> In r (profiles w')) /\
  List.length (profiles w') = List.length (profiles w) /\
  (budget_categories w', income_splits w', Store.transactions w',
   locked_savings w', treat_wallet w')
  = (budget_categories w, income_splits w, Store.transactions w,
     locked_savings w, treat_wallet w).
Proof.
  intros Hi Hsel w' sc' saved.
  assert (Ew : w' = exec (update_profile_settings (id user) (inCents (monthlyIncome sc))
                            (impulseBlocker sc) (showBalance sc)) w).
  { subst w'. unfold exec at 1. rewrite handleSave_run. reflexivity. }
  rewrite (update_profile_settings_accepted _ _ income _ _ _ Hi) in Ew.
  assert (Hs : fst (select_profile (id user) w') = Some saved).
  { rewrite (SetupFacts.select_profile_mapped (id user)
               (fun r => {| p_user_id := p_user_id r; p_monthly_income := income;
                            p_onboarding_completed := p_onboarding_completed r;
                            p_impulse_blocker_enabled := impulseBlocker sc;
                            p_show_total_balance := showBalance sc |}) w w').
    - rewrite Hsel. reflexivity.
    - rewrite Ew. reflexivity.
    - reflexivity. }
  assert (Es : sc' = {| profile := Some saved;
                        monthlyIncome :=
                          match fromCents (of_integer income) with
                          | Some text => text
                          | None => monthlyIncome sc
                          end;
                        impulseBlocker := impulseBlocker sc;
                        showBalance := showBalance sc;
                        loading := false |}).
  { subst sc'. unfold eval. rewrite handleSave_run. cbv zeta. cbn [fst].
    rewrite (update_profile_settings_accepted _ _ income _ _ _ Hi), <- Ew, Hs.
    reflexivity. }
  split; [exact Hs |]. rewrite Es. cbn [profile impulseBlocker showBalance loading].
  repeat (split; [reflexivity |]).
  rewrite Ew. cbn [set_profiles profiles budget_categories income_splits Store.transactions
                   locked_savings treat_wallet].
  split; [| split; [apply length_map | reflexivity]].
  intros r Hr Hne. apply in_map_iff. exists r. split; [| exact Hr].
  destruct (N.eqb (p_user_id r) (id user)) eqn:E; [| reflexivity].
  apply N.eqb_eq in E. contradiction.
Qed.

Lemma save_stores_income_and_switches_witness :
  let sc := {| profile := Some alice_profile; monthlyIncome := str "4200.50";
               impulseBlocker := true; showBalance := false; loading := false |} in
  fst (select_profile (id alice) (exec (handleSave (Some alice) sc) fresh))
  = Some {| p_user_id := 7%N; p_monthly_income := Some 420050;
            p_onboarding_completed := false;
            p_impulse_blocker_enabled := true; p_show_total_balance := false |}.
Proof.
  exact (proj1 (save_stores_income_and_switches alice
                  {| profile := Some alice_profile; monthlyIncome := str "4200.50";
                     impulseBlocker := true; showBalance := false; loading := false |}
                  fresh alice_profile (Some 420050)
                  ltac:(vm_compute; reflexivity) eq_refl)).
Defined.

(** X17.  "Save Changes" does not look at whether the income field holds a
    number: with a text in which [parseFloat] finds none (the empty field
    included) the stored monthly income becomes absent, and the field then
    shows 0.00. *)
Theorem unreadable_income_is_saved_as_absent user sc w row :
  parseFloat (monthlyIncome sc) = NaN ->
  fst (select_profile (id user) w) = Some row ->
  let w' := exec (handleSave (Some user) sc) w in
  let sc' := eval (handleSave (Some user) sc) w in
  option_map p_monthly_income (fst (select_profile (id user) w')) = Some None /\
  monthlyIncome sc' = str "0.00" /\
  option_map p_monthly_income (profile sc') = Some None /\
  formatCurrency (of_integer None) = Some (str "$0.00").
Proof.
  intros Hp Hsel w' sc'.
  assert (Hc : inCents (monthlyIncome sc) = NaN) by (unfold inCents; rewrite Hp; reflexivity).
  assert (Hi : to_integer (inCents (monthlyIncome sc)) = Some None) by (rewrite Hc; reflexivity).
  assert (Ew : w' = exec (update_profile_settings (id user) (inCents (monthlyIncome sc))
                            (impulseBlocker sc) (showBalance sc)) w).
  { subst w'. unfold exec at 1. rewrite handleSave_run. reflexivity. }
  assert (Hs : fst (select_profile (id user) w')
               = Some {| p_user_id := p_user_id row; p_monthly_income := None;
                         p_onboarding_completed := p_onboarding_completed row;
                         p_impulse_blocker_enabled := impulseBlocker sc;
                         p_show_total_balance := showBalance sc |}).
  { rewrite (SetupFacts.select_profile_mapped (id user)
               (fun r => {| p_user_id := p_user_id r; p_monthly_income := None;
                            p_onboarding_completed := p_onboarding_completed r;
                            p_impulse_blocker_enabled := impulseBlocker sc;
                            p_show_total_balance := showBalance sc |}) w w').
    - rewrite Hsel. reflexivity.
    - rewrite Ew, (update_profile_settings_accepted _ _ None _ _ _ Hi). reflexivity.
    - reflexivity. }
  split; [rewrite Hs; reflexivity |].
  assert (Es : sc' = {| profile := fst (select_profile (id user) w');
                        monthlyIncome := str "0.00";
                        impulseBlocker := impulseBlocker sc;
                        showBalance := showBalance sc;
                        loading := false |}).
  { subst sc'. unfold eval. rewrite handleSave_run. cbv zeta. cbn [fst].
    rewrite <- Ew, Hs. reflexivity. }
  rewrite Es. cbn [monthlyIncome profile]. rewrite Hs.
  repeat split.
Qed.

Lemma unreadable_income_is_saved_as_absent_witness :
  map p_monthly_income (profiles (exec (handleSave (Some alice) (settings_form "")) fresh))
  = [None] /\
  monthlyIncome (eval (handleSave (Some alice) (settings_form "")) fresh) = str "0.00".
Proof.
  destruct (unreadable_income_is_saved_as_absent alice (settings_form "") fresh
              alice_profile eq_refl eq_refl) as (_ & H2 & _).
  split; [vm_compute; reflexivity | exact H2].
Defined.

(** X18.  When the income does not fit the integer column the whole update
    is refused: the store is left exactly as it was, so the two switches are
    not saved either, and the screen falls back to the stored switches. *)
Theorem refused_income_discards_the_switches user sc w row :
  to_integer (inCents (monthlyIncome sc)) = None ->
  fst (select_profile (id user) w) = Some row ->
  exec (handleSave (Some user) sc) w = w /\
  let sc' := eval (handleSave (Some user) sc) w in
  profile sc' = Some row /\
  impulseBlocker sc' = p_impulse_blocker_enabled row /\
  showBalance sc' = p_show_total_balance row /\
  loading sc' = false.
Proof.
  intros Hi Hsel.
  assert (Eu : exec (update_profile_settings (id user) (inCents (monthlyIncome sc))
                       (impulseBlocker sc) (showBalance sc)) w = w).
  { unfold exec, update_profile_settings. rewrite Hi. reflexivity. }
  split.
  - unfold exec at 1. rewrite handleSave_run. cbv zeta. cbn [snd]. exact Eu.
  - cbv zeta. unfold eval. rewrite handleSave_run. cbv zeta. cbn [fst].
    rewrite Eu, Hsel. repeat split.
Qed.

Lemma refused_income_discards_the_switches_witness :
  let sc := {| profile := Some alice_profile; monthlyIncome := str "21474836.48";
               impulseBlocker := true; showBalance := false; loading := false |} in
  exec (handleSave (Some alice) sc) fresh = fresh /\
  impulseBlocker (eval (handleSave (Some alice) sc) fresh) = false.
Proof.
  destruct (refused_income_discards_the_switches alice
              {| profile := Some alice_profile; monthlyIncome := str "21474836.48";
                 impulseBlocker := true; showBalance := false; loading := false |}
              fresh alice_profile
              ltac:(vm_compute; reflexivity) eq_refl) as (H1 & _ & H3 & _).
  split; [exact H1 | exact H3].
Defined.

End SettingsFacts.

(** ** Locked savings: what the screen accepts, shows and never touches *)

Module LockedSessionFacts.
Import JS JSString Store Locked LockedForm JSFacts QueryFacts.
Import Spec Terms Fixture.
Local Open Scope string_scope.

Lemma unlock_date_asc_total (x y : locked_savings_row) :
  unlock_date_asc x y = false -> unlock_date_asc y x = true.
Proof. unfold unlock_date_asc. rewrite Z.leb_gt, Z.leb_le. lia. Qed.

Lemma select_savings_perm uid statuses w :
  Permutation
    (filter (fun r => N.eqb (ls_user_id r) uid && mem (ls_status r) statuses)
            (locked_savings w))
    (eval (select_savings uid statuses) w).
Proof. unfold eval, select_savings. cbn [fst]. apply sort_by_perm. Qed.

(** X19.  "Lock It" does not compare the unlock date with the present: a
    date that has already passed is accepted like any other the store takes
    (the years 0001 to 9999, with a reason that is a text the store takes),
    the saving is stored as active, and on the next rendering its card
    carries the "Unlock Now" button. *)
Theorem past_unlock_date_is_accepted Date_parse u s a d w :
  nonempty (amount s) = true -> nonempty (reason s) = true ->
  nonempty (unlockDate s) = true ->
  Date_parse (unlockDate s) = Some d ->
  inCents (amount s) = of_Z a -> int4 a = true ->
  is_text (reason s) = true -> is_timestamptz d = true ->
  (d <= now w)%Z ->
  let st' := run (handleLockSavings Date_parse (Some u) s) w in
  locked_savings (fst st') = (locked_savings w ++ [locked_row u s a d w])%list /\
  now (fst st') = now w /\
  unlock_offered (render (now (fst st')) (snd st')) (locked_row u s a d w).
Proof.
  intros H1 H2 H3 Hd Ha Hi Tr Td Hpast st'.
  assert (Hrun : st' = (set_locked_savings w true (locked_savings w ++ [locked_row u s a d w]),
                        set_loading
                          (set_savings (close_form s)
                             (eval (select_savings (id u) ["active"; "unlocked"])
                                (set_locked_savings w true
                                   (locked_savings w ++ [locked_row u s a d w]))))
                          false)).
  { subst st'. unfold run, handleLockSavings. rewrite H1, H2, H3, Hd, Ha. cbn [andb].
    unfold bind, insert_locked_saving.
    cbn [lsi_amount lsi_status lsi_lock_reason lsi_unlock_date].
    rewrite (TreatFacts.to_integer_Z a Hi), Tr, Td. reflexivity. }
  rewrite Hrun. cbn [fst snd]. split; [reflexivity |]. split; [reflexivity |].
  apply LockedFacts.unlock_offered_iff.
  cbn [render set_loading set_savings savings rendered set_locked_savings now].
  split; [| split; [reflexivity | exact Hpast]].
  eapply Permutation_in; [apply select_savings_perm |].
  apply filter_In. split.
  - cbn [set_locked_savings locked_savings]. apply in_or_app. right. left. reflexivity.
  - cbn [locked_row ls_user_id ls_status]. rewrite N.eqb_refl. reflexivity.
Qed.

Lemma past_unlock_date_is_accepted_witness :
  let s := edit_form (str "100.00") (str "Vacation") (str "2020-01-01") (snd opened) in
  let st' := run (handleLockSavings (fun _ => Some 1577836800000) (Some alice) s) fresh in
  unlock_offered (render (now (fst st')) (snd st'))
    (locked_row alice s 10000 1577836800000 fresh).
Proof.
  exact (proj2 (proj2 (past_unlock_date_is_accepted (fun _ => Some 1577836800000) alice
                  (edit_form (str "100.00") (str "Vacation") (str "2020-01-01") (snd opened))
                  10000 1577836800000 fresh
                  eq_refl eq_refl eq_refl eq_refl
                  ltac:(vm_compute; reflexivity) eq_refl eq_refl eq_refl
                  ltac:(vm_compute; discriminate)))).
Defined.

Lemma run_fetchSavings_keeps user s w :
  fst (run (fetchSavings user s) w) = w /\
  loading (snd (run (fetchSavings user s) w)) = loading s.
Proof. destruct user; split; reflexivity. Qed.

Lemma update_saving_status_ids user sid w :
  map ls_id (locked_savings (exec (update_saving_status user sid "unlocked") w))
  = map ls_id (locked_savings w).
Proof.
  assert (E : exec (update_saving_status user sid "unlocked") w
              = set_locked_savings w false (map (unlock_row user sid) (locked_savings w)))
    by reflexivity.
  rewrite E. cbn [set_locked_savings locked_savings]. rewrite map_map.
  apply map_ext. intros r. apply LockedFacts.unlock_row_keeps.
Qed.

(** X20.  A date text that [new Date] cannot read makes [handleLockSavings]
    stop after [setLoading(true)]: nothing is stored and [loading] is never
    switched off again.  From then on "Lock It" stays disabled whatever is
    typed, and through the rest of the session on the screen no saving is
    added to the store. *)
Theorem unreadable_date_blocks_the_form Date_parse u s w st' :
  nonempty (amount s) = true -> nonempty (reason s) = true ->
  nonempty (unlockDate s) = true -> loading s = false ->
  Date_parse (unlockDate s) = None ->
  let st := run (press_Lock_It Date_parse (Some u) s) w in
  st = (w, set_loading s true) /\
  (presses Date_parse (Some u) st st' ->
   loading (snd st') = true /\
   map ls_id (locked_savings (fst st')) = map ls_id (locked_savings w) /\
   forall a r d,
     press_Lock_It Date_parse (Some u) (edit_form a r d (snd st')) (fst st')
     = (edit_form a r d (snd st'), fst st')).
Proof.
  intros H1 H2 H3 Hl Hd st.
  assert (Est : st = (w, set_loading s true)).
  { subst st. unfold run, press_Lock_It, lockIt_disabled, Onboarding.Button_disabled.
    rewrite H1, H2, H3, Hl. cbn [negb orb].
    unfold handleLockSavings. rewrite H1, H2, H3, Hd. reflexivity. }
  split; [exact Est |]. rewrite Est. clear Est st. intros P.
  assert (Inv : loading (snd st') = true /\
                map ls_id (locked_savings (fst st')) = map ls_id (locked_savings w)).
  { remember (w, set_loading s true) as st0 eqn:E0.
    induction P as [st | st st1 st2 _ IH P].
    - subst st. split; reflexivity.
    - destruct (IH E0) as [Il Ii]. clear IH.
      destruct P as [w1 s1 dt Hdt | w1 s1 | w1 s1 a r d | w1 s1 | w1 s1 | w1 s1 saving Ho];
        cbn [fst snd] in *.
      + split; [exact Il | exact Ii].
      + split; [exact Il | exact Ii].
      + split; [exact Il | exact Ii].
      + unfold press_Lock_It, Onboarding.Button_disabled. rewrite Il, orb_true_r.
        split; [exact Il | exact Ii].
      + destruct (run_fetchSavings_keeps (Some u) s1 w1) as [-> ->].
        split; [exact Il | exact Ii].
      + unfold handleUnlock. rewrite LockedFacts.run_bind.
        destruct (run_fetchSavings_keeps (Some u) s1
                    (exec (update_saving_status (Some u) (ls_id saving) "unlocked") w1))
          as [-> ->].
        split; [exact Il |]. rewrite update_saving_status_ids. exact Ii. }
  destruct Inv as [Il Ii]. split; [exact Il |]. split; [exact Ii |].
  intros a r d. unfold press_Lock_It, Onboarding.Button_disabled.
  cbn [edit_form loading]. rewrite Il, orb_true_r. reflexivity.
Qed.

Lemma unreadable_date_blocks_the_form_witness :
  let s := edit_form (str "100.00") (str "Vacation") (str "next year") (snd opened) in
  run (press_Lock_It (fun _ => None) (Some alice) s) fresh = (fresh, set_loading s true).
Proof.
  exact (proj1 (unreadable_date_blocks_the_form (fun _ => None) alice
                  (edit_form (str "100.00") (str "Vacation") (str "next year") (snd opened))
                  fresh (fresh, snd opened)
                  eq_refl eq_refl eq_refl eq_refl eq_refl)).
Defined.

Lemma Permutation_filter {A : Type} (f : A -> bool) (l l' : list A) :
  Permutation l l' -> Permutation (filter f l) (filter f l').
Proof.
  induction 1 as [| x l l' _ IH | x y l | l l' l'' _ IH1 _ IH2].
  - constructor.
  - simpl. destruct (f x); [constructor |]; exact IH.
  - simpl. destruct (f x); destruct (f y); try apply Permutation_refl. constructor.
  - eapply Permutation_trans; eassumption.
Qed.

Lemma sumZ_perm (l l' : list Z) : Permutation l l' -> sumZ l = sumZ l'.
Proof.
  induction 1 as [| x l l' _ IH | x y l | l l' l'' _ IH1 _ IH2]; cbn [sumZ fold_right] in *.
  - reflexivity.
  - fold (sumZ l) (sumZ l') in *. lia.
  - lia.
  - congruence.
Qed.

Lemma filter_filter {A : Type} (f g : A -> bool) (l : list A) :
  filter f (filter g l) = filter (fun x => g x && f x) l.
Proof.
  induction l as [| x l IH]; [reflexivity |].
  simpl. destruct (g x); simpl; [destruct (f x) |]; rewrite IH; reflexivity.
Qed.

Lemma fold_saving_amounts (l : list locked_savings_row) (a : number) :
  fold_left (fun sum r => add sum (of_Z (ls_amount r))) l a
  = fold_left add (map of_Z (map ls_amount l)) a.
Proof.
  revert a. induction l as [| r l IH]; intros a; [reflexivity |]. simpl. apply IH.
Qed.

(** X21.  After [fetchSavings] the screen holds the user's stored savings
    that are active or unlocked, each once, earliest unlock date first, and
    none that is cancelled; and "Total Locked" is the exact sum of the
    amounts of the user's stored active savings, the unlocked ones not
    counted. *)
Theorem total_locked_sums_the_active_savings user s w :
  Forall (fun r => int4 (ls_amount r) = true) (locked_savings w) ->
  (Z.of_nat (List.length (locked_savings w)) <= 2097152)%Z ->
  let s' := eval (fetchSavings (Some user) s) w in
  Permutation
    (filter (fun r => N.eqb (ls_user_id r) (id user)
                      && (String.eqb (ls_status r) "active"
                          || String.eqb (ls_status r) "unlocked"))
            (locked_savings w))
    (savings s') /\
  StronglySorted (fun x y => (ls_unlock_date x <= ls_unlock_date y)%Z) (savings s') /\
  Forall (fun r => ls_status r <> "cancelled") (savings s') /\
  totalLocked s'
  = of_Z (sumZ (map ls_amount
                  (filter (fun r => N.eqb (ls_user_id r) (id user)
                                    && String.eqb (ls_status r) "active")
                          (locked_savings w)))).
Proof.
  intros Hint Hlen s'.
  set (shown := fun r => N.eqb (ls_user_id r) (id user)
                         && (String.eqb (ls_status r) "active"
                             || String.eqb (ls_status r) "unlocked")).
  assert (Es : savings s' = sort_by unlock_date_asc (filter shown (locked_savings w))).
  { subst s'. unfold eval, fetchSavings, bind, select_savings. cbn [fst ret set_savings savings].
    f_equal. apply FetchFacts.filter_ext_eq. intros r. unfold shown, mem.
    cbn [existsb]. rewrite orb_false_r. reflexivity. }
  assert (P : Permutation (filter shown (locked_savings w)) (savings s')).
  { rewrite Es. apply sort_by_perm. }
  split; [exact P |]. split; [| split].
  - rewrite Es. apply Sorted_StronglySorted.
    + intros x y z Hxy Hyz. lia.
    + assert (S : Sorted (fun x y => unlock_date_asc x y = true)
                         (sort_by unlock_date_asc (filter shown (locked_savings w)))).
      { apply sort_by_sorted. exact unlock_date_asc_total. }
      eapply Sorted_ind with (P := fun l => Sorted _ l); [constructor | | exact S].
      intros a l _ IH Hh. constructor; [exact IH |].
      destruct Hh as [| b l' Hb]; constructor.
      unfold unlock_date_asc in Hb. apply Z.leb_le in Hb. exact Hb.
  - apply Forall_forall. intros r Hr.
    eapply Permutation_in in Hr; [| apply Permutation_sym, P].
    apply filter_In in Hr. destruct Hr as [_ Hr]. unfold shown in Hr.
    apply andb_true_iff in Hr. destruct Hr as [_ Hr].
    apply orb_true_iff in Hr. destruct Hr as [Hr | Hr]; apply String.eqb_eq in Hr;
      rewrite Hr; discriminate.
  - unfold totalLocked.
    set (active := filter (fun r => N.eqb (ls_user_id r) (id user)
                                    && String.eqb (ls_status r) "active")
                          (locked_savings w)).
    assert (Pa : Permutation active (activeSavings s')).
    { unfold activeSavings.
      eapply Permutation_trans; [| apply Permutation_filter, P].
      rewrite filter_filter. subst active.
      erewrite FetchFacts.filter_ext_eq; [apply Permutation_refl |].
      intros r. unfold shown. cbv beta.
      destruct (N.eqb (ls_user_id r) (id user));
        destruct (String.eqb (ls_status r) "active");
        destruct (String.eqb (ls_status r) "unlocked"); reflexivity. }
    assert (Fa : Forall (fun r => int4 (ls_amount r) = true) (activeSavings s')).
    { apply Forall_forall. intros r Hr.
      eapply Permutation_in in Hr; [| apply Permutation_sym, Pa].
      subst active. apply filter_In in Hr. rewrite Forall_forall in Hint. apply Hint, Hr. }
    assert (La : (List.length (activeSavings s') <= List.length (locked_savings w))%nat).
    { rewrite <- (Permutation_length Pa). subst active. apply filter_length_le. }
    rewrite fold_saving_amounts.
    destruct (fold_add_exact (map ls_amount (activeSavings s')) 2147483648 0) as [H1 _].
    + apply Forall_map. eapply Forall_impl; [| exact Fa].
      intros r Hr. simpl in Hr. apply TreatFacts.int4_bounds in Hr. lia.
    + rewrite length_map. change (2 ^ 53)%Z with 9007199254740992%Z.
      change (Z.abs 0) with 0%Z. lia.
    + rewrite H1. f_equal. cbn [Z.add].
      apply sumZ_perm, Permutation_map, Permutation_sym, Pa.
Qed.

Lemma total_locked_sums_the_active_savings_witness :
  totalLocked (eval (fetchSavings (Some alice) (snd unlocked)) (fst locked)) = of_Z 10000 /\
  totalLocked (eval (fetchSavings (Some alice) (snd unlocked)) (fst unlocked)) = of_Z 0.
Proof.
  assert (F1 : Forall (fun r => int4 (ls_amount r) = true) (locked_savings (fst locked))).
  { apply Forall_forall. intros r Hr. vm_compute in Hr.
    destruct Hr as [<- | []]. reflexivity. }
  assert (F2 : Forall (fun r => int4 (ls_amount r) = true) (locked_savings (fst unlocked))).
  { apply Forall_forall. intros r Hr. vm_compute in Hr.
    destruct Hr as [<- | []]. reflexivity. }
  pose proof (proj2 (proj2 (proj2 (total_locked_sums_the_active_savings alice (snd unlocked)
                                     (fst locked) F1
                                     ltac:(vm_compute; discriminate))))) as H1.
  pose proof (proj2 (proj2 (proj2 (total_locked_sums_the_active_savings alice (snd unlocked)
                                     (fst unlocked) F2
                                     ltac:(vm_compute; discriminate))))) as H2.
  vm_compute in H1. vm_compute in H2. vm_compute. split; [exact H1 | exact H2].
Defined.

Lemma same_saving_refl r : same_saving r r.
Proof. repeat split. Qed.

Lemma same_saving_unlock user sid r : same_saving r (unlock_row user sid r).
Proof.
  unfold unlock_row.
  destruct (N.eqb (ls_id r) sid && _); repeat split.
Qed.

(** X22.  Nothing on the screen deletes a saving or alters what was locked:
    through a whole session every stored saving stays in the store with its
    identifier, owner, amount, reason, lock time and unlock date; only its
    status can change, and only to 'unlocked'. *)
Theorem stored_savings_are_never_altered Date_parse user st st' :
  steps Date_parse user st st' ->
  forall r, In r (locked_savings (fst st)) ->
    exists r', In r' (locked_savings (fst st')) /\ same_saving r r' /\
               (ls_status r' = ls_status r \/ ls_status r' = "unlocked").
Proof.
  intros S. induction S as [st | st st1 st2 _ IH S]; intros r Hr.
  - exists r. split; [exact Hr |]. split; [apply same_saving_refl | left; reflexivity].
  - destruct (IH r Hr) as (r1 & H1 & Hs & Hst). clear IH.
    assert (Step : exists r2, In r2 (locked_savings (fst st2)) /\ same_saving r1 r2 /\
                              (ls_status r2 = ls_status r1 \/ ls_status r2 = "unlocked")).
    { destruct S as [w s dt Hdt | w s | w s a0 r0 d0 | w s | w s | w s saving Ho];
        cbn [fst snd] in *.
      - exists r1. split; [exact H1 |]. split; [apply same_saving_refl | left; reflexivity].
      - exists r1. split; [exact H1 |]. split; [apply same_saving_refl | left; reflexivity].
      - exists r1. split; [exact H1 |]. split; [apply same_saving_refl | left; reflexivity].
      - destruct (LockedFacts.handleLockSavings_outcomes Date_parse user s w)
          as (_ & [[Hw _] | (row & Hw & _)]).
        + rewrite Hw. exists r1. split; [exact H1 |].
          split; [apply same_saving_refl | left; reflexivity].
        + rewrite Hw. cbn [set_locked_savings locked_savings]. exists r1.
          split; [apply in_or_app; left; exact H1 |].
          split; [apply same_saving_refl | left; reflexivity].
      - destruct (run_fetchSavings_keeps user s w) as [-> _].
        exists r1. split; [exact H1 |]. split; [apply same_saving_refl | left; reflexivity].
      - unfold handleUnlock. rewrite LockedFacts.run_bind.
        destruct (run_fetchSavings_keeps user s
                    (exec (update_saving_status user (ls_id saving) "unlocked") w))
          as [-> _].
        assert (E : exec (update_saving_status user (ls_id saving) "unlocked") w
                    = set_locked_savings w false
                        (map (unlock_row user (ls_id saving)) (locked_savings w)))
          by reflexivity.
        rewrite E. cbn [set_locked_savings locked_savings].
        exists (unlock_row user (ls_id saving) r1).
        split; [apply in_map; exact H1 |].
        split; [apply same_saving_unlock |].
        unfold unlock_row. destruct (N.eqb (ls_id r1) (ls_id saving) && _);
          [right | left]; reflexivity. }
    destruct Step as (r2 & H2 & Hs2 & Hst2).
    exists r2. split; [exact H2 |]. split.
    + unfold same_saving in *. intuition congruence.
    + destruct Hst2 as [E | E]; [rewrite E; exact Hst | right; exact E].
Qed.

Lemma stored_savings_are_never_altered_witness :
  exists r', In r' (locked_savings (fst unlocked)) /\
             same_saving (locked_row alice (snd filled) 10000 1900000000000 fresh) r' /\
             (ls_status r' = "active" \/ ls_status r' = "unlocked").
Proof.
  assert (S : steps parse_2030 (Some alice) locked unlocked).
  { apply steps_step with (st' := later).
    - apply steps_step with (st' := (advance 200000000000 (fst locked), snd locked)).
      + apply steps_step with (st' := locked); [apply steps_refl |].
        vm_cast_no_check
          (step_wait parse_2030 (Some alice) (fst locked) (snd locked) 200000000000
             ltac:(lia)).
      + vm_cast_no_check
          (step_render parse_2030 (Some alice) (advance 200000000000 (fst locked))
             (snd locked)).
    - assert (O : unlock_offered (snd later)
                    (locked_row alice (snd filled) 10000 1900000000000 fresh)).
      { vm_compute. split; [left; reflexivity | reflexivity]. }
      vm_cast_no_check
        (step_unlock parse_2030 (Some alice) (fst later) (snd later)
           (locked_row alice (snd filled) 10000 1900000000000 fresh) O). }
  exact (stored_savings_are_never_altered parse_2030 (Some alice) locked unlocked S
           (locked_row alice (snd filled) 10000 1900000000000 fresh)
           ltac:(vm_compute; left; reflexivity)).
Defined.

(** X23.  When the store refuses the new saving, because the amount text
    holds no number or the cents do not fit the integer column, "Lock It"
    stores nothing and leaves the form open with everything that was typed,
    ending with [loading] off. *)
Theorem refused_saving_keeps_the_form_open Date_parse u s d w :
  nonempty (amount s) = true -> nonempty (reason s) = true ->
  nonempty (unlockDate s) = true ->
  Date_parse (unlockDate s) = Some d ->
  (forall a, to_integer (inCents (amount s)) <> Some (Some a)) ->
  run (handleLockSavings Date_parse (Some u) s) w = (w, set_loading s false).
Proof.
  intros H1 H2 H3 Hd Hno.
  unfold run, handleLockSavings. rewrite H1, H2, H3, Hd. cbn [andb].
  unfold bind, insert_locked_saving. cbn [lsi_amount lsi_status].
  destruct (to_integer (inCents (amount s))) as [[a |] |]; try reflexivity.
  exfalso. apply (Hno a). reflexivity.
Qed.

Lemma refused_saving_keeps_the_form_open_witness :
  let s := edit_form (str "a lot") (str "Vacation") (str "2030-03-17") (snd opened) in
  run (handleLockSavings parse_2030 (Some alice) s) fresh = (fresh, set_loading s false).
Proof.
  exact (refused_saving_keeps_the_form_open parse_2030 alice
           (edit_form (str "a lot") (str "Vacation") (str "2030-03-17") (snd opened))
           1900000000000 fresh eq_refl eq_refl eq_refl eq_refl
           ltac:(intros a; vm_compute; discriminate)).
Defined.

End LockedSessionFacts.

(** ** Dashboard: what it reads of what the setup wrote *)

Module DashboardFacts.
Import JS JSString Store Dashboard JSFacts QueryFacts.
Import Spec Terms Fixture.
Import OnboardingFacts.
Local Open Scope string_scope.

(** [fetchData], step by step. *)
Lemma fetchData_run user sd w :
  fetchData (Some user) sd w
  = (match fst (select_profile (id user) w) with
     | Some data =>
         if negb (p_onboarding_completed data) then
           {| profile := Some data; categories := categories sd;
              showBalance := p_show_total_balance data;
              replaced := Some "/onboarding" |}
         else
           {| profile := Some data;
              categories := fst (select_categories (id user) w);
              showBalance := p_show_total_balance data;
              replaced := replaced sd |}
     | None =>
         {| profile := profile sd;
            categories := fst (select_categories (id user) w);
            showBalance := showBalance sd;
            replaced := replaced sd |}
     end, w).
Proof.
  unfold fetchData, bind, select_profile. cbn [fst].
  destruct (maybeSingle _) as [data |]; [| reflexivity].
  destruct (p_onboarding_completed data); reflexivity.
Qed.

Lemma update_profile_onboarding_accepted uid x income w :
  to_integer x = Some income ->
  exec (update_profile_onboarding uid x) w
  = set_profiles w
      (map (fun r =>
              if N.eqb (p_user_id r) uid then
                {| p_user_id := p_user_id r; p_monthly_income := income;
                   p_onboarding_completed := true;
                   p_impulse_blocker_enabled := p_impulse_blocker_enabled r;
                   p_show_total_balance := p_show_total_balance r |}
              else r)
           (profiles w)).
Proof. intros E. unfold exec, update_profile_onboarding. rewrite E. reflexivity. Qed.

(** The dashboard after a setup whose profile update was accepted. *)
Lemma setup_then_dashboard user h s sd w row :
  fst (select_profile (id user) w) = Some row ->
  to_integer (inCents (Onboarding.monthlyIncome s)) <> None ->
  let w' := exec (Onboarding.handleComplete (Some user) h s) w in
  let d := eval (fetchData (Some user) sd) w' in
  showBalance d = p_show_total_balance row /\
  categories d = fst (select_categories (id user) w').
Proof.
  intros Hsel Hi w' d.
  destruct (to_integer (inCents (Onboarding.monthlyIncome s))) as [income |] eqn:E;
    [| contradiction].
  assert (Hs : fst (select_profile (id user) w')
               = Some {| p_user_id := p_user_id row; p_monthly_income := income;
                         p_onboarding_completed := true;
                         p_impulse_blocker_enabled := p_impulse_blocker_enabled row;
                         p_show_total_balance := p_show_total_balance row |}).
  { rewrite (SetupFacts.select_profile_mapped (id user)
               (fun r => {| p_user_id := p_user_id r; p_monthly_income := income;
                            p_onboarding_completed := true;
                            p_impulse_blocker_enabled := p_impulse_blocker_enabled r;
                            p_show_total_balance := p_show_total_balance r |}) w w').
    - rewrite Hsel. reflexivity.
    - subst w'. rewrite SetupFacts.handleComplete_profiles.
      rewrite (update_profile_onboarding_accepted _ _ income _ E). reflexivity.
    - reflexivity. }
  subst d. unfold eval. rewrite fetchData_run, Hs. split; reflexivity.
Qed.

(** X24.  The dashboard sends a user whose profile is not marked as
    onboarded to the onboarding screen, without loading the categories.
    Completing the setup with an income the column accepts ends that: the
    dashboard then stays and loads the categories.  With an income that does
    not fit the column the profile update is refused, the flag stays off, and
    the dashboard sends the user to the onboarding screen again. *)
Theorem dashboard_redirects_until_the_profile_is_updated user h s sd w row :
  fst (select_profile (id user) w) = Some row ->
  p_onboarding_completed row = false ->
  let w' := exec (Onboarding.handleComplete (Some user) h s) w in
  let before := eval (fetchData (Some user) sd) w in
  let after := eval (fetchData (Some user) sd) w' in
  (replaced before = Some "/onboarding" /\ categories before = categories sd) /\
  (to_integer (inCents (Onboarding.monthlyIncome s)) <> None ->
   replaced after = replaced sd /\
   categories after = fst (select_categories (id user) w')) /\
  (to_integer (inCents (Onboarding.monthlyIncome s)) = None ->
   replaced after = Some "/onboarding").
Proof.
  intros Hsel Hc w' before after. split; [| split].
  - subst before. unfold eval. rewrite fetchData_run, Hsel, Hc. split; reflexivity.
  - intros Hi.
    destruct (to_integer (inCents (Onboarding.monthlyIncome s))) as [income |] eqn:E;
      [| contradiction].
    assert (Hs : fst (select_profile (id user) w')
                 = Some {| p_user_id := p_user_id row; p_monthly_income := income;
                           p_onboarding_completed := true;
                           p_impulse_blocker_enabled := p_impulse_blocker_enabled row;
                           p_show_total_balance := p_show_total_balance row |}).
    { rewrite (SetupFacts.select_profile_mapped (id user)
                 (fun r => {| p_user_id := p_user_id r; p_monthly_income := income;
                              p_onboarding_completed := true;
                              p_impulse_blocker_enabled := p_impulse_blocker_enabled r;
                              p_show_total_balance := p_show_total_balance r |}) w w').
      - rewrite Hsel. reflexivity.
      - subst w'. rewrite SetupFacts.handleComplete_profiles.
        rewrite (update_profile_onboarding_accepted _ _ income _ E). reflexivity.
      - reflexivity. }
    subst after. unfold eval. rewrite fetchData_run, Hs. split; reflexivity.
  - intros E.
    assert (Hp : profiles w' = profiles w).
    { subst w'. rewrite SetupFacts.handleComplete_profiles.
      unfold exec, update_profile_onboarding. rewrite E. reflexivity. }
    assert (Hs : fst (select_profile (id user) w') = Some row).
    { unfold select_profile in *. cbn [fst] in *. rewrite Hp. exact Hsel. }
    subst after. unfold eval. rewrite fetchData_run, Hs, Hc. reflexivity.
Qed.

Lemma dashboard_redirects_until_the_profile_is_updated_witness :
  replaced (eval (fetchData (Some alice) mounted) fresh) = Some "/onboarding" /\
  replaced (eval (fetchData (Some alice) mounted)
              (exec (Onboarding.handleComplete (Some alice) Onboarding.initial_heap
                       onboarding_form) fresh))
  = None.
Proof.
  destruct (dashboard_redirects_until_the_profile_is_updated alice Onboarding.initial_heap
              onboarding_form mounted fresh alice_profile eq_refl eq_refl)
    as ((H1 & _) & H2 & _).
  split; [exact H1 |].
  exact (proj1 (H2 ltac:(vm_compute; discriminate))).
Defined.

Lemma filter_none {A : Type} (f : A -> bool) (l : list A) :
  (forall x, In x l -> f x = false) -> filter f l = [].
Proof.
  intros H. induction l as [| x l IH]; [reflexivity |].
  simpl. rewrite H by (left; reflexivity). apply IH.
  intros y Hy. apply H. right. exact Hy.
Qed.

Lemma fold_balances (l : list budget_categories_row) (a : number) :
  fold_left (fun sum cat => add sum (of_integer (bc_current_balance cat))) l a
  = fold_left add
      (map of_Z (map (fun cat => match bc_current_balance cat with
                                 | Some b => b
                                 | None => 0%Z
                                 end) l)) a.
Proof.
  revert a. induction l as [| r l IH]; intros a; [reflexivity |].
  simpl. rewrite <- IH. destruct (bc_current_balance r); reflexivity.
Qed.

(** X25.  After the setup of a user who had no budget category, the
    dashboard lists the five new categories in the order of their types,
    bills, daily, emergency, freedom, goals, each with the percentage that was
    on the onboarding screen and a balance of 0; the total balance and
    today's allowance are both 0. *)
Theorem dashboard_lists_the_new_categories user h s sd w row :
  Onboarding.reachable h s ->
  (forall r, In r (budget_categories w) -> bc_user_id r <> id user) ->
  fst (select_profile (id user) w) = Some row ->
  to_integer (inCents (Onboarding.monthlyIncome s)) <> None ->
  let w' := exec (Onboarding.handleComplete (Some user) h s) w in
  let d := eval (fetchData (Some user) sd) w' in
  map bc_category_type (categories d) = ["bills"; "daily"; "emergency"; "freedom"; "goals"] /\
  (forall c, In c (Onboarding.objects h (Onboarding.categories s)) ->
     exists r, In r (categories d) /\ bc_category_type r = Onboarding.type c /\
               of_integer (bc_allocation_percentage r) = Onboarding.percentage c /\
               bc_current_balance r = Some 0%Z) /\
  totalBalance d = of_Z 0 /\ dailyBalance d = of_Z 0 /\
  allowanceText d = Some (if p_show_total_balance row then str "$0.00" else hidden).
Proof.
  intros R Hnew Hsel Hi w' d.
  destruct (reachable_ok h s R) as [[Hl Hf] Hc].
  destruct (percentages_integers h Hf) as (zs & E & F & L).
  destruct (SetupFacts.handleComplete_new_user user h s w zs R Hnew E F)
    as (Ty & Ho & rows & Hrows & Hrun).
  destruct (setup_then_dashboard user h s sd w row Hsel Hi)
    as (Hp & Hcat).
  fold w' in Hp, Hcat. fold d in Hp, Hcat.
  assert (Hb : budget_categories w' = (budget_categories w ++ rows)%list).
  { subst w'. rewrite Hrun. reflexivity. }
  destruct h as [| c0 [| c1 [| c2 [| c3 [| c4 [| c5 h]]]]]]; try discriminate.
  destruct zs as [| z0 [| z1 [| z2 [| z3 [| z4 [| z5 zs]]]]]]; try discriminate.
  destruct rows as [| [i0 u0 n0 t0 p0 b0 k0] [| [i1 u1 n1 t1 p1 b1 k1]
                   [| [i2 u2 n2 t2 p2 b2 k2] [| [i3 u3 n3 t3 p3 b3 k3]
                   [| [i4 u4 n4 t4 p4 b4 k4] [| r5 rows]]]]]]; try discriminate.
  cbn [map combine] in Hrows. unfold category_fields, created_fields in Hrows.
  cbn [fst snd bc_user_id bc_category_name bc_category_type bc_allocation_percentage
       bc_current_balance bc_color_code] in Hrows.
  injection Hrows; intros; subst u0 n0 t0 p0 b0 k0 u1 n1 t1 p1 b1 k1 u2 n2 t2 p2 b2 k2
                                 u3 n3 t3 p3 b3 k3 u4 n4 t4 p4 b4 k4.
  cbn [map] in Ty, E. unfold category_types in Ty.
  injection Ty as T0 T1 T2 T3 T4. injection E as E0 E1 E2 E3 E4.
  assert (Hcats : categories d
                  = [ {| bc_id := i0; bc_user_id := id user;
                         bc_category_name := Onboarding.name c0; bc_category_type := "bills";
                         bc_allocation_percentage := Some z0; bc_current_balance := Some 0%Z;
                         bc_color_code := Onboarding.color c0 |};
                      {| bc_id := i2; bc_user_id := id user;
                         bc_category_name := Onboarding.name c2; bc_category_type := "daily";
                         bc_allocation_percentage := Some z2; bc_current_balance := Some 0%Z;
                         bc_color_code := Onboarding.color c2 |};
                      {| bc_id := i4; bc_user_id := id user;
                         bc_category_name := Onboarding.name c4;
                         bc_category_type := "emergency";
                         bc_allocation_percentage := Some z4; bc_current_balance := Some 0%Z;
                         bc_color_code := Onboarding.color c4 |};
                      {| bc_id := i3; bc_user_id := id user;
                         bc_category_name := Onboarding.name c3; bc_category_type := "freedom";
                         bc_allocation_percentage := Some z3; bc_current_balance := Some 0%Z;
                         bc_color_code := Onboarding.color c3 |};
                      {| bc_id := i1; bc_user_id := id user;
                         bc_category_name := Onboarding.name c1; bc_category_type := "goals";
                         bc_allocation_percentage := Some z1; bc_current_balance := Some 0%Z;
                         bc_color_code := Onboarding.color c1 |} ]).
  { rewrite Hcat. unfold select_categories. cbn [fst]. rewrite Hb.
    rewrite filter_app.
    rewrite (filter_none _ (budget_categories w)).
    - cbn [app filter bc_user_id]. rewrite N.eqb_refl.
      rewrite T0, T1, T2, T3, T4. reflexivity.
    - intros r Hr. apply N.eqb_neq. apply Hnew, Hr. }
  split; [rewrite Hcats; reflexivity |]. split; [| split; [| split]].
  - rewrite Ho, Hcats. intros c Hin.
    destruct Hin as [<- | [<- | [<- | [<- | [<- | []]]]]]; eexists.
    + split; [left; reflexivity |]. cbn. rewrite T0, E0. repeat split.
    + split; [do 4 right; left; reflexivity |]. cbn. rewrite T1, E1. repeat split.
    + split; [right; left; reflexivity |]. cbn. rewrite T2, E2. repeat split.
    + split; [do 3 right; left; reflexivity |]. cbn. rewrite T3, E3. repeat split.
    + split; [do 2 right; left; reflexivity |]. cbn. rewrite T4, E4. repeat split.
  - unfold totalBalance. rewrite Hcats. reflexivity.
  - unfold dailyBalance, dailyCategory. rewrite Hcats. reflexivity.
  - unfold allowanceText, dailyBalance, dailyCategory. rewrite Hcats, Hp.
    cbn [find bc_category_type String.eqb Ascii.eqb Bool.eqb bc_current_balance of_integer].
    destruct (p_show_total_balance row); reflexivity.
Qed.

Lemma dashboard_lists_the_new_categories_witness :
  let w' := exec (Onboarding.handleComplete (Some alice) Onboarding.initial_heap
                    onboarding_form) fresh in
  let d := eval (fetchData (Some alice) mounted) w' in
  map bc_category_type (categories d) = ["bills"; "daily"; "emergency"; "freedom"; "goals"] /\
  totalBalance d = of_Z 0 /\
  allowanceText d = Some (str "$0.00").
Proof.
  destruct (dashboard_lists_the_new_categories alice Onboarding.initial_heap onboarding_form
              mounted fresh alice_profile
              (Onboarding.reach_next _ _
                 (Onboarding.reach_income _ _ (str "5000") Onboarding.reach_mount))
              (fun r (H : In r []) => match H with end)
              eq_refl
              ltac:(vm_compute; discriminate))
    as (H1 & _ & H3 & _ & H5).
  split; [exact H1 |]. split; [exact H3 | exact H5].
Defined.

Lemma find_filter {A : Type} (f : A -> bool) (l : list A) :
  find f l = match filter f l with x :: _ => Some x | [] => None end.
Proof.
  induction l as [| x l IH]; [reflexivity |].
  simpl. destruct (f x); [reflexivity | exact IH].
Qed.

(** X26.  On the dashboard of an onboarded user the categories are the
    user's stored budget categories, each once; "Total Balance" is the exact
    sum of their balances, an absent balance counting as 0; and today's
    allowance is the balance of the user's category of type 'daily', or 0 when
    there is none. *)
Theorem dashboard_totals_the_stored_balances user sd w row :
  fst (select_profile (id user) w) = Some row ->
  p_onboarding_completed row = true ->
  Forall (fun r => int4 (category_balance r) = true) (budget_categories w) ->
  (Z.of_nat (List.length (budget_categories w)) <= 2097152)%Z ->
  let d := eval (fetchData (Some user) sd) w in
  Permutation (filter (category_of user) (budget_categories w)) (categories d) /\
  totalBalance d
  = of_Z (sumZ (map category_balance (filter (category_of user) (budget_categories w)))) /\
  (forall c, filter (daily_of user) (budget_categories w) = [c] ->
             dailyCategory d = Some c /\ dailyBalance d = of_Z (category_balance c)) /\
  (filter (daily_of user) (budget_categories w) = [] ->
   dailyCategory d = None /\ dailyBalance d = of_Z 0).
Proof.
  intros Hsel Hc Hint Hlen d.
  assert (Ed : categories d
               = sort_by category_type_asc (filter (category_of user) (budget_categories w))).
  { subst d. unfold eval. rewrite fetchData_run, Hsel, Hc. reflexivity. }
  assert (P : Permutation (filter (category_of user) (budget_categories w)) (categories d)).
  { rewrite Ed. apply sort_by_perm. }
  assert (Pd : Permutation (filter (daily_of user) (budget_categories w))
                 (filter (fun cat => String.eqb (bc_category_type cat) "daily")
                         (categories d))).
  { eapply Permutation_trans;
      [| apply LockedSessionFacts.Permutation_filter, P].
    rewrite LockedSessionFacts.filter_filter. apply Permutation_refl. }
  split; [exact P |]. split; [| split].
  - unfold totalBalance. rewrite fold_balances.
    fold category_balance.
    change (fun cat => match bc_current_balance cat with Some b => b | None => 0%Z end)
      with category_balance.
    destruct (fold_add_exact (map category_balance (categories d)) 2147483648 0) as [H1 _].
    + apply Forall_map. apply Forall_forall. intros r Hr.
      eapply Permutation_in in Hr; [| apply Permutation_sym, P].
      apply filter_In in Hr. destruct Hr as [Hr _].
      rewrite Forall_forall in Hint. specialize (Hint r Hr).
      apply TreatFacts.int4_bounds in Hint. lia.
    + rewrite length_map, <- (Permutation_length P).
      pose proof (filter_length_le (category_of user) (budget_categories w)).
      change (2 ^ 53)%Z with 9007199254740992%Z. change (Z.abs 0) with 0%Z. lia.
    + rewrite H1. f_equal. cbn [Z.add].
      apply LockedSessionFacts.sumZ_perm, Permutation_map, Permutation_sym, P.
  - intros c Hd. rewrite Hd in Pd. apply Permutation_length_1_inv in Pd.
    unfold dailyBalance, dailyCategory. rewrite find_filter, Pd.
    split; [reflexivity |]. unfold category_balance, of_integer.
    destruct (bc_current_balance c); reflexivity.
  - intros Hd. rewrite Hd in Pd. apply Permutation_nil in Pd.
    unfold dailyBalance, dailyCategory. rewrite find_filter, Pd. split; reflexivity.
Qed.

Lemma dashboard_totals_the_stored_balances_witness :
  let w := exec (Onboarding.handleComplete (Some alice) Onboarding.initial_heap
                   onboarding_form) fresh in
  totalBalance (eval (fetchData (Some alice) mounted) w) = of_Z 0.
Proof.
  assert (F : Forall (fun r => int4 (category_balance r) = true)
                (budget_categories
                   (exec (Onboarding.handleComplete (Some alice) Onboarding.initial_heap
                            onboarding_form) fresh))).
  { apply Forall_forall. intros r Hr. vm_compute in Hr.
    destruct Hr as [<- | [<- | [<- | [<- | [<- | []]]]]]; reflexivity. }
  pose proof (proj1 (proj2 (dashboard_totals_the_stored_balances alice mounted
                              (exec (Onboarding.handleComplete (Some alice)
                                       Onboarding.initial_heap onboarding_form) fresh)
                              {| p_user_id := 7%N; p_monthly_income := Some 500000%Z;
                                 p_onboarding_completed := true;
                                 p_impulse_blocker_enabled := false;
                                 p_show_total_balance := true |}
                              ltac:(vm_compute; reflexivity) eq_refl F
                              ltac:(vm_compute; discriminate)))) as H.
  vm_compute in H. vm_compute. exact H.
Defined.

End DashboardFacts.

(** ** Reports: the range of the savings rate, and what the totals leave out *)

Module ReportFacts.
Import JS JSString Store Reports JSFacts QueryFacts.
Import Spec Terms Fixture.
Local Open Scope Z_scope.

(** X27.  The savings rate of the report is a whole number that lies
    between 0 and 100 whenever the month's expenses are between 0 and its
    income; it is exactly 100 with no expenses, exactly 0 when the expenses
    equal the income, and 0 or negative when the expenses exceed the
    income. *)
Theorem savings_rate_stays_in_range (I E : Z) :
  0 < I < 2 ^ 53 -> Z.abs (I - E) <= 2 ^ 43 ->
  exists r,
    savingsRate (of_Z I) (of_Z E) = of_Z r /\
    (0 <= E <= I -> 0 <= r <= 100) /\
    (E = 0 -> r = 100) /\ (E = I -> r = 0) /\
    (I < E -> r <= 0).
Proof.
  intros HI HD.
  destruct (ReportsFacts.savingsRate_rounds I E HI HD) as (r & Er & B & T).
  exists r. split; [exact Er |].
  unfold round_half_up, halfway in *.
  set (p := 100 * (I - E)) in *.
  assert (Hq : 2 * p + I = 2 * I * ((2 * p + I) / (2 * I)) + (2 * p + I) mod (2 * I)).
  { apply Z.div_mod. lia. }
  assert (Hm : 0 <= (2 * p + I) mod (2 * I) < 2 * I) by (apply Z.mod_pos_bound; lia).
  set (k := (2 * p + I) / (2 * I)) in *. set (m := (2 * p + I) mod (2 * I)) in *.
  split; [| split; [| split]].
  - intros HE. assert (P0 : 0 <= p <= 100 * I) by (unfold p; lia).
    assert (K : 0 <= k <= 100) by nia.
    split; [| lia].
    destruct (Z.eq_dec m 0) as [M | M].
    + assert (K1 : 1 <= k) by nia. lia.
    + rewrite (T M). lia.
  - intros ->. assert (P0 : p = 100 * I) by (unfold p; lia).
    assert (K : k = 100) by nia.
    assert (M : m <> 0) by nia.
    rewrite (T M). exact K.
  - intros ->. assert (P0 : p = 0) by (unfold p; lia).
    assert (K : k = 0) by nia.
    assert (M : m <> 0) by nia.
    rewrite (T M). exact K.
  - intros HE. assert (P0 : p <= - 100) by (unfold p; lia).
    assert (K : k <= 0) by nia. lia.
Qed.

Lemma savings_rate_stays_in_range_witness :
  exists r, savingsRate (of_Z 400000) (of_Z 170000) = of_Z r /\ 0 <= r <= 100.
Proof.
  destruct (savings_rate_stays_in_range 400000 170000 ltac:(lia) ltac:(vm_compute; discriminate))
    as (r & Er & H & _).
  exists r. split; [exact Er | apply H; lia].
Defined.

Lemma filter_skip {A : Type} (f : A -> bool) (l1 l2 : list A) (x : A) :
  f x = false -> filter f (l1 ++ x :: l2) = filter f (l1 ++ l2).
Proof.
  intros H. rewrite !filter_app. cbn [filter]. rewrite H. reflexivity.
Qed.

(** X28.  The report counts only the transactions of type 'income' and
    'expense' and those flagged as impulse: a transaction of another type
    that is not flagged, such as every treat recorded on the treat-wallet
    screen, changes nothing in the report, wherever it stands in the list and
    whatever its amount. *)
Theorem report_leaves_out_treats_and_transfers user month year random l1 l2 r :
  t_transaction_type r <> "income"%string -> t_transaction_type r <> "expense"%string ->
  t_is_impulse r = false ->
  generateCurrentMonthReport user month year random (Some (l1 ++ r :: l2))
  = generateCurrentMonthReport user month year random (Some (l1 ++ l2)).
Proof.
  intros Hi He Hp. unfold generateCurrentMonthReport.
  destruct user as [u |]; [| reflexivity].
  rewrite !(filter_skip _ l1 l2 r); try reflexivity.
  - exact Hp.
  - apply String.eqb_neq. exact He.
  - apply String.eqb_neq. exact Hi.
Qed.

Lemma report_leaves_out_treats_and_transfers_witness :
  let s := give_form rich_wallet "80.00" in
  generateCurrentMonthReport (Some alice) 11 2026 0
    (Some (month_rows ++ treat_row alice s 8000 (with_wallet rich_wallet) :: []))
  = generateCurrentMonthReport (Some alice) 11 2026 0 (Some (month_rows ++ [])).
Proof.
  apply report_leaves_out_treats_and_transfers.
  - discriminate.
  - discriminate.
  - reflexivity.
Defined.

End ReportFacts.

(** ** Onboarding: what a percentage field makes of the text typed into it *)

Module TypingFacts.
Import JS JSString Store Onboarding JSFacts.
Import Spec Terms Fixture.
Import OnboardingFacts.
Local Open Scope Z_scope.

(** A leading zero announces a hexadecimal literal only before [x] or [X]. *)
Lemma no_hex_prefix (c : N) (r : jsstring) :
  c <> 120%N -> c <> 88%N ->
  match (48 :: c :: r)%N with
  | (48 :: 120 :: r' | 48 :: 88 :: r')%N => (16, r')
  | _ => (10, (48 :: c :: r)%N)
  end = (10, (48 :: c :: r)%N).
Proof.
  intros H1 H2. destruct c as [| p]; [reflexivity |].
  repeat match goal with
         | q : positive |- _ => destruct q; try reflexivity; try contradiction
         end.
Qed.

Lemma enc_not_x (v : Z) : is_digit v -> enc v <> 120%N /\ enc v <> 88%N.
Proof.
  intros H. destruct (AmountFacts.is_digit_cases v H)
    as [-> | [-> | [-> | [-> | [-> | [-> | [-> | [-> | [-> | ->]]]]]]]]];
    split; discriminate.
Qed.

(** [parseInt] of a decimal numeral followed by something that is not part
    of it, with and without a minus sign in front. *)
Lemma parseInt_numeral (n : Z) (rest : jsstring) :
  0 <= n ->
  match rest with
  | [] => True
  | c :: _ => digit 10 c = None /\ c <> 120%N /\ c <> 88%N
  end ->
  parseInt (digits_of n ++ rest) = to_double (inject_Z n) /\
  parseInt (45%N :: digits_of n ++ rest) = to_double (inject_Z (- n)).
Proof.
  intros Hn Hr.
  destruct (AmountFacts.digits_of_spec n Hn) as (ds & E & F & N & V).
  rewrite E. destruct ds as [| v0 ds']; [contradiction |].
  assert (H0 : is_digit v0) by (inversion F; assumption).
  assert (Hrest : match rest with [] => True | c :: _ => digit 10 c = None end).
  { destruct rest as [| c r]; [exact I | apply Hr]. }
  assert (Sp : span_digits 10 (map enc (v0 :: ds') ++ rest) = (v0 :: ds', rest)).
  { apply AmountFacts.span_digits_enc; assumption. }
  assert (Rx : forall (A : Type) (k : Z * jsstring -> A),
             (let (radix, s2) :=
                match (map enc (v0 :: ds') ++ rest)%list with
                | (48 :: 120 :: r | 48 :: 88 :: r)%N => (16, r)
                | _ => (10, (map enc (v0 :: ds') ++ rest)%list)
                end in k (radix, s2))
             = k (10, (map enc (v0 :: ds') ++ rest)%list)).
  { intros A k.
    assert (Rx : match (map enc (v0 :: ds') ++ rest)%list with
                 | (48 :: 120 :: r | 48 :: 88 :: r)%N => (16, r)
                 | _ => (10, (map enc (v0 :: ds') ++ rest)%list)
                 end = (10, (map enc (v0 :: ds') ++ rest)%list)).
    { cbn [map app].
      destruct (AmountFacts.is_digit_cases v0 H0)
        as [-> | [-> | [-> | [-> | [-> | [-> | [-> | [-> | [-> | ->]]]]]]]]];
        try reflexivity.
      change (enc 0) with 48%N.
      destruct ds' as [| v1 ds''].
      - cbn [map app]. destruct rest as [| c r]; [reflexivity |].
        apply no_hex_prefix; apply Hr.
      - cbn [map app]. inversion F as [| ? ? _ F']; subst.
        inversion F' as [| ? ? H1 _]; subst.
        apply no_hex_prefix; apply (enc_not_x v1 H1). }
    destruct (match (map enc (v0 :: ds') ++ rest)%list with
              | (48 :: 120 :: r | 48 :: 88 :: r)%N => (16, r)
              | _ => (10, (map enc (v0 :: ds') ++ rest)%list)
              end) as [radix s2].
    injection Rx as -> ->. reflexivity. }
  split.
  - unfold parseInt.
    assert (T : trim_start (map enc (v0 :: ds') ++ rest) = (map enc (v0 :: ds') ++ rest)%list).
    { cbn [map app trim_start]. rewrite (AmountFacts.enc_not_space v0 H0). reflexivity. }
    rewrite T.
    assert (S : split_sign (map enc (v0 :: ds') ++ rest)
                = (false, (map enc (v0 :: ds') ++ rest)%list)).
    { cbn [map app]. apply AmountFacts.split_sign_enc, H0. }
    rewrite S. cbv beta iota.
    etransitivity;
      [apply (Rx number
                (fun p => let (ds, _) := span_digits (fst p) (snd p) in
                          match ds with
                          | [] => NaN
                          | _ => to_double (inject_Z (digits_value (fst p) ds))
                          end)) |].
    cbn [fst snd]. rewrite Sp. cbv beta iota. rewrite V. reflexivity.
  - unfold parseInt.
    assert (T : trim_start (45%N :: map enc (v0 :: ds') ++ rest)
                = (45%N :: map enc (v0 :: ds') ++ rest)%list) by reflexivity.
    rewrite T. cbn [split_sign]. cbv beta iota.
    etransitivity;
      [apply (Rx number
                (fun p => let (ds, _) := span_digits (fst p) (snd p) in
                          match ds with
                          | [] => NaN
                          | _ => to_double (inject_Z (- digits_value (fst p) ds))
                          end)) |].
    cbn [fst snd]. rewrite Sp. cbv beta iota. rewrite V. reflexivity.
Qed.

(** X29.  A percentage field keeps the whole number its text starts with
    and drops the rest: a numeral followed by anything that does not continue
    it (a decimal point and digits, a percent sign, a space) is stored as that
    number, capped at 100, and a numeral with a minus sign in front is stored
    as 0. *)
Theorem percentage_field_keeps_the_leading_number h s index n rest :
  reachable h s -> (index < 5)%nat -> 0 <= n ->
  match rest with
  | [] => True
  | c :: _ => digit 10 c = None /\ c <> 120%N /\ c <> 88%N
  end ->
  (exists h' s',
      handlePercentageChange h s index (digits_of n ++ rest) = Some (h', s') /\
      nth_error (map percentage (objects h' (categories s'))) index
      = Some (of_Z (Z.min n 100))) /\
  (exists h' s',
      handlePercentageChange h s index (45%N :: digits_of n ++ rest) = Some (h', s') /\
      nth_error (map percentage (objects h' (categories s'))) index = Some (of_Z 0)).
Proof.
  intros R Hi Hn Hr.
  destruct (reachable_ok h s R) as [[Hl Hf] Hc].
  destruct (parseInt_numeral n rest Hn Hr) as [P1 P2].
  assert (Hnth : nth_error (categories s) index = Some index).
  { rewrite Hc. destruct index as [| [| [| [| [| index]]]]]; try reflexivity. lia. }
  assert (G : forall value z,
             clamp (parseInt value) = of_Z z ->
             exists h' s',
               handlePercentageChange h s index value = Some (h', s') /\
               nth_error (map percentage (objects h' (categories s'))) index
               = Some (of_Z z)).
  { intros value z Hz. eexists. eexists. split.
    - unfold handlePercentageChange. cbv zeta. rewrite Hnth.
      fold (clamp (parseInt value)). rewrite Hz. reflexivity.
    - cbn [categories]. rewrite Hc.
      rewrite objects_default by (rewrite set_percentage_length; exact Hl).
      rewrite nth_error_set_percentage by lia.
      rewrite Nat.eqb_refl. reflexivity. }
  split.
  - apply G. rewrite P1, clamp_to_double_Z. f_equal. lia.
  - apply G. rewrite P2, clamp_to_double_Z. f_equal. lia.
Qed.

Lemma percentage_field_keeps_the_leading_number_witness :
  exists h' s',
    handlePercentageChange initial_heap mount 1 (str "12.9") = Some (h', s') /\
    nth_error (map percentage (objects h' (categories s'))) 1 = Some (of_Z 12).
Proof.
  exact (proj1 (percentage_field_keeps_the_leading_number initial_heap mount 1 12 (str ".9")
                  reach_mount ltac:(lia) ltac:(lia)
                  ltac:(repeat split; discriminate))).
Defined.

End TypingFacts.
